(** * mongodb-exporter: the metric-collection core

    A shallow embedding of the collector package of the exporter
    (collector/common.go, the base collector and the fan-out registry,
    and the server-status, replica-set, storage-stats and profile
    collectors), followed by the properties established about it.

    Conventions of the embedding:
    - Go's [interface{}] values coming out of BSON documents are the
      inductive type [value]; [bson.M] is a [gmap string value] and
      [bson.A] a list.
    - [float64] is IEEE-754 binary64, represented by [spec_float] with
      precision 53 and maximal exponent 1024.
    - A method that sends on the metric channel, logs or queries the
      server is a computation in [Exec]: the trace of its events in
      program order, and how it ended (normal return or panic).
    - Go leaves the iteration order of [range] over a map unspecified;
      every such loop takes its order from a [MapOrder]. *)

From Stdlib Require Import ZArith Strings.Ascii Floats.SpecFloat.
From stdpp Require Import gmap strings list fin_maps pretty.

(** ** float64 *)

Module Float64.

Definition float64 : Type := spec_float.

Definition prec : Z := 53.
Definition emax : Z := 1024.

(** The conversion [float64(v)] of an integer: round to nearest, ties
    to even. *)
Definition of_Z (z : Z) : float64 := binary_normalize prec emax z 0 false.

Definition zero : float64 := S754_zero false.
Definition NaN : float64 := S754_nan.
Definition Inf : float64 := S754_infinity false.

Definition ltb (x y : float64) : bool := SFltb x y.
Definition leb (x y : float64) : bool := SFleb x y.
Definition mul (x y : float64) : float64 := SFmul prec emax x y.

(** [exactly f z]: the float [f] is finite and its real value is the
    integer [z]. *)
Definition exactly (f : float64) (z : Z) : Prop :=
  match f with
  | S754_zero _ => z = 0%Z
  | S754_finite s m e =>
      let sm := (if s then Z.neg m else Z.pos m) in
      if (0 <=? e)%Z then z = (sm * 2 ^ e)%Z else (z * 2 ^ (- e))%Z = sm
  | _ => False
  end.

End Float64.

Import Float64.

(** ** Dynamically typed values *)

(** What an [interface{}] decoded from BSON, or written in a Go test,
    can hold.  Integers carry the value of the Go integer. *)
#[warnings="-register-all"]
Inductive value : Type :=
| VNil
| VBool (b : bool)
| VString (s : string)
| VInt (z : Z)
| VInt8 (z : Z)
| VInt16 (z : Z)
| VInt32 (z : Z)
| VInt64 (z : Z)
| VUint32 (z : Z)
| VUint64 (z : Z)
| VFloat32 (f : spec_float)
| VFloat64 (f : float64)
| VTimestamp (t i : Z)
| VDateTime (ms : Z)
| VM (m : gmap string value)
| VA (l : list value).

(** [m[key]] on a [bson.M]: the nil interface when the key is absent. *)
Definition index (m : gmap string value) (k : string) : value :=
  default VNil (m !! k).

(** Type assertions [v.(T)] in their comma-ok form. *)
Definition as_string (v : value) : option string :=
  match v with VString s => Some s | _ => None end.
Definition as_bool (v : value) : option bool :=
  match v with VBool b => Some b | _ => None end.
Definition as_int32 (v : value) : option Z :=
  match v with VInt32 z => Some z | _ => None end.
Definition as_int64 (v : value) : option Z :=
  match v with VInt64 z => Some z | _ => None end.
Definition as_float64 (v : value) : option float64 :=
  match v with VFloat64 f => Some f | _ => None end.
Definition as_M (v : value) : option (gmap string value) :=
  match v with VM m => Some m | _ => None end.
Definition as_A (v : value) : option (list value) :=
  match v with VA l => Some l | _ => None end.
Definition as_Timestamp (v : value) : option (Z * Z) :=
  match v with VTimestamp t i => Some (t, i) | _ => None end.

(** ** collector/common.go *)

(** A [for ... range] loop over a slice of strings that returns at the
    first element equal to [x]. *)
Fixpoint contains (l : list string) (x : string) : bool :=
  match l with
  | [] => false
  | y :: l' => if String.eqb y x then true else contains l' x
  end.

Definition shouldSkipDatabase (dbName : string) : bool :=
  contains ["admin"; "config"; "local"] dbName.

(** [validateMetricValue]: a [*float64] is [option float64]. *)
Definition validateMetricValue (value : option float64) : bool :=
  match value with
  | None => false
  | Some v => if ltb v zero then false else true
  end.

(** [safeGetNumericValue]: the type switch has four cases and a default. *)
Definition safeGetNumericValue (v : value) : option float64 :=
  match v with
  | VInt64 z => if (z <? 0)%Z then None else Some (of_Z z)
  | VInt32 z => if (z <? 0)%Z then None else Some (of_Z z)
  | VInt z => if (z <? 0)%Z then None else Some (of_Z z)
  | VFloat64 f => if ltb f zero then None else Some f
  | _ => None
  end.

(** [shouldSkipCollection]: [len(collName) > 7 && collName[:7] == "system."],
    on the bytes of the name. *)
Definition shouldSkipCollection (collName : string) : bool :=
  (7 <? String.length collName)%nat && String.eqb (String.substring 0 7 collName) "system.".

(** ** Prometheus descriptors and metrics *)

Inductive ValueType := CounterValue | GaugeValue.

(** [prometheus.Desc] as built by [NewDesc(fqName, help, labels, nil)]. *)
Record Desc := NewDesc {
  fqName : string;
  help : string;
  variableLabels : list string;
}.

(** A constant metric: what [MustNewConstMetric] returns. *)
Record Metric := {
  desc : Desc;
  valueType : ValueType;
  metricValue : float64;
  labelValues : list string;
}.

(** ** Effects: the channel, the logger and the server *)

Inductive Level := DebugLevel | InfoLevel | WarnLevel | ErrorLevel.

Record LogEntry := {
  level : Level;
  message : string;
  fields : list (string * string);
}.

(** The upstream queries the modelled collectors issue. *)
Inductive Query :=
| QRunCommand (db cmd : string) (arg : value)
| QListDatabaseNames
| QListCollectionNames (db : string)
| QFindOne (db coll : string)
| QFind (db coll : string) (since until : Z).

(** Go's [(T, error)]; the error is kept as its message. *)
Inductive result (A : Type) :=
| Ok (a : A)
| Err (e : string).
Arguments Ok {A} a.
Arguments Err {A} e.

(** The answers of the server to each query of one collection cycle.
    [find] answers a query on the [ts] field of a collection, for
    [since <= ts < until], sorted by [ts]: the outer result is that of
    [Find], the inner one that of reading the cursor with [All]. *)
Record Client := {
  runCommand : string -> string -> value -> result (gmap string value);
  listDatabaseNames : result (list string);
  listCollectionNames : string -> result (list string);
  findOne : string -> string -> result (gmap string value);
  find : string -> string -> Z -> Z -> result (result (list (gmap string value)));
}.

(** Whether the server answers query [q] with an error. *)
Definition is_err {A} (r : result A) : bool :=
  match r with Ok _ => false | Err _ => true end.

Definition failed (cl : Client) (q : Query) : bool :=
  match q with
  | QRunCommand db cmd arg => is_err (runCommand cl db cmd arg)
  | QListDatabaseNames => is_err (listDatabaseNames cl)
  | QListCollectionNames db => is_err (listCollectionNames cl db)
  | QFindOne db coll => is_err (findOne cl db coll)
  | QFind db coll since until =>
      match find cl db coll since until with
      | Ok r => is_err r
      | Err _ => true
      end
  end.

Inductive Event :=
| ESend (m : Metric)
| ELog (l : LogEntry)
| EQuery (q : Query).

(** How a call ended: it returned, or it panicked with a payload. *)
Inductive Outcome (A : Type) :=
| Ret (a : A)
| Panic (r : string).
Arguments Ret {A} a.
Arguments Panic {A} r.

Definition Exec (A : Type) : Type := list Event * Outcome A.

Definition exec_ret {A} (a : A) : Exec A := ([], Ret a).

Definition exec_bind {A B} (f : A -> Exec B) (m : Exec A) : Exec B :=
  match m with
  | (t, Ret a) => let '(t', r) := f a in (t ++ t', r)
  | (t, Panic r) => (t, Panic r)
  end.

#[global] Instance Exec_ret : MRet Exec := @exec_ret.
#[global] Instance Exec_bind : MBind Exec := @exec_bind.

Definition panic {A} (r : string) : Exec A := ([], Panic r).
Definition send (m : Metric) : Exec unit := ([ESend m], Ret tt).
Definition log (lv : Level) (msg : string) (fs : list (string * string)) : Exec unit :=
  ([ELog {| level := lv; message := msg; fields := fs |}], Ret tt).
Definition showBool (b : bool) : string := if b then "true" else "false".
Definition ask {A} (q : Query) (answer : A) : Exec A := ([EQuery q], Ret answer).

(** A call that only sends: the metrics it sends and how it ends. *)
Definition sending (r : list Metric * Outcome unit) : Exec unit := (ESend <$> r.1, r.2).

(** A [for] loop over a slice whose body returns nothing. *)
Fixpoint forM_ {A} (l : list A) (body : A -> Exec unit) : Exec unit :=
  match l with
  | [] => mret tt
  | x :: l' => body x ;; forM_ l' body
  end.

(** The metrics sent, the log entries written and the queries issued. *)
Definition sent (t : list Event) : list Metric :=
  omap (fun e => match e with ESend m => Some m | _ => None end) t.
Definition queried (t : list Event) : list Query :=
  omap (fun e => match e with EQuery q => Some q | _ => None end) t.

(** [MustNewConstMetric]: it panics on a nil descriptor and when the number
    of label values differs from the number of label names.  The library
    also refuses a label value that is not valid UTF-8; strings here are
    taken to be valid, as those of a BSON document are. *)
Definition MustNewConstMetric (d : option Desc) (vt : ValueType) (v : float64)
    (lvs : list string) : Exec Metric :=
  match d with
  | None => panic "invalid memory address or nil pointer dereference"
  | Some d =>
      if decide (length lvs = length (variableLabels d))
      then mret {| desc := d; valueType := vt; metricValue := v; labelValues := lvs |}
      else panic "inconsistent label cardinality"
  end.

(** [ch <- prometheus.MustNewConstMetric(...)]. *)
Definition emit (d : option Desc) (vt : ValueType) (v : float64)
    (lvs : list string) : Exec unit :=
  m ← MustNewConstMetric d vt v lvs; send m.

(** ** Iteration order of Go maps *)

Record MapOrder := {
  order : forall A : Type, list (string * A) -> list (string * A);
  order_perm : forall A (l : list (string * A)), order A l ≡ₚ l;
}.
Arguments order _ {A} _.

(** [for k, v := range m]. *)
Definition range {A} (o : MapOrder) (m : gmap string A) : list (string * A) :=
  order o (map_to_list m).

Definition source_order : MapOrder :=
  {| order := fun A l => l; order_perm := fun A l => reflexivity l |}.

Definition reverse_order : MapOrder :=
  {| order := fun A l => reverse l; order_perm := fun A l => reverse_Permutation l |}.

(** ** The base collector *)

Record CollectorConfig := {
  CustomLabels : gmap string string;
  EnabledMetrics : list string;
  DisabledMetrics : list string;
  Collectors : gmap string value;
}.

Record BaseCollector := NewBaseCollector {
  client : Client;
  config : CollectorConfig;
}.

(** [instance["k"]] on a [map[string]string]: the empty string when absent. *)
Definition label (m : gmap string string) (k : string) : string :=
  default "" (m !! k).

Module BaseCollector.

Definition getInstanceInfo (bc : BaseCollector) (result : gmap string value)
    : gmap string string :=
  let instance : gmap string string :=
    {[ "instance" := "unknown"; "replica_set" := "unknown"; "shard" := "unknown" ]} in
  let instance :=
    match as_string (index result "host") with
    | Some host => <["instance" := host]> instance
    | None => instance
    end in
  let instance :=
    match as_M (index result "repl") with
    | Some repl =>
        match as_string (index repl "setName") with
        | Some setName => <["replica_set" := setName]> instance
        | None => instance
        end
    | None => instance
    end in
  let instance :=
    match as_string (index result "shard") with
    | Some shard => <["shard" := shard]> instance
    | None => instance
    end in
  instance.

(** Two loops with early returns around the emptiness test of the
    allow-list. *)
Definition isMetricEnabled (bc : BaseCollector) (metricName : string) : bool :=
  if contains (DisabledMetrics (config bc)) metricName then false
  else if decide (length (EnabledMetrics (config bc)) = 0) then true
  else if contains (EnabledMetrics (config bc)) metricName then true
  else false.

(** [addCustomLabels] writes into the map it is given; the updated map is
    returned. *)
Definition addCustomLabels (o : MapOrder) (bc : BaseCollector)
    (labels : gmap string string) : gmap string string :=
  foldl (fun labels kv => <[kv.1 := kv.2]> labels) labels
        (range o (CustomLabels (config bc))).

Definition getNumericValue (bc : BaseCollector) (v : value) : option float64 :=
  safeGetNumericValue v.

End BaseCollector.

(** The collectors that declare a [getInstanceInfo] of their own (lock
    metrics, operation metrics, query executor; the three bodies are the
    same): the three labels, then [addCustomLabels]. *)
Module LockMetricsCollector.

Definition getInstanceInfo (o : MapOrder) (bc : BaseCollector)
    (result : gmap string value) : gmap string string :=
  let labels : gmap string string :=
    {[ "instance" := "unknown"; "replica_set" := "unknown"; "shard" := "unknown" ]} in
  let labels :=
    match as_string (index result "host") with
    | Some host => <["instance" := host]> labels
    | None => labels
    end in
  let labels :=
    match as_M (index result "repl") with
    | Some repl =>
        match as_string (index repl "setName") with
        | Some setName => <["replica_set" := setName]> labels
        | None => labels
        end
    | None => labels
    end in
  let labels :=
    match as_string (index result "shard") with
    | Some shard => <["shard" := shard]> labels
    | None => labels
    end in
  BaseCollector.addCustomLabels o bc labels.

Record LockMetricsCollector := {
  base : BaseCollector;
  descriptors : gmap string Desc;
}.

Definition NewLockMetricsCollector (client : Client) (config : CollectorConfig)
    : LockMetricsCollector :=
  let labels := ["instance"; "replica_set"; "shard"] in
  let descriptors : gmap string Desc :=
    {[ "locks_time_acquiring_global_microseconds_total" :=
         NewDesc "mongodb_locks_time_acquiring_global_microseconds_total"
                 "Total time spent acquiring global locks in microseconds" labels;
       "locks_time_acquiring_database_microseconds_total" :=
         NewDesc "mongodb_locks_time_acquiring_database_microseconds_total"
                 "Total time spent acquiring database locks in microseconds" labels;
       "locks_time_acquiring_collection_microseconds_total" :=
         NewDesc "mongodb_locks_time_acquiring_collection_microseconds_total"
                 "Total time spent acquiring collection locks in microseconds" labels;
       "locks_deadlock_count_total" :=
         NewDesc "mongodb_locks_deadlock_count_total" "Total number of deadlocks" labels;
       "locks_acquire_count_total" :=
         NewDesc "mongodb_locks_acquire_count_total" "Total number of lock acquisitions"
                 labels;
       "locks_acquire_wait_count_total" :=
         NewDesc "mongodb_locks_acquire_wait_count_total"
                 "Total number of lock acquisitions that had to wait" labels ]} in
  {| base := NewBaseCollector client config; descriptors := descriptors |}.

Definition Describe (o : MapOrder) (c : LockMetricsCollector) : list Desc :=
  (range o (descriptors c)).*2.

Definition Name (c : LockMetricsCollector) : string := "lock_metrics".

Definition collectGlobalLockMetrics (c : LockMetricsCollector)
    (locks : gmap string value) (labels : gmap string string) : Exec unit :=
  match as_M (index locks "Global") with
  | Some global =>
      match as_M (index global "acquireCount") with
      | Some acquireCount =>
          match as_int64 (index acquireCount "r") with
          | Some r =>
              emit (descriptors c !! "locks_acquire_count_total")
                   CounterValue (of_Z r)
                   [label labels "instance"; label labels "replica_set";
                    label labels "shard"]
          | None => mret tt
          end
      | None => mret tt
      end;;
      match as_M (index global "acquireWaitCount") with
      | Some acquireWaitCount =>
          match as_int64 (index acquireWaitCount "r") with
          | Some r =>
              emit (descriptors c !! "locks_acquire_wait_count_total")
                   CounterValue (of_Z r)
                   [label labels "instance"; label labels "replica_set";
                    label labels "shard"]
          | None => mret tt
          end
      | None => mret tt
      end;;
      match as_M (index global "timeAcquiringMicros") with
      | Some timeAcquiringMicros =>
          match as_int64 (index timeAcquiringMicros "r") with
          | Some r =>
              emit (descriptors c !! "locks_time_acquiring_global_microseconds_total")
                   CounterValue (of_Z r)
                   [label labels "instance"; label labels "replica_set";
                    label labels "shard"]
          | None => mret tt
          end
      | None => mret tt
      end;;
      match as_M (index global "deadlockCount") with
      | Some deadlockCount =>
          match as_int64 (index deadlockCount "r") with
          | Some r =>
              emit (descriptors c !! "locks_deadlock_count_total")
                   CounterValue (of_Z r)
                   [label labels "instance"; label labels "replica_set";
                    label labels "shard"]
          | None => mret tt
          end
      | None => mret tt
      end
  | None => mret tt
  end.

Definition collectDatabaseLockMetrics (c : LockMetricsCollector)
    (locks : gmap string value) (labels : gmap string string) : Exec unit :=
  match as_M (index locks "Database") with
  | Some database =>
      match as_M (index database "timeAcquiringMicros") with
      | Some timeAcquiringMicros =>
          match as_int64 (index timeAcquiringMicros "r") with
          | Some r =>
              emit (descriptors c !! "locks_time_acquiring_database_microseconds_total")
                   CounterValue (of_Z r)
                   [label labels "instance"; label labels "replica_set";
                    label labels "shard"]
          | None => mret tt
          end;;
          match as_int64 (index timeAcquiringMicros "w") with
          | Some w =>
              emit (descriptors c !! "locks_time_acquiring_database_microseconds_total")
                   CounterValue (of_Z w)
                   [label labels "instance"; label labels "replica_set";
                    label labels "shard"]
          | None => mret tt
          end
      | None => mret tt
      end
  | None => mret tt
  end.

Definition collectCollectionLockMetrics (c : LockMetricsCollector)
    (locks : gmap string value) (labels : gmap string string) : Exec unit :=
  match as_M (index locks "Collection") with
  | Some collection =>
      match as_M (index collection "timeAcquiringMicros") with
      | Some timeAcquiringMicros =>
          match as_int64 (index timeAcquiringMicros "r") with
          | Some r =>
              emit (descriptors c !! "locks_time_acquiring_collection_microseconds_total")
                   CounterValue (of_Z r)
                   [label labels "instance"; label labels "replica_set";
                    label labels "shard"]
          | None => mret tt
          end;;
          match as_int64 (index timeAcquiringMicros "w") with
          | Some w =>
              emit (descriptors c !! "locks_time_acquiring_collection_microseconds_total")
                   CounterValue (of_Z w)
                   [label labels "instance"; label labels "replica_set";
                    label labels "shard"]
          | None => mret tt
          end
      | None => mret tt
      end
  | None => mret tt
  end.

Definition collectLockMetrics (c : LockMetricsCollector) (result : gmap string value)
    (labels : gmap string string) : Exec unit :=
  match as_M (index result "locks") with
  | Some locks =>
      collectGlobalLockMetrics c locks labels;;
      collectDatabaseLockMetrics c locks labels;;
      collectCollectionLockMetrics c locks labels
  | None => mret tt
  end.

Definition Collect (o : MapOrder) (c : LockMetricsCollector) : Exec unit :=
  if negb (BaseCollector.isMetricEnabled (base c) "lock_metrics") then mret tt
  else
    r ← ask (QRunCommand "admin" "serverStatus" (VInt 1))
            (runCommand (client (base c)) "admin" "serverStatus" (VInt 1));
    match r with
    | Err err =>
        log ErrorLevel "Failed to get server status for lock metrics" [("error", err)]
    | Ok result =>
        let instance := getInstanceInfo o (base c) result in
        collectLockMetrics c result instance
    end.

End LockMetricsCollector.

(** ** The registry *)

(** The [Collector] interface: a name, and what [Describe] and [Collect] do
    during the cycle at hand. *)
Record Collector := {
  Name : string;
  Describe : MapOrder -> list Desc;
  Collect : MapOrder -> Exec unit;
}.

(** Of the fields of the registry only the collector list is state; the
    mutex and the wait group are in the step relation below. *)
Record MultiCollector := {
  collectors : list Collector;
}.

(** One goroutine of [MultiCollector.Collect]: the events its collector has
    yet to perform and how the collector's [Collect] ends, or [Exited] after
    the deferred calls ran. *)
Inductive Goroutine :=
| Running (c : Collector) (rest : list Event) (o : Outcome unit)
| Exited.

Record FanOut := {
  goroutines : list Goroutine;
  ch : list Metric;
  logger : list LogEntry;
  upstream : list Query;
  errors : list string;
}.

(** What the caller of [MultiCollector.Collect] observes. *)
Record Collected := {
  channel : list Metric;
  logs : list LogEntry;
  faults : list string;
  returned : Outcome unit;
}.

Module MultiCollector.

Definition NewMultiCollector : MultiCollector := {| collectors := [] |}.

Definition AddCollector (collector : Collector) (mc : MultiCollector)
    : Exec MultiCollector :=
  let mc' := {| collectors := collectors mc ++ [collector] |} in
  log InfoLevel "Added collector" [("name", Name collector)];;
  mret mc'.

(** The loop of [RemoveCollector] at index [i], [rest] being
    [mc.collectors[i:]]: the first collector of that name is cut out. *)
Fixpoint RemoveCollector_loop (name : string) (mc : MultiCollector) (i : nat)
    (rest : list Collector) : Exec MultiCollector :=
  match rest with
  | [] => mret mc
  | collector :: rest' =>
      if String.eqb (Name collector) name then
        let mc' := {| collectors := take i (collectors mc) ++ drop (S i) (collectors mc) |} in
        log InfoLevel "Removed collector" [("name", name)];;
        mret mc'
      else RemoveCollector_loop name mc (S i) rest'
  end.

Definition RemoveCollector (name : string) (mc : MultiCollector) : Exec MultiCollector :=
  RemoveCollector_loop name mc 0 (collectors mc).

(** [Describe] asks each collector in turn. *)
Definition Describe (o : MapOrder) (mc : MultiCollector) : list Desc :=
  flat_map (fun collector => Describe collector o) (collectors mc).

(** [Collect]: one goroutine per collector of the copied list. *)
Definition spawn (o : MapOrder) (mc : MultiCollector) : FanOut :=
  {| goroutines := (fun c => Running c (Collect c o).1 (Collect c o).2) <$> collectors mc;
     ch := []; logger := []; upstream := []; errors := [] |}.

Definition panicError (c : Collector) (r : string) : string :=
  "panic in collector " +:+ Name c +:+ ": " +:+ r.

(** A step of one goroutine: its next event, or its end.  At its end the
    deferred function runs: a recovered panic is appended to [errors] and
    logged; then [wg.Done()]. *)
Inductive step : FanOut -> FanOut -> Prop :=
| step_send st i c m rest o :
    goroutines st !! i = Some (Running c (ESend m :: rest) o) ->
    step st {| goroutines := <[i := Running c rest o]> (goroutines st);
               ch := ch st ++ [m]; logger := logger st;
               upstream := upstream st; errors := errors st |}
| step_log st i c l rest o :
    goroutines st !! i = Some (Running c (ELog l :: rest) o) ->
    step st {| goroutines := <[i := Running c rest o]> (goroutines st);
               ch := ch st; logger := logger st ++ [l];
               upstream := upstream st; errors := errors st |}
| step_query st i c q rest o :
    goroutines st !! i = Some (Running c (EQuery q :: rest) o) ->
    step st {| goroutines := <[i := Running c rest o]> (goroutines st);
               ch := ch st; logger := logger st;
               upstream := upstream st ++ [q]; errors := errors st |}
| step_return st i c :
    goroutines st !! i = Some (Running c [] (Ret tt)) ->
    step st {| goroutines := <[i := Exited]> (goroutines st);
               ch := ch st; logger := logger st;
               upstream := upstream st; errors := errors st |}
| step_recover st i c r :
    goroutines st !! i = Some (Running c [] (Panic r)) ->
    step st {| goroutines := <[i := Exited]> (goroutines st);
               ch := ch st;
               logger := logger st ++
                 [{| level := ErrorLevel; message := "Collector panicked";
                     fields := [("collector", Name c); ("panic", r)] |}];
               upstream := upstream st;
               errors := errors st ++ [panicError c r] |}.

(** After [wg.Wait()]: the summary entry when there were faults. *)
Definition summary (errors : list string) : list LogEntry :=
  if decide (0 < length errors)
  then [{| level := ErrorLevel; message := "Errors occurred during collection";
           fields := ("error_count", pretty (length errors))
                     :: ((fun e => ("errors", e)) <$> errors) |}]
  else [].

(** [Collect o mc out]: some interleaving of the goroutines runs them all
    to their end, and [Collect] returns with [out] observable. *)
Inductive Collect (o : MapOrder) (mc : MultiCollector) : Collected -> Prop :=
| Collect_done st :
    rtc step (spawn o mc) st ->
    Forall (fun g => g = Exited) (goroutines st) ->
    Collect o mc {| channel := ch st;
                    logs := logger st ++ summary (errors st);
                    faults := errors st;
                    returned := Ret tt |}.

Definition Name (mc : MultiCollector) : string := "multi_collector".

End MultiCollector.

Module CollectorManager.

Record CollectorManager := {
  multiCollector : MultiCollector;
  cm_client : Client;
  cm_config : CollectorConfig;
}.

Definition isMetricEnabled (cm : CollectorManager) (metricName : string) : bool :=
  if contains (DisabledMetrics (cm_config cm)) metricName then false
  else if decide (length (EnabledMetrics (cm_config cm)) = 0) then true
  else if contains (EnabledMetrics (cm_config cm)) metricName then true
  else false.

End CollectorManager.

(** ** collector/server_status.go *)

Module ServerStatusCollector.

Record ServerStatusCollector := {
  base : BaseCollector;
  descriptors : gmap string Desc;
}.

Definition NewServerStatusCollector (client : Client) (config : CollectorConfig)
    : ServerStatusCollector :=
  let labels := ["instance"; "replica_set"; "shard"] in
  let descriptors : gmap string Desc :=
    {[ "uptime_seconds" :=
         NewDesc "mongodb_instance_uptime_seconds"
                 "The uptime of the MongoDB instance in seconds" labels;
       "connections" :=
         NewDesc "mongodb_connections" "The current connections metrics"
                 (labels ++ ["state"]);
       "memory" :=
         NewDesc "mongodb_memory_bytes" "The current memory usage in bytes"
                 (labels ++ ["type"]);
       "extra_info" :=
         NewDesc "mongodb_extra_info" "Extra information metrics" (labels ++ ["type"]);
       "network_bytes_total" :=
         NewDesc "mongodb_network_bytes_total" "Network traffic metrics"
                 (labels ++ ["direction"]);
       "op_counters_total" :=
         NewDesc "mongodb_op_counters_total" "Operation counters" (labels ++ ["type"]);
       "metrics_document_total" :=
         NewDesc "mongodb_metrics_document_total" "Document operation metrics"
                 (labels ++ ["type"]);
       "connections_metrics" :=
         NewDesc "mongodb_connections_metrics" "Connections metrics" (labels ++ ["type"]);
       "page_faults_total" :=
         NewDesc "mongodb_page_faults_total" "Page fault statistics" labels ]} in
  {| base := NewBaseCollector client config; descriptors := descriptors |}.

Definition Describe (o : MapOrder) (c : ServerStatusCollector) : list Desc :=
  (range o (descriptors c)).*2.

Definition Name (c : ServerStatusCollector) : string := "server_status".

Definition collectMetrics (o : MapOrder) (c : ServerStatusCollector)
    (result : gmap string value) : Exec unit :=
  let instance := BaseCollector.getInstanceInfo (base c) result in
  let ids := [label instance "instance"; label instance "replica_set";
              label instance "shard"] in
  (* Uptime with validation *)
  match as_float64 (index result "uptime") with
  | Some uptime =>
      if leb zero uptime
      then emit (descriptors c !! "uptime_seconds") GaugeValue uptime ids
      else mret tt
  | None => mret tt
  end;;
  (* Connections *)
  match as_M (index result "connections") with
  | Some connections =>
      let states : gmap string string :=
        {[ "current" := "current"; "available" := "available";
           "active" := "active"; "totalCreated" := "total_created" ]} in
      forM_ (range o states) (fun '(stateKey, stateLabel) =>
        match BaseCollector.getNumericValue (base c) (index connections stateKey) with
        | Some value =>
            emit (descriptors c !! "connections") GaugeValue value (ids ++ [stateLabel])
        | None => mret tt
        end);;
      match as_M (index connections "metrics") with
      | Some metrics =>
          let metricTypes : gmap string string :=
            {[ "awaitingTopology" := "awaiting_topology"; "pending" := "pending";
               "rejected" := "rejected"; "timedOut" := "timed_out" ]} in
          forM_ (range o metricTypes) (fun '(metricKey, metricLabel) =>
            match BaseCollector.getNumericValue (base c) (index metrics metricKey) with
            | Some value =>
                emit (descriptors c !! "connections_metrics") CounterValue value
                     (ids ++ [metricLabel])
            | None => mret tt
            end)
      | None => mret tt
      end
  | None => mret tt
  end;;
  match as_M (index result "mem") with
  | Some mem =>
      let memTypes : gmap string string :=
        {[ "resident" := "resident"; "virtual" := "virtual"; "mapped" := "mapped";
           "mappedWithJournal" := "mapped_with_journal" ]} in
      forM_ (range o memTypes) (fun '(memType, label) =>
        match BaseCollector.getNumericValue (base c) (index mem memType) with
        | Some value =>
            emit (descriptors c !! "memory") GaugeValue
                 (mul (mul value (of_Z 1024)) (of_Z 1024)) (ids ++ [label])
        | None => mret tt
        end)
  | None => mret tt
  end;;
  match as_M (index result "extra_info") with
  | Some extraInfo =>
      match BaseCollector.getNumericValue (base c) (index extraInfo "page_faults") with
      | Some value => emit (descriptors c !! "page_faults_total") CounterValue value ids
      | None => mret tt
      end;;
      let metrics : gmap string string :=
        {[ "heap_usage_bytes" := "heap_usage"; "page_faults" := "page_faults";
           "freeMonitoringStatus" := "free_monitoring_status" ]} in
      forM_ (range o metrics) (fun '(metric, label) =>
        match BaseCollector.getNumericValue (base c) (index extraInfo metric) with
        | Some value =>
            emit (descriptors c !! "extra_info") GaugeValue value (ids ++ [label])
        | None => mret tt
        end)
  | None => mret tt
  end;;
  match as_M (index result "network") with
  | Some network =>
      let networkMetrics : gmap string string :=
        {[ "bytesIn" := "in"; "bytesOut" := "out" ]} in
      forM_ (range o networkMetrics) (fun '(metricKey, direction) =>
        match BaseCollector.getNumericValue (base c) (index network metricKey) with
        | Some value =>
            emit (descriptors c !! "network_bytes_total") CounterValue value
                 (ids ++ [direction])
        | None => mret tt
        end)
  | None => mret tt
  end;;
  match as_M (index result "opcounters") with
  | Some opCounters =>
      forM_ (range o opCounters) (fun '(opType, value) =>
        match BaseCollector.getNumericValue (base c) value with
        | Some val =>
            emit (descriptors c !! "op_counters_total") CounterValue val (ids ++ [opType])
        | None => mret tt
        end)
  | None => mret tt
  end;;
  match as_M (index result "metrics") with
  | Some metrics =>
      match as_M (index metrics "document") with
      | Some document =>
          let types := ["deleted"; "inserted"; "returned"; "updated"] in
          forM_ types (fun docType =>
            match BaseCollector.getNumericValue (base c) (index document docType) with
            | Some value =>
                emit (descriptors c !! "metrics_document_total") CounterValue value
                     (ids ++ [docType])
            | None => mret tt
            end)
      | None => mret tt
      end
  | None => mret tt
  end.

Definition Collect (o : MapOrder) (c : ServerStatusCollector) : Exec unit :=
  if negb (BaseCollector.isMetricEnabled (base c) "server_status") then mret tt
  else
    r ← ask (QRunCommand "admin" "serverStatus" (VInt 1))
            (runCommand (client (base c)) "admin" "serverStatus" (VInt 1));
    match r with
    | Err err => log ErrorLevel "Failed to get server status" [("error", err)]
    | Ok result => collectMetrics o c result
    end.

(** The collector behind the [Collector] interface. *)
Definition asCollector (c : ServerStatusCollector) : Collector :=
  Build_Collector (Name c) (fun o => Describe o c) (fun o => Collect o c).

End ServerStatusCollector.

(** ** The replica-set collector *)

Module ReplicaSetCollector.

Record ReplicaSetCollector := {
  base : BaseCollector;
  descriptors : gmap string Desc;
}.

Definition NewReplicaSetCollector (client : Client) (config : CollectorConfig)
    : ReplicaSetCollector :=
  let labels := ["instance"; "replica_set"; "shard"] in
  let memberLabels := labels ++ ["name"; "state"] in
  let descriptors : gmap string Desc :=
    {[ "member_state" :=
         NewDesc "mongodb_replset_member_state"
                 "State of the replica set member (1=Primary, 2=Secondary, 7=Arbiter)"
                 memberLabels;
       "member_health" :=
         NewDesc "mongodb_replset_member_health"
                 "Health status of the replica set member (0=unhealthy, 1=healthy)"
                 memberLabels;
       "number_of_members" :=
         NewDesc "mongodb_replset_number_of_members"
                 "Total number of members in the replica set" labels;
       "oplog_size_bytes" :=
         NewDesc "mongodb_replset_oplog_size_bytes" "Size of the oplog in bytes" labels;
       "oplog_head_timestamp" :=
         NewDesc "mongodb_replset_oplog_head_timestamp"
                 "Timestamp of the newest oplog entry" labels ]} in
  {| base := NewBaseCollector client config; descriptors := descriptors |}.

Definition Describe (o : MapOrder) (c : ReplicaSetCollector) : list Desc :=
  (range o (descriptors c)).*2.

Definition Name (c : ReplicaSetCollector) : string := "replica_set_status".

Definition getStateString (state : float64) : string :=
  if SFeqb state (of_Z 1) then "PRIMARY"
  else if SFeqb state (of_Z 2) then "SECONDARY"
  else if SFeqb state (of_Z 7) then "ARBITER"
  else "UNKNOWN".

Definition collectOplogMetrics (c : ReplicaSetCollector)
    (instance : gmap string string) : Exec unit :=
  let ids := [label instance "instance"; label instance "replica_set";
              label instance "shard"] in
  (* Get oplog size *)
  r ← ask (QRunCommand "local" "collStats" (VString "oplog.rs"))
          (runCommand (client (base c)) "local" "collStats" (VString "oplog.rs"));
  match r with
  | Err err => log DebugLevel "Failed to get oplog stats" [("error", err)]
  | Ok oplogStats =>
      match as_int64 (index oplogStats "size") with
      | Some size => emit (descriptors c !! "oplog_size_bytes") GaugeValue (of_Z size) ids
      | None => mret tt
      end;;
      (* Get latest oplog entry timestamp *)
      r ← ask (QFindOne "local" "oplog.rs") (findOne (client (base c)) "local" "oplog.rs");
      match r with
      | Err err => log DebugLevel "Failed to get latest oplog entry" [("error", err)]
      | Ok latestOplog =>
          match as_Timestamp (index latestOplog "ts") with
          | Some ts =>
              emit (descriptors c !! "oplog_head_timestamp") GaugeValue (of_Z ts.1) ids
          | None => mret tt
          end
      end
  end.

Definition Collect (o : MapOrder) (c : ReplicaSetCollector) : Exec unit :=
  if negb (BaseCollector.isMetricEnabled (base c) "replica_set_status") then mret tt
  else
    (* Get replica set status *)
    r ← ask (QRunCommand "admin" "replSetGetStatus" (VInt 1))
            (runCommand (client (base c)) "admin" "replSetGetStatus" (VInt 1));
    match r with
    | Err err =>
        (* If not a replica set, log at debug level and return *)
        if String.eqb err "not running with --replSet"
        then log DebugLevel "Not running as replica set" []
        else log ErrorLevel "Failed to get replica set status" [("error", err)]
    | Ok replStatus =>
        let instance := BaseCollector.getInstanceInfo (base c) replStatus in
        let ids := [label instance "instance"; label instance "replica_set";
                    label instance "shard"] in
        (* Number of members *)
        match as_A (index replStatus "members") with
        | Some members =>
            emit (descriptors c !! "number_of_members") GaugeValue
                 (of_Z (Z.of_nat (length members))) ids;;
            (* Member state and health *)
            forM_ members (fun m =>
              match as_M m with
              | Some member =>
                  match as_string (index member "name"),
                        as_int32 (index member "state"),
                        as_int32 (index member "health") with
                  | Some name, Some state, Some health =>
                      emit (descriptors c !! "member_state") GaugeValue (of_Z state)
                           (ids ++ [name; getStateString (of_Z state)]);;
                      emit (descriptors c !! "member_health") GaugeValue (of_Z health)
                           (ids ++ [name; getStateString (of_Z state)])
                  | ok1, ok2, ok3 =>
                      log WarnLevel "Invalid member data"
                          [("has_name", showBool (bool_decide (is_Some ok1)));
                           ("has_state", showBool (bool_decide (is_Some ok2)));
                           ("has_health", showBool (bool_decide (is_Some ok3)))]
                  end
              | None => mret tt
              end)
        | None => mret tt
        end;;
        (* Oplog metrics *)
        collectOplogMetrics c instance
    end.

Definition asCollector (c : ReplicaSetCollector) : Collector :=
  Build_Collector (Name c) (fun o => Describe o c) (fun o => Collect o c).

End ReplicaSetCollector.

(** ** The storage-stats collector *)

Module StorageStatsCollector.

Record StorageStatsCollector := {
  base : BaseCollector;
  descriptors : gmap string Desc;
}.

Definition NewStorageStatsCollector (client : Client) (config : CollectorConfig)
    : StorageStatsCollector :=
  let labels := ["instance"; "replica_set"; "shard"; "database"] in
  let collectionLabels := labels ++ ["collection"] in
  let descriptors : gmap string Desc :=
    {[ "database_size_bytes" :=
         NewDesc "mongodb_database_size_bytes" "Total size of the database in bytes" labels;
       "collection_size_bytes" :=
         NewDesc "mongodb_collection_size_bytes" "Total size of the collection in bytes"
                 collectionLabels;
       "collection_storage_size_bytes" :=
         NewDesc "mongodb_collection_storage_size_bytes"
                 "Total storage size of the collection in bytes" collectionLabels;
       "collection_avg_obj_size_bytes" :=
         NewDesc "mongodb_collection_avg_obj_size_bytes"
                 "Average object size in the collection in bytes" collectionLabels;
       "collection_count" :=
         NewDesc "mongodb_collection_count" "Number of documents in the collection"
                 collectionLabels;
       "collection_index_size_bytes" :=
         NewDesc "mongodb_collection_index_size_bytes"
                 "Total size of all indexes in the collection" collectionLabels;
       "collection_capped" :=
         NewDesc "mongodb_collection_capped"
                 "Whether the collection is capped (1) or not (0)" collectionLabels ]} in
  {| base := NewBaseCollector client config; descriptors := descriptors |}.

Definition Describe (o : MapOrder) (c : StorageStatsCollector) : list Desc :=
  (range o (descriptors c)).*2.

Definition Name (c : StorageStatsCollector) : string := "storage_stats".

(** The body of the loop over the collections of [dbName]. *)
Definition collectCollection (o : MapOrder) (c : StorageStatsCollector)
    (ids : list string) (dbName collName : string) : Exec unit :=
  r ← ask (QRunCommand dbName "collStats" (VString collName))
          (runCommand (client (base c)) dbName "collStats" (VString collName));
  match r with
  | Err err =>
      log ErrorLevel "Failed to get collection stats"
          [("database", dbName); ("collection", collName); ("error", err)]
  | Ok collStats =>
      (* Collection metrics *)
      let metrics : gmap string string :=
        {[ "size" := "collection_size_bytes";
           "storageSize" := "collection_storage_size_bytes";
           "avgObjSize" := "collection_avg_obj_size_bytes";
           "count" := "collection_count";
           "totalIndexSize" := "collection_index_size_bytes" ]} in
      forM_ (range o metrics) (fun '(statName, metricName) =>
        match as_int64 (index collStats statName) with
        | Some value =>
            match descriptors c !! metricName with
            | Some desc =>
                emit (Some desc) GaugeValue (of_Z value) (ids ++ [dbName; collName])
            | None => mret tt
            end
        | None => mret tt
        end);;
      (* Capped collection status *)
      match as_bool (index collStats "capped") with
      | Some capped =>
          let cappedValue := if capped then of_Z 1 else zero in
          emit (descriptors c !! "collection_capped") GaugeValue cappedValue
               (ids ++ [dbName; collName])
      | None => mret tt
      end
  end.

(** The body of the loop over the databases. *)
Definition collectDatabase (o : MapOrder) (c : StorageStatsCollector)
    (ids : list string) (dbName : string) : Exec unit :=
  (* Skip admin and local databases *)
  if String.eqb dbName "admin" || String.eqb dbName "local" || String.eqb dbName "config"
  then mret tt
  else
    (* Get database stats *)
    r ← ask (QRunCommand dbName "dbStats" (VInt 1))
            (runCommand (client (base c)) dbName "dbStats" (VInt 1));
    match r with
    | Err err =>
        log ErrorLevel "Failed to get database stats" [("database", dbName); ("error", err)]
    | Ok dbStats =>
        (* Database size *)
        match as_int64 (index dbStats "dataSize") with
        | Some dataSize =>
            emit (descriptors c !! "database_size_bytes") GaugeValue (of_Z dataSize)
                 (ids ++ [dbName])
        | None => mret tt
        end;;
        (* Get collections *)
        r ← ask (QListCollectionNames dbName) (listCollectionNames (client (base c)) dbName);
        match r with
        | Err err =>
            log ErrorLevel "Failed to list collections" [("database", dbName); ("error", err)]
        | Ok collections => forM_ collections (collectCollection o c ids dbName)
        end
    end.

Definition Collect (o : MapOrder) (c : StorageStatsCollector) : Exec unit :=
  if negb (BaseCollector.isMetricEnabled (base c) "storage_stats") then mret tt
  else
    (* Get list of databases *)
    r ← ask QListDatabaseNames (listDatabaseNames (client (base c)));
    match r with
    | Err err => log ErrorLevel "Failed to list databases" [("error", err)]
    | Ok databases =>
        let instance := BaseCollector.getInstanceInfo (base c) ∅ in
        let ids := [label instance "instance"; label instance "replica_set";
                    label instance "shard"] in
        forM_ databases (collectDatabase o c ids)
    end.

Definition asCollector (c : StorageStatsCollector) : Collector :=
  Build_Collector (Name c) (fun o => Describe o c) (fun o => Collect o c).

End StorageStatsCollector.

(** ** collector/wiredtiger.go: the WiredTiger collector *)

Module WiredTigerCollector.

Record WiredTigerCollector := {
  base : BaseCollector;
  descriptors : gmap string Desc;
}.

(** [labels] has length and capacity 3: each [append] to it yields a
    slice of its own. *)
Definition NewWiredTigerCollector (client : Client) (config : CollectorConfig)
    : WiredTigerCollector :=
  let labels := ["instance"; "replica_set"; "shard"] in
  let cacheLabels := labels ++ ["type"] in
  let descriptors : gmap string Desc :=
    {[ "cache_max_bytes" :=
         NewDesc "mongodb_wiredtiger_cache_max_bytes"
                 "Maximum bytes configured for cache" labels;
       "cache_used_bytes" :=
         NewDesc "mongodb_wiredtiger_cache_used_bytes" "Bytes currently in cache" labels;
       "cache_dirty_bytes" :=
         NewDesc "mongodb_wiredtiger_cache_dirty_bytes"
                 "Bytes currently dirty in cache" labels;
       "cache_pages" :=
         NewDesc "mongodb_wiredtiger_cache_pages" "Number of pages by state" cacheLabels;
       "cache_evicted_total" :=
         NewDesc "mongodb_wiredtiger_cache_evicted_total" "Pages evicted from cache"
                 (labels ++ ["mode"]);
       "io_total" :=
         NewDesc "mongodb_wiredtiger_io_total" "Number of I/O operations"
                 (labels ++ ["type"]);
       "scan_total" :=
         NewDesc "mongodb_wiredtiger_scan_total" "Scan operations" (labels ++ ["type"]);
       "block_operations_total" :=
         NewDesc "mongodb_wiredtiger_block_operations_total" "Block operations"
                 (labels ++ ["type"]) ]} in
  {| base := NewBaseCollector client config; descriptors := descriptors |}.

Definition Describe (o : MapOrder) (c : WiredTigerCollector) : list Desc :=
  (range o (descriptors c)).*2.

Definition Name (c : WiredTigerCollector) : string := "wiredtiger".

Definition collectCacheMetrics (o : MapOrder) (c : WiredTigerCollector)
    (wt : gmap string value) (instance : gmap string string) : Exec unit :=
  let ids := [label instance "instance"; label instance "replica_set";
              label instance "shard"] in
  match as_M (index wt "cache") with
  | Some cache =>
      (* Maximum configured cache size *)
      match as_int64 (index cache "maximum bytes configured") with
      | Some maxBytes =>
          match descriptors c !! "cache_max_bytes" with
          | Some desc => emit (Some desc) GaugeValue (of_Z maxBytes) ids
          | None => mret tt
          end
      | None => mret tt
      end;;
      (* Current cache usage *)
      match as_int64 (index cache "bytes currently in the cache") with
      | Some bytesInCache =>
          match descriptors c !! "cache_used_bytes" with
          | Some desc => emit (Some desc) GaugeValue (of_Z bytesInCache) ids
          | None => mret tt
          end
      | None => mret tt
      end;;
      (* Dirty bytes in cache *)
      match as_int64 (index cache "tracked dirty bytes in the cache") with
      | Some dirtyBytes =>
          match descriptors c !! "cache_dirty_bytes" with
          | Some desc => emit (Some desc) GaugeValue (of_Z dirtyBytes) ids
          | None => mret tt
          end
      | None => mret tt
      end;;
      (* Pages by state *)
      let pageStates : gmap string string :=
        {[ "pages currently held in the cache" := "total";
           "tracked dirty pages in the cache" := "dirty";
           "pages read into cache" := "read";
           "pages written from cache" := "written" ]} in
      match descriptors c !! "cache_pages" with
      | Some desc =>
          forM_ (range o pageStates) (fun '(metric, label) =>
            match as_int64 (index cache metric) with
            | Some value => emit (Some desc) GaugeValue (of_Z value) (ids ++ [label])
            | None => mret tt
            end)
      | None => mret tt
      end;;
      (* Evicted pages *)
      let evictionTypes : gmap string string :=
        {[ "unmodified pages evicted" := "clean";
           "modified pages evicted" := "dirty" ]} in
      match descriptors c !! "cache_evicted_total" with
      | Some desc =>
          forM_ (range o evictionTypes) (fun '(metric, label) =>
            match as_int64 (index cache metric) with
            | Some value => emit (Some desc) CounterValue (of_Z value) (ids ++ [label])
            | None => mret tt
            end)
      | None => mret tt
      end
  | None => mret tt
  end.

Definition collectBlockManagerMetrics (o : MapOrder) (c : WiredTigerCollector)
    (wt : gmap string value) (instance : gmap string string) : Exec unit :=
  let ids := [label instance "instance"; label instance "replica_set";
              label instance "shard"] in
  match as_M (index wt "block-manager") with
  | Some blockManager =>
      (* Block operations *)
      let blockOps : gmap string string :=
        {[ "blocks read" := "read"; "blocks written" := "written";
           "bytes read" := "bytes_read"; "bytes written" := "bytes_written" ]} in
      match descriptors c !! "block_operations_total" with
      | Some desc =>
          forM_ (range o blockOps) (fun '(metric, label) =>
            match as_int64 (index blockManager metric) with
            | Some value => emit (Some desc) CounterValue (of_Z value) (ids ++ [label])
            | None => mret tt
            end)
      | None => mret tt
      end
  | None => mret tt
  end.

Definition collectConcurrentTransactionsMetrics (o : MapOrder) (c : WiredTigerCollector)
    (wt : gmap string value) (instance : gmap string string) : Exec unit :=
  let ids := [label instance "instance"; label instance "replica_set";
              label instance "shard"] in
  match as_M (index wt "concurrentTransactions") with
  | Some concurrentTransactions =>
      match descriptors c !! "io_total" with
      | Some desc =>
          forM_ (range o concurrentTransactions) (fun '(txType, metrics) =>
            match as_M metrics with
            | Some metricsMap =>
                match as_int64 (index metricsMap "available") with
                | Some available =>
                    emit (Some desc) GaugeValue (of_Z available)
                         (ids ++ [txType +:+ "_available"])
                | None => mret tt
                end;;
                match as_int64 (index metricsMap "out") with
                | Some out =>
                    emit (Some desc) GaugeValue (of_Z out) (ids ++ [txType +:+ "_used"])
                | None => mret tt
                end
            | None => mret tt
            end)
      | None => mret tt
      end
  | None => mret tt
  end.

Definition Collect (o : MapOrder) (c : WiredTigerCollector) : Exec unit :=
  if negb (BaseCollector.isMetricEnabled (base c) "wiredtiger") then mret tt
  else
    r ← ask (QRunCommand "admin" "serverStatus" (VInt 1))
            (runCommand (client (base c)) "admin" "serverStatus" (VInt 1));
    match r with
    | Err err => log ErrorLevel "Failed to collect WiredTiger metrics" [("error", err)]
    | Ok result =>
        let instance := BaseCollector.getInstanceInfo (base c) result in
        match as_M (index result "wiredTiger") with
        | Some wt =>
            collectCacheMetrics o c wt instance;;
            collectBlockManagerMetrics o c wt instance;;
            collectConcurrentTransactionsMetrics o c wt instance
        | None => mret tt
        end
    end.

Definition asCollector (c : WiredTigerCollector) : Collector :=
  Build_Collector (Name c) (fun o => Describe o c) (fun o => Collect o c).

End WiredTigerCollector.

(** ** The query-executor collector *)

Module QueryExecutorCollector.

Record QueryExecutorCollector := {
  base : BaseCollector;
  descriptors : gmap string Desc;
}.

Definition NewQueryExecutorCollector (client : Client) (config : CollectorConfig)
    : QueryExecutorCollector :=
  let labels := ["instance"; "replica_set"; "shard"] in
  let descriptors : gmap string Desc :=
    {[ "query_executor_total" :=
         NewDesc "mongodb_metrics_query_executor_total"
                 "Total number of query executor operations" labels;
       "scanned_total" :=
         NewDesc "mongodb_metrics_query_executor_scanned_total"
                 "Total number of documents scanned by query executor" labels;
       "scanned_objects_total" :=
         NewDesc "mongodb_metrics_query_executor_scanned_objects_total"
                 "Total number of objects scanned by query executor" labels ]} in
  {| base := NewBaseCollector client config; descriptors := descriptors |}.

Definition Describe (o : MapOrder) (c : QueryExecutorCollector) : list Desc :=
  (range o (descriptors c)).*2.

Definition Name (c : QueryExecutorCollector) : string := "query_executor".

(** The collector's own [getInstanceInfo], which shadows the one of the
    base collector. *)
Definition getInstanceInfo (o : MapOrder) (c : QueryExecutorCollector)
    (result : gmap string value) : gmap string string :=
  let labels : gmap string string :=
    {[ "instance" := "unknown"; "replica_set" := "unknown"; "shard" := "unknown" ]} in
  let labels :=
    match as_string (index result "host") with
    | Some host => <["instance" := host]> labels
    | None => labels
    end in
  let labels :=
    match as_M (index result "repl") with
    | Some repl =>
        match as_string (index repl "setName") with
        | Some setName => <["replica_set" := setName]> labels
        | None => labels
        end
    | None => labels
    end in
  let labels :=
    match as_string (index result "shard") with
    | Some shard => <["shard" := shard]> labels
    | None => labels
    end in
  BaseCollector.addCustomLabels o (base c) labels.

Definition Collect (o : MapOrder) (c : QueryExecutorCollector) : Exec unit :=
  if negb (BaseCollector.isMetricEnabled (base c) "query_executor") then mret tt
  else
    r ← ask (QRunCommand "admin" "serverStatus" (VInt 1))
            (runCommand (client (base c)) "admin" "serverStatus" (VInt 1));
    match r with
    | Err err => log ErrorLevel "Failed to collect query executor metrics" [("error", err)]
    | Ok result =>
        let instance := getInstanceInfo o c result in
        let ids := [label instance "instance"; label instance "replica_set";
                    label instance "shard"] in
        match as_M (index result "metrics") with
        | Some metrics =>
            match as_M (index metrics "queryExecutor") with
            | Some queryExecutor =>
                (* Total queries *)
                match as_int64 (index queryExecutor "scanned") with
                | Some total =>
                    emit (descriptors c !! "query_executor_total") CounterValue
                         (of_Z total) ids
                | None => mret tt
                end;;
                (* Scanned documents *)
                match as_int64 (index queryExecutor "scanned") with
                | Some scanned =>
                    emit (descriptors c !! "scanned_total") CounterValue (of_Z scanned) ids
                | None => mret tt
                end;;
                (* Scanned objects *)
                match as_int64 (index queryExecutor "scannedObjects") with
                | Some scannedObjects =>
                    emit (descriptors c !! "scanned_objects_total") CounterValue
                         (of_Z scannedObjects) ids
                | None => mret tt
                end
            | None => mret tt
            end
        | None => mret tt
        end
    end.

Definition asCollector (c : QueryExecutorCollector) : Collector :=
  Build_Collector (Name c) (fun o => Describe o c) (fun o => Collect o c).

End QueryExecutorCollector.

(** ** collector/collstats.go: the choice of collections *)

Module CollStatsCollector.

Record CollStatsCollector := {
  base : BaseCollector;
  descriptors : gmap string Desc;
  monitoredCollections : list string;
}.

Definition Describe (o : MapOrder) (c : CollStatsCollector) : list Desc :=
  (range o (descriptors c)).*2.

Definition Name (c : CollStatsCollector) : string := "collstats".

(** [SetMonitoredCollections] allows setting specific collections to
    monitor. *)
Definition SetMonitoredCollections (collections : list string) (c : CollStatsCollector)
    : CollStatsCollector :=
  {| base := base c; descriptors := descriptors c; monitoredCollections := collections |}.

Definition shouldSkipDatabase (c : CollStatsCollector) (dbName : string) : bool :=
  shouldSkipDatabase dbName.

Definition shouldSkipCollection (c : CollStatsCollector) (collName : string) : bool :=
  shouldSkipCollection collName.

(** The loop over the monitored list, left at the first match. *)
Fixpoint shouldMonitorCollection_loop (fullName : string) (monitored : list string) : bool :=
  match monitored with
  | [] => false
  | m :: monitored' =>
      if String.eqb m fullName || String.eqb m "*" then true
      else shouldMonitorCollection_loop fullName monitored'
  end.

Definition shouldMonitorCollection (c : CollStatsCollector) (dbName collName : string)
    : bool :=
  (* If no specific collections configured, monitor all non-system collections *)
  if decide (length (monitoredCollections c) = 0) then true
  else
    (* Check if this specific collection is in the monitored list *)
    let fullName := dbName +:+ "." +:+ collName in
    shouldMonitorCollection_loop fullName (monitoredCollections c).

Section Collect.

(** The five functions that turn the answer of [collStats] into metrics
    ([collectBasicCollectionMetrics] to [collectReadConcernMetrics]) only
    send; they are kept together as the metrics they send and how they
    end. *)
Variable collectCollectionMetrics :
  CollStatsCollector -> gmap string value -> string -> string -> gmap string string ->
  list Metric * Outcome unit.

Definition collectCollectionStats (c : CollStatsCollector) (dbName collName : string)
    (instance : gmap string string) : Exec unit :=
  r ← ask (QRunCommand dbName "collStats" (VString collName))
          (runCommand (client (base c)) dbName "collStats" (VString collName));
  match r with
  | Err err =>
      log DebugLevel "Failed to get collection stats"
          [("database", dbName); ("collection", collName); ("error", err)]
  | Ok stats => sending (collectCollectionMetrics c stats dbName collName instance)
  end.

Definition collectDatabaseCollectionStats (c : CollStatsCollector) (dbName : string)
    (instance : gmap string string) : Exec unit :=
  (* Get list of collections with optimized timeout *)
  r ← ask (QListCollectionNames dbName) (listCollectionNames (client (base c)) dbName);
  match r with
  | Err err =>
      log ErrorLevel "Failed to list collections" [("database", dbName); ("error", err)]
  | Ok collections =>
      log DebugLevel "Found collections"
          (("database", dbName) :: ((fun coll => ("collections", coll)) <$> collections));;
      forM_ collections (fun collName =>
        (* Skip system collections unless explicitly requested *)
        if shouldSkipCollection c collName then
          log DebugLevel "Skipping collection"
              [("database", dbName); ("collection", collName)]
        (* Check if this collection is in the monitored list *)
        else if negb (shouldMonitorCollection c dbName collName) then
          log DebugLevel "Collection not in monitored list"
              [("database", dbName); ("collection", collName)]
        else
          log DebugLevel "Processing collection"
              [("database", dbName); ("collection", collName)];;
          collectCollectionStats c dbName collName instance)
  end.

Definition Collect (c : CollStatsCollector) : Exec unit :=
  log DebugLevel "Collection stats collector starting" [];;
  if negb (BaseCollector.isMetricEnabled (base c) "collstats")
     && negb (BaseCollector.isMetricEnabled (base c) "collection_stats")
  then log DebugLevel "Collection stats collector disabled - not in enabled metrics" []
  else
    (* Get list of databases with optimized timeout *)
    r ← ask QListDatabaseNames (listDatabaseNames (client (base c)));
    match r with
    | Err err => log ErrorLevel "Failed to list databases" [("error", err)]
    | Ok databases =>
        log DebugLevel "Found databases" ((fun db => ("databases", db)) <$> databases);;
        let instance := BaseCollector.getInstanceInfo (base c) ∅ in
        forM_ databases (fun dbName =>
          (* Skip system databases unless explicitly requested *)
          if shouldSkipDatabase c dbName then
            log DebugLevel "Skipping database" [("database", dbName)]
          else
            log DebugLevel "Processing database" [("database", dbName)];;
            collectDatabaseCollectionStats c dbName instance);;
        log DebugLevel "Collection stats collector completed" []
    end.

End Collect.

End CollStatsCollector.

(** ** collector/profile.go: the watermark *)

Module ProfileCollector.

(** [lastCheck] is a [time.Time]: an instant, in nanoseconds. *)
Record ProfileCollector := {
  base : BaseCollector;
  descriptors : gmap string Desc;
  lastCheck : Z;
}.

Definition Describe (o : MapOrder) (c : ProfileCollector) : list Desc :=
  (range o (descriptors c)).*2.

Definition Name (c : ProfileCollector) : string := "profile".

Definition shouldSkipDatabase (c : ProfileCollector) (dbName : string) : bool :=
  (* Skip admin, config, and local databases unless explicitly requested *)
  contains ["admin"; "config"; "local"] dbName.

Section Collect.

(** [primitive.NewDateTimeFromTime] belongs to the driver: the BSON
    date of an instant.  [aggregateProfileMetrics] folds the entries of
    one database into metrics and sends them: it neither queries nor
    logs, reads neither the clock nor [lastCheck], and what it sends
    plays no part in the watermark; it is kept as the metrics it sends
    and how it ends. *)
Variable NewDateTimeFromTime : Z -> Z.
Variable aggregateProfileMetrics :
  ProfileCollector -> list (gmap string value) -> string -> gmap string string ->
  list Metric * Outcome unit.

Definition collectDatabaseProfileMetrics (c : ProfileCollector) (dbName : string)
    (instance : gmap string string) (since until : Z) : Exec unit :=
  (* Check if profiling is enabled *)
  r ← ask (QRunCommand dbName "profile" (VInt (-1)))
          (runCommand (client (base c)) dbName "profile" (VInt (-1)));
  match r with
  | Err err =>
      log DebugLevel "Failed to get profile status" [("database", dbName); ("error", err)]
  | Ok profileStatus =>
      (* Skip if profiling is disabled *)
      if bool_decide (as_int32 (index profileStatus "was") = Some 0%Z) then mret tt
      else
        (* Query the profile collection for operations since last check *)
        let gte := NewDateTimeFromTime since in
        let lt := NewDateTimeFromTime until in
        r ← ask (QFind dbName "system.profile" gte lt)
                (find (client (base c)) dbName "system.profile" gte lt);
        match r with
        | Err err =>
            log DebugLevel "Failed to query profile collection"
                [("database", dbName); ("error", err)]
        | Ok cursor =>
            (* Process profile entries *)
            match cursor with
            | Err err =>
                log ErrorLevel "Failed to decode profile entries"
                    [("database", dbName); ("error", err)]
            | Ok profileEntries =>
                (* Aggregate metrics from profile entries *)
                sending (aggregateProfileMetrics c profileEntries dbName instance)
            end
        end
  end.

(** [Collect] at the instant [now] that its [time.Now()] reads; the
    collector is returned as the call leaves it. *)
Definition Collect (c : ProfileCollector) (now : Z) : Exec ProfileCollector :=
  if negb (BaseCollector.isMetricEnabled (base c) "profile") then mret c
  else
    (* Get list of databases *)
    r ← ask QListDatabaseNames (listDatabaseNames (client (base c)));
    match r with
    | Err err =>
        log ErrorLevel "Failed to list databases for profiling" [("error", err)];;
        mret c
    | Ok databases =>
        let instance := BaseCollector.getInstanceInfo (base c) ∅ in
        let currentTime := now in
        forM_ databases (fun dbName =>
          (* Skip system databases unless explicitly requested *)
          if shouldSkipDatabase c dbName then mret tt
          else collectDatabaseProfileMetrics c dbName instance (lastCheck c) currentTime);;
        mret {| base := base c; descriptors := descriptors c; lastCheck := currentTime |}
    end.

End Collect.





(** *** Reading one profile entry *)

(** Arithmetic on [int64] wraps around. *)
Definition wrap64 (z : Z) : Z := ((z + 2 ^ 63) mod 2 ^ 64 - 2 ^ 63)%Z.

Record LockStat := {
  AcquireCount : Z;
  AcquireWaitCount : Z;
  TimeAcquiringMicros : Z;
}.

(** The two maps are nil until first written; a nil map reads as the
    empty map, and both writers allocate before they write. *)
Record OperationStats := {
  Operation : string;
  Collection : string;
  Count : Z;
  TotalDurationMs : Z;
  MaxDurationMs : Z;
  TotalDocsExamined : Z;
  TotalDocsReturned : Z;
  TotalKeysExamined : Z;
  TotalResponseLength : Z;
  WriteConflicts : Z;
  CpuTimeMicros : Z;
  LockStats : gmap string LockStat;
  StorageStats : gmap string Z;
}.

(** The loop over the keys of [command], left at the first key that is
    none of the three. *)
Fixpoint extractOperationType_loop (keys : list string) : string :=
  match keys with
  | [] => "unknown"
  | cmdType :: keys' =>
      if negb (String.eqb cmdType "filter") && negb (String.eqb cmdType "sort")
         && negb (String.eqb cmdType "projection")
      then cmdType
      else extractOperationType_loop keys'
  end.

Definition extractOperationType (o : MapOrder) (c : ProfileCollector)
    (entry : gmap string value) : string :=
  match as_string (index entry "op") with
  | Some op => op
  | None =>
      match as_M (index entry "command") with
      | Some command =>
          (* Try to extract command type from command object *)
          extractOperationType_loop (range o command).*1
      | None => "unknown"
      end
  end.

(** The loop [for i := len(ns) - 1; i >= 0; i--], entered with [n = i + 1]. *)
Fixpoint extractCollection_loop (ns : string) (n : nat) : string :=
  match n with
  | 0 => ns
  | S i =>
      if bool_decide (String.get i ns = Some "."%char)
      then String.substring (S i) (String.length ns - S i) ns
      else extractCollection_loop ns i
  end.

Definition extractCollection (c : ProfileCollector) (entry : gmap string value) : string :=
  match as_string (index entry "ns") with
  | Some ns =>
      (* Extract collection name from namespace (db.collection) *)
      extractCollection_loop ns (String.length ns)
  | None => "unknown"
  end.

(** The loop over the modes of one counter document of a lock, the same
    for the three counters.  The condition is
    [ok && mode == "r" || mode == "w"], in which [&&] binds tighter; when
    the assertion to [int64] fails the value added is 0. *)
Definition addModes (o : MapOrder) (counts : gmap string value) (total : Z) : Z :=
  foldl (fun total '(mode, count) =>
           let c := default 0%Z (as_int64 count) in
           let ok := bool_decide (is_Some (as_int64 count)) in
           if ok && String.eqb mode "r" || String.eqb mode "w"
           then wrap64 (total + c)
           else total)
        total (range o counts).

Definition collectLockStats (o : MapOrder) (c : ProfileCollector)
    (entry : gmap string value) (stats : OperationStats) : OperationStats :=
  match as_M (index entry "locks") with
  | Some locks =>
      let lockStats :=
        foldl (fun lockStats '(lockType, lockData) =>
                 match as_M lockData with
                 | Some lockInfo =>
                     let lockStat :=
                       default {| AcquireCount := 0; AcquireWaitCount := 0;
                                  TimeAcquiringMicros := 0 |} (lockStats !! lockType) in
                     let acquireCount :=
                       match as_M (index lockInfo "acquireCount") with
                       | Some acquireCount => addModes o acquireCount (AcquireCount lockStat)
                       | None => AcquireCount lockStat
                       end in
                     let timeAcquiring :=
                       match as_M (index lockInfo "timeAcquiringMicros") with
                       | Some timeAcquiring =>
                           addModes o timeAcquiring (TimeAcquiringMicros lockStat)
                       | None => TimeAcquiringMicros lockStat
                       end in
                     let acquireWaitCount :=
                       match as_M (index lockInfo "acquireWaitCount") with
                       | Some acquireWaitCount =>
                           addModes o acquireWaitCount (AcquireWaitCount lockStat)
                       | None => AcquireWaitCount lockStat
                       end in
                     <[lockType := {| AcquireCount := acquireCount;
                                      AcquireWaitCount := acquireWaitCount;
                                      TimeAcquiringMicros := timeAcquiring |}]> lockStats
                 | None => lockStats
                 end)
              (LockStats stats) (range o locks) in
      {| Operation := Operation stats; Collection := Collection stats;
         Count := Count stats; TotalDurationMs := TotalDurationMs stats;
         MaxDurationMs := MaxDurationMs stats;
         TotalDocsExamined := TotalDocsExamined stats;
         TotalDocsReturned := TotalDocsReturned stats;
         TotalKeysExamined := TotalKeysExamined stats;
         TotalResponseLength := TotalResponseLength stats;
         WriteConflicts := WriteConflicts stats; CpuTimeMicros := CpuTimeMicros stats;
         LockStats := lockStats; StorageStats := StorageStats stats |}
  | None => stats
  end.

Definition collectStorageStats (c : ProfileCollector) (entry : gmap string value)
    (stats : OperationStats) : OperationStats :=
  match as_M (index entry "storage") with
  | Some storage =>
      (* Common storage metrics *)
      let storageMetrics :=
        ["data_read"; "data_written"; "index_read"; "index_written";
         "cache_hits"; "cache_misses"; "pages_read"; "pages_written"] in
      let storageStats :=
        foldl (fun storageStats metric =>
                 match as_int64 (index storage metric) with
                 | Some value =>
                     <[metric := wrap64 (default 0%Z (storageStats !! metric) + value)]>
                       storageStats
                 | None => storageStats
                 end)
              (StorageStats stats) storageMetrics in
      {| Operation := Operation stats; Collection := Collection stats;
         Count := Count stats; TotalDurationMs := TotalDurationMs stats;
         MaxDurationMs := MaxDurationMs stats;
         TotalDocsExamined := TotalDocsExamined stats;
         TotalDocsReturned := TotalDocsReturned stats;
         TotalKeysExamined := TotalKeysExamined stats;
         TotalResponseLength := TotalResponseLength stats;
         WriteConflicts := WriteConflicts stats; CpuTimeMicros := CpuTimeMicros stats;
         LockStats := LockStats stats; StorageStats := storageStats |}
  | None => stats
  end.

(** *** Aggregating the entries of one database *)

(** [&OperationStats{Operation: op, Collection: collection}]. *)
Definition newOperationStats (op collection : string) : OperationStats :=
  {| Operation := op; Collection := collection; Count := 0; TotalDurationMs := 0;
     MaxDurationMs := 0; TotalDocsExamined := 0; TotalDocsReturned := 0;
     TotalKeysExamined := 0; TotalResponseLength := 0; WriteConflicts := 0;
     CpuTimeMicros := 0; LockStats := ∅; StorageStats := ∅ |}.

(** Assignments to the fields of [*stats]. *)
Definition setCounters (stats : OperationStats)
    (count totalDurationMs maxDurationMs totalDocsExamined totalDocsReturned
     totalKeysExamined totalResponseLength : Z) : OperationStats :=
  {| Operation := Operation stats; Collection := Collection stats;
     Count := count; TotalDurationMs := totalDurationMs; MaxDurationMs := maxDurationMs;
     TotalDocsExamined := totalDocsExamined; TotalDocsReturned := totalDocsReturned;
     TotalKeysExamined := totalKeysExamined; TotalResponseLength := totalResponseLength;
     WriteConflicts := WriteConflicts stats; CpuTimeMicros := CpuTimeMicros stats;
     LockStats := LockStats stats; StorageStats := StorageStats stats |}.

Definition setWriteConflicts (stats : OperationStats) (writeConflicts : Z)
    : OperationStats :=
  {| Operation := Operation stats; Collection := Collection stats;
     Count := Count stats; TotalDurationMs := TotalDurationMs stats;
     MaxDurationMs := MaxDurationMs stats; TotalDocsExamined := TotalDocsExamined stats;
     TotalDocsReturned := TotalDocsReturned stats;
     TotalKeysExamined := TotalKeysExamined stats;
     TotalResponseLength := TotalResponseLength stats;
     WriteConflicts := writeConflicts; CpuTimeMicros := CpuTimeMicros stats;
     LockStats := LockStats stats; StorageStats := StorageStats stats |}.

Definition setCpuTimeMicros (stats : OperationStats) (cpuTimeMicros : Z)
    : OperationStats :=
  {| Operation := Operation stats; Collection := Collection stats;
     Count := Count stats; TotalDurationMs := TotalDurationMs stats;
     MaxDurationMs := MaxDurationMs stats; TotalDocsExamined := TotalDocsExamined stats;
     TotalDocsReturned := TotalDocsReturned stats;
     TotalKeysExamined := TotalKeysExamined stats;
     TotalResponseLength := TotalResponseLength stats;
     WriteConflicts := WriteConflicts stats; CpuTimeMicros := cpuTimeMicros;
     LockStats := LockStats stats; StorageStats := StorageStats stats |}.

(** The body of the loop over the entries: the two maps before and after
    one entry.  [operationStats] maps to pointers; the statistics written
    through the pointer are those found under the key afterwards. *)
Definition aggregateProfileMetrics_body (o : MapOrder) (c : ProfileCollector)
    (maps : gmap string OperationStats * gmap string Z) (entry : gmap string value)
    : gmap string OperationStats * gmap string Z :=
  let '(operationStats, planSummaryStats) := maps in
  let op := extractOperationType o c entry in
  let collection := extractCollection c entry in
  let key := op +:+ ":" +:+ collection in
  let stats := default (newOperationStats op collection) (operationStats !! key) in
  let count := wrap64 (Count stats + 1) in
  (* Duration *)
  let totalDurationMs :=
    match as_int64 (index entry "millis") with
    | Some millis => wrap64 (TotalDurationMs stats + millis)
    | None => TotalDurationMs stats
    end in
  let maxDurationMs :=
    match as_int64 (index entry "millis") with
    | Some millis =>
        if (MaxDurationMs stats <? millis)%Z then millis else MaxDurationMs stats
    | None => MaxDurationMs stats
    end in
  (* Execution stats *)
  let execStats := as_M (index entry "execStats") in
  let totalDocsExamined :=
    match execStats ≫= fun execStats => as_int64 (index execStats "totalDocsExamined") with
    | Some examined => wrap64 (TotalDocsExamined stats + examined)
    | None => TotalDocsExamined stats
    end in
  let totalDocsReturned :=
    match execStats ≫= fun execStats => as_int64 (index execStats "totalDocsReturned") with
    | Some returned => wrap64 (TotalDocsReturned stats + returned)
    | None => TotalDocsReturned stats
    end in
  let totalKeysExamined :=
    match execStats ≫= fun execStats => as_int64 (index execStats "totalKeysExamined") with
    | Some keysExamined => wrap64 (TotalKeysExamined stats + keysExamined)
    | None => TotalKeysExamined stats
    end in
  (* Response length *)
  let totalResponseLength :=
    match as_int64 (index entry "responseLength") with
    | Some responseLength => wrap64 (TotalResponseLength stats + responseLength)
    | None => TotalResponseLength stats
    end in
  let stats :=
    setCounters stats count totalDurationMs maxDurationMs totalDocsExamined
                totalDocsReturned totalKeysExamined totalResponseLength in
  (* Plan summary *)
  let planSummaryStats :=
    match as_string (index entry "planSummary") with
    | Some planSummary =>
        <[planSummary := wrap64 (default 0%Z (planSummaryStats !! planSummary) + 1)]>
          planSummaryStats
    | None => planSummaryStats
    end in
  (* Lock statistics *)
  let stats := collectLockStats o c entry stats in
  (* Write conflicts *)
  let stats :=
    match as_int64 (index entry "writeConflicts") with
    | Some writeConflicts =>
        setWriteConflicts stats (wrap64 (WriteConflicts stats + writeConflicts))
    | None => stats
    end in
  (* Storage stats *)
  let stats := collectStorageStats c entry stats in
  (* CPU time (if available) *)
  let stats :=
    match as_int64 (index entry "cpuNanos") with
    | Some cpuTime =>
        (* Convert nanos to micros *)
        setCpuTimeMicros stats (wrap64 (CpuTimeMicros stats + Z.quot cpuTime 1000))
    | None => stats
    end in
  (<[key := stats]> operationStats, planSummaryStats).

(** The two maps after the loop over [entries]. *)
Definition aggregateProfileMetrics_loop (o : MapOrder) (c : ProfileCollector)
    (entries : list (gmap string value))
    : gmap string OperationStats * gmap string Z :=
  foldl (aggregateProfileMetrics_body o c) (∅, ∅) entries.

(** [labels] is a slice literal of length and capacity 6: the two
    [append]s to it yield slices of their own. *)
Definition emitOperationMetrics (o : MapOrder) (c : ProfileCollector)
    (stats : gmap string OperationStats) (dbName : string)
    (instance : gmap string string) : Exec unit :=
  forM_ (range o stats) (fun '(_, stat) =>
    let labels := [label instance "instance"; label instance "replica_set";
                   label instance "shard"; dbName; Operation stat; Collection stat] in
    (* Total operations *)
    emit (descriptors c !! "profile_slow_operations_total") CounterValue
         (of_Z (Count stat)) labels;;
    if (0 <? Count stat)%Z then
      (* Average duration; converted to seconds *)
      let avgDuration :=
        SFdiv prec emax
          (SFdiv prec emax (of_Z (TotalDurationMs stat)) (of_Z (Count stat)))
          (of_Z 1000) in
      emit (descriptors c !! "profile_operations_duration_seconds") GaugeValue
           avgDuration labels;;
      (* Documents examined *)
      (if (0 <? TotalDocsExamined stat)%Z then
         emit (descriptors c !! "profile_operations_examined_docs") CounterValue
              (of_Z (TotalDocsExamined stat)) labels
       else mret tt);;
      (* Documents returned *)
      (if (0 <? TotalDocsReturned stat)%Z then
         emit (descriptors c !! "profile_operations_docs_returned") CounterValue
              (of_Z (TotalDocsReturned stat)) labels
       else mret tt);;
      (* Keys examined *)
      (if (0 <? TotalKeysExamined stat)%Z then
         emit (descriptors c !! "profile_operations_keys_examined") CounterValue
              (of_Z (TotalKeysExamined stat)) labels
       else mret tt);;
      (* Response length *)
      (if (0 <? TotalResponseLength stat)%Z then
         emit (descriptors c !! "profile_operations_response_length_bytes") CounterValue
              (of_Z (TotalResponseLength stat)) labels
       else mret tt);;
      (* Write conflicts *)
      (if (0 <? WriteConflicts stat)%Z then
         emit (descriptors c !! "profile_write_conflicts_total") CounterValue
              (of_Z (WriteConflicts stat)) labels
       else mret tt);;
      (* CPU time *)
      (if (0 <? CpuTimeMicros stat)%Z then
         emit (descriptors c !! "profile_cpu_time_microseconds") CounterValue
              (of_Z (CpuTimeMicros stat)) labels
       else mret tt);;
      (* Lock metrics *)
      forM_ (range o (LockStats stat)) (fun '(lockType, lockStat) =>
        let lockLabels := labels ++ [lockType] in
        (if (0 <? AcquireCount lockStat)%Z then
           emit (descriptors c !! "profile_operations_locks_acquired") CounterValue
                (of_Z (AcquireCount lockStat)) lockLabels
         else mret tt);;
        (if (0 <? AcquireWaitCount lockStat)%Z then
           emit (descriptors c !! "profile_operations_lock_wait_time_microseconds")
                CounterValue (of_Z (TimeAcquiringMicros lockStat)) lockLabels
         else mret tt));;
      (* Storage stats *)
      forM_ (range o (StorageStats stat)) (fun '(statName, value) =>
        let storageLabels := labels ++ [statName] in
        emit (descriptors c !! "profile_storage_stats_total") CounterValue
             (of_Z value) storageLabels)
    else mret tt).

Definition emitPlanSummaryMetrics (o : MapOrder) (c : ProfileCollector)
    (planStats : gmap string Z) (dbName : string) (instance : gmap string string)
    : Exec unit :=
  forM_ (range o planStats) (fun '(planSummary, count) =>
    emit (descriptors c !! "profile_plan_summary_total") CounterValue (of_Z count)
         [label instance "instance"; label instance "replica_set";
          label instance "shard"; dbName; planSummary]).

Definition aggregateProfileMetrics (o : MapOrder) (c : ProfileCollector)
    (entries : list (gmap string value)) (dbName : string)
    (instance : gmap string string) : Exec unit :=
  let '(operationStats, planSummaryStats) := aggregateProfileMetrics_loop o c entries in
  (* Emit metrics *)
  emitOperationMetrics o c operationStats dbName instance;;
  emitPlanSummaryMetrics o c planSummaryStats dbName instance.

End ProfileCollector.

(** ** Failure discipline of a trace *)


(** [errorsLogged cl t]: in [t], every query that the server [cl] fails
    is followed at once by a log entry. *)
Fixpoint errorsLogged (cl : Client) (t : list Event) : bool :=
  match t with
  | [] => true
  | EQuery q :: rest =>
      (if failed cl q then match rest with ELog _ :: _ => true | _ => false end else true)
      && errorsLogged cl rest
  | _ :: rest => errorsLogged cl rest
  end.

(** ** Fixtures of the test suite *)

(** [MockCollector] of the collector tests: one descriptor without labels,
    one gauge of value 1. *)
Module MockCollector.

Record MockCollector := { name : string }.

Definition mockDesc : Desc := NewDesc "mock_metric" "Mock metric" [].

Definition Describe (o : MapOrder) (m : MockCollector) : list Desc := [mockDesc].

Definition Collect (o : MapOrder) (m : MockCollector) : Exec unit :=
  emit (Some mockDesc) GaugeValue (of_Z 1) [].

Definition Name (m : MockCollector) : string := name m.

Definition asCollector (m : MockCollector) : Collector :=
  Build_Collector (Name m) (fun o => Describe o m) (fun o => Collect o m).

End MockCollector.

(** A collector whose [Collect] panics with payload [r] after sending
    [pre]. *)
Definition faultyCollector (name : string) (pre : list Metric) (r : string) : Collector :=
  {| Name := name;
     Describe := fun _ => [];
     Collect := fun _ => sending (pre, Panic r) |}.

(** A server that fails every query. *)
Definition unreachable : Client :=
  {| runCommand := fun _ _ _ => Err "server selection timeout";
     listDatabaseNames := Err "server selection timeout";
     listCollectionNames := fun _ => Err "server selection timeout";
     findOne := fun _ _ => Err "server selection timeout";
     find := fun _ _ _ _ => Err "server selection timeout" |}.

(** A server that answers [serverStatus] with [status]. *)
Definition serving (status : gmap string value) : Client :=
  {| runCommand := fun db cmd _ =>
       if String.eqb db "admin" && String.eqb cmd "serverStatus"
       then Ok status else Err "no such command";
     listDatabaseNames := Ok [];
     listCollectionNames := fun _ => Ok [];
     findOne := fun _ _ => Err "no documents in result";
     find := fun _ _ _ _ => Ok (Ok []) |}.

(** A server with two user databases; [dbStats] times out on the first. *)
Definition halfBroken : Client :=
  {| runCommand := fun db cmd _ =>
       if String.eqb cmd "dbStats" && negb (String.eqb db "db1")
       then Ok {[ "dataSize" := VInt64 4096 ]}
       else Err "context deadline exceeded";
     listDatabaseNames := Ok ["db1"; "db2"];
     listCollectionNames := fun _ => Ok [];
     findOne := fun _ _ => Err "no documents in result";
     find := fun _ _ _ _ => Ok (Ok []) |}.

(** A server with one user database, "test", on which profiling is on. *)
Definition profiling (entries : list (gmap string value)) : Client :=
  {| runCommand := fun db cmd _ =>
       if String.eqb cmd "profile" then Ok {[ "was" := VInt32 1 ]}
       else Err "no such command";
     listDatabaseNames := Ok ["admin"; "test"];
     listCollectionNames := fun _ => Ok ["system.profile"];
     findOne := fun _ _ => Err "no documents in result";
     find := fun _ _ _ _ => Ok (Ok entries) |}.

(** A replica set whose status lists [members]. *)
Definition replicating (members : list value) : Client :=
  {| runCommand := fun db cmd _ =>
       if String.eqb cmd "replSetGetStatus"
       then Ok {[ "set" := VString "rs0"; "members" := VA members ]}
       else Err "no such command";
     listDatabaseNames := Ok [];
     listCollectionNames := fun _ => Ok [];
     findOne := fun _ _ => Err "no documents in result";
     find := fun _ _ _ _ => Ok (Ok []) |}.

(** A snapshot with the counters of the query executor. *)
Definition queryExecutorStatus : gmap string value :=
  {[ "host" := VString "test-host";
     "metrics" :=
       VM {[ "queryExecutor" :=
               VM {[ "scanned" := VInt64 7; "scannedObjects" := VInt64 9 ]} ]} ]}.

(** A snapshot with the waiting times of the database locks. *)
Definition lockStatus : gmap string value :=
  {[ "host" := VString "test-host";
     "locks" :=
       VM {[ "Database" :=
               VM {[ "timeAcquiringMicros" :=
                       VM {[ "r" := VInt64 120; "w" := VInt64 45 ]} ]} ]} ]}.

(** Descriptors for the profile collector under the keys of its
    constructor, each with the label names the constructor writes for
    it. *)
Definition profileDescriptors : gmap string Desc :=
  let labels := ["instance"; "replica_set"; "shard"; "database"] in
  let operationLabels := labels ++ ["operation"; "collection"] in
  let planSummaryLabels := labels ++ ["plan_summary"] in
  {[ "profile_slow_operations_total" :=
       NewDesc "mongodb_profile_slow_operations_total"
               "Total number of slow operations by type" operationLabels;
     "profile_operations_duration_seconds" :=
       NewDesc "mongodb_profile_operations_duration_seconds"
               "Duration histogram of profiled operations in seconds" operationLabels;
     "profile_operations_examined_docs" :=
       NewDesc "mongodb_profile_operations_examined_docs"
               "Number of documents examined by profiled operations" operationLabels;
     "profile_operations_docs_returned" :=
       NewDesc "mongodb_profile_operations_docs_returned"
               "Number of documents returned by profiled operations" operationLabels;
     "profile_operations_keys_examined" :=
       NewDesc "mongodb_profile_operations_keys_examined"
               "Number of index keys examined by profiled operations" operationLabels;
     "profile_operations_response_length_bytes" :=
       NewDesc "mongodb_profile_operations_response_length_bytes"
               "Response length in bytes for profiled operations" operationLabels;
     "profile_operations_locks_acquired" :=
       NewDesc "mongodb_profile_operations_locks_acquired"
               "Number of locks acquired during profiled operations"
               (operationLabels ++ ["lock_type"]);
     "profile_operations_lock_wait_time_microseconds" :=
       NewDesc "mongodb_profile_operations_lock_wait_time_microseconds"
               "Time spent waiting for locks during profiled operations in microseconds"
               (operationLabels ++ ["lock_type"]);
     "profile_plan_summary_total" :=
       NewDesc "mongodb_profile_plan_summary_total"
               "Total number of operations by execution plan summary" planSummaryLabels;
     "profile_write_conflicts_total" :=
       NewDesc "mongodb_profile_write_conflicts_total"
               "Total number of write conflicts in profiled operations" operationLabels;
     "profile_storage_stats_total" :=
       NewDesc "mongodb_profile_storage_stats_total"
               "Storage engine statistics from profiled operations"
               (operationLabels ++ ["storage_stat"]);
     "profile_cpu_time_microseconds" :=
       NewDesc "mongodb_profile_cpu_time_microseconds"
               "CPU time used by profiled operations in microseconds" operationLabels ]}.

(** A profile collector with these descriptors, facing a server that
    answers nothing. *)
Definition profiler : ProfileCollector.ProfileCollector :=
  {| ProfileCollector.base :=
       NewBaseCollector unreachable
         {| CustomLabels := ∅; EnabledMetrics := []; DisabledMetrics := [];
            Collectors := ∅ |};
     ProfileCollector.descriptors := profileDescriptors;
     ProfileCollector.lastCheck := 0 |}.

(** Two profile entries: a query and an insert on the same collection. *)
Definition slowQuery : gmap string value :=
  {[ "op" := VString "query"; "ns" := VString "shop.orders"; "millis" := VInt64 120;
     "planSummary" := VString "COLLSCAN" ]}.

Definition slowInsert : gmap string value :=
  {[ "op" := VString "insert"; "ns" := VString "shop.orders"; "millis" := VInt64 30 ]}.

(** The configuration that enables every collector. *)
Definition defaultConfig : CollectorConfig :=
  {| CustomLabels := ∅; EnabledMetrics := []; DisabledMetrics := []; Collectors := ∅ |}.

(** The driver's [NewDateTimeFromTime]: milliseconds, for an instant in
    nanoseconds. *)
Definition millis (t : Z) : Z := (t / 1000000)%Z.

(** The configuration and the snapshot of [TestServerStatusCollectorWithMockData]. *)
Definition testConfig : CollectorConfig :=
  {| CustomLabels := ∅; EnabledMetrics := ["server_status"];
     DisabledMetrics := []; Collectors := ∅ |}.

Definition mockData : gmap string value :=
  {[ "host" := VString "test-host";
     "uptime" := VInt64 3600;
     "connections" :=
       VM {[ "current" := VInt32 10; "available" := VInt32 100;
             "active" := VInt32 5; "totalCreated" := VInt64 1000 ]};
     "mem" :=
       VM {[ "resident" := VInt64 (1024 * 1024 * 100);
             "virtual" := VInt64 (1024 * 1024 * 200) ]};
     "network" :=
       VM {[ "bytesIn" := VInt64 (1024 * 1024); "bytesOut" := VInt64 (2048 * 1024) ]};
     "opcounters" :=
       VM {[ "insert" := VInt64 100; "query" := VInt64 500; "update" := VInt64 50;
             "delete" := VInt64 10; "getmore" := VInt64 20; "command" := VInt64 200 ]};
     "metrics" :=
       VM {[ "document" :=
               VM {[ "deleted" := VInt64 5; "inserted" := VInt64 100;
                     "returned" := VInt64 500; "updated" := VInt64 50 ]} ]};
     "extra_info" := VM {[ "page_faults" := VInt64 10 ]} ]}.

(** The same snapshot as a server reports it: the uptime is a double. *)
Definition liveStatus : gmap string value :=
  <["uptime" := VFloat64 (of_Z 3600)]> mockData.

(** A snapshot whose current-connections reading is the float64 [f]. *)
Definition readingStatus (f : float64) : gmap string value :=
  {[ "host" := VString "test-host";
     "connections" := VM {[ "current" := VFloat64 f ]} ]}.

(** The snapshot of [TestBaseCollector]. *)
Definition testSnapshot : gmap string value :=
  {[ "host" := VString "test-host";
     "repl" := VM {[ "setName" := VString "test-replica" ]};
     "shard" := VString "test-shard" ]}.

(** ** Vocabulary of the properties *)

(** A computation that ends by returning. *)
Definition returns (m : Exec unit) : Prop := m.2 = Ret tt.

(** A send succeeds when the descriptor exists and has as many label
    names as there are label values. *)
Definition wellLabelled (dm : option Desc) (lvs : list string) : bool :=
  match dm with
  | Some d => bool_decide (length lvs = length (variableLabels d))
  | None => false
  end.

(** A computation that issues no query. *)
Definition quiet {A} (m : Exec A) : Prop := queried m.1 = [].

(** The identity label values attached to every sample of a snapshot. *)
Definition identityOf (bc : BaseCollector) (result : gmap string value) : list string :=
  let instance := BaseCollector.getInstanceInfo bc result in
  [label instance "instance"; label instance "replica_set"; label instance "shard"].

(** What a goroutine has yet to send, and the fault it has yet to record. *)
Definition remaining (g : Goroutine) : list Metric :=
  match g with
  | Running _ rest _ => sent rest
  | Exited => []
  end.

Definition faultOf (c : Collector) (o : Outcome unit) : list string :=
  match o with
  | Panic r => [MultiCollector.panicError c r]
  | Ret _ => []
  end.

Definition pendingFault (g : Goroutine) : list string :=
  match g with
  | Running c _ o => faultOf c o
  | Exited => []
  end.

(** What the goroutine at index [i] has yet to send. *)
Definition remainingAt (st : FanOut) (i : nat) : list Metric :=
  from_option remaining [] (goroutines st !! i).

(** The database a query is addressed to. *)
Definition queryDb (q : Query) : option string :=
  match q with
  | QRunCommand db _ _ | QListCollectionNames db | QFindOne db _ | QFind db _ _ _ => Some db
  | QListDatabaseNames => None
  end.

(** The queries of the storage-stats collector on one database. *)
Definition storageQueries (cl : Client) (dbName : string) : list Query :=
  if String.eqb dbName "admin" || String.eqb dbName "local" || String.eqb dbName "config"
  then []
  else
    QRunCommand dbName "dbStats" (VInt 1) ::
    match runCommand cl dbName "dbStats" (VInt 1) with
    | Err _ => []
    | Ok _ =>
        QListCollectionNames dbName ::
        match listCollectionNames cl dbName with
        | Err _ => []
        | Ok collections =>
            (fun collName => QRunCommand dbName "collStats" (VString collName))
              <$> collections
        end
    end.

(** Every metric a computation sends satisfies [P]. *)
Definition everySample {A} (P : Metric -> Prop) (m : Exec A) : Prop :=
  forall x, ESend x ∈ m.1 -> P x.

(** A member document of [replSetGetStatus] that the replica-set collector
    can read: a string name, and an [int32] state and health. *)
Definition validMember (m : value) (name : string) (state health : Z) : Prop :=
  exists member,
    m = VM member /\
    member !! "name" = Some (VString name) /\
    member !! "state" = Some (VInt32 state) /\
    member !! "health" = Some (VInt32 health).

(** A string without a dot. *)
Fixpoint dotFree (s : string) : bool :=
  match s with
  | EmptyString => true
  | String ch s' => negb (Ascii.eqb ch ".") && dotFree s'
  end.

(** An iteration order that visits the key [k] first. *)
Definition preferring (k : string) : MapOrder :=
  {| order := fun A l => filter (fun kv => kv.1 = k) l ++ filter (fun kv => ¬ kv.1 = k) l;
     order_perm := fun A l => filter_app_complement _ l |}.

(** The keys of a command document that describe the query, not the
    command. *)
Definition clause (k : string) : Prop := k ∈ ["filter"; "sort"; "projection"].

(** The range of [int64]. *)
Definition int64 (z : Z) : Prop := (- 2 ^ 63 <= z < 2 ^ 63)%Z.

(** The [int64] count recorded under [mode], 0 when there is none. *)
Definition modeCount (counts : gmap string value) (mode : string) : Z :=
  default 0%Z (as_int64 (index counts mode)).

(** What a counter document of a lock holds for the modes "r" and "w"
    together. *)
Definition modeTotal (lockInfo : gmap string value) (counter : string) : Z :=
  match as_M (index lockInfo counter) with
  | Some counts => (modeCount counts "r" + modeCount counts "w")%Z
  | None => 0%Z
  end.

(** What one entry of a counter document adds to the total. *)
Definition addend (kv : string * value) : Z :=
  if bool_decide (kv.1 = "r" \/ kv.1 = "w") then default 0%Z (as_int64 kv.2) else 0%Z.

Definition sumZ (l : list Z) : Z := foldr Z.add 0%Z l.



(** A computation all of whose events are sends. *)
Definition onlySends {A} (m : Exec A) : Prop :=
  forall e, e ∈ m.1 -> exists x, e = ESend x.

(** The descriptor of key [key] exists and has [n] label names. *)
Definition arity (c : ProfileCollector.ProfileCollector) (key : string) (n : nat) : Prop :=
  exists d, ProfileCollector.descriptors c !! key = Some d /\ length (variableLabels d) = n.

(** * Properties *)

(** ** Lists of names *)

Lemma contains_true l x : contains l x = true <-> x ∈ l.
Proof.
  induction l as [|y l IH]; simpl.
  - split; [discriminate | intros H; inversion H].
  - destruct (String.eqb_spec y x) as [->|Hne].
    + split; [intros _; left | reflexivity].
    + rewrite IH. split; [intros H; by right |].
      intros H. inversion H; subst; [congruence | assumption].
Qed.

Lemma contains_decide l x : contains l x = bool_decide (x ∈ l).
Proof.
  destruct (contains l x) eqn:E; symmetry.
  - apply bool_decide_eq_true, contains_true, E.
  - apply bool_decide_eq_false. intros H%contains_true. congruence.
Qed.

(** ** Enablement policy *)

(** C2. The decision of [isMetricEnabled], for the base collector and for
    the collector manager alike: a name on the deny-list is disabled
    whatever the allow-list holds; otherwise an empty allow-list enables
    every name; otherwise a name is enabled exactly when it is on the
    allow-list. *)
Theorem isMetricEnabled_policy (cfg : CollectorConfig) (cl : Client)
    (mc : MultiCollector) (metricName : string) :
  let decision :=
    if decide (metricName ∈ DisabledMetrics cfg) then false
    else if decide (EnabledMetrics cfg = []) then true
    else bool_decide (metricName ∈ EnabledMetrics cfg) in
  BaseCollector.isMetricEnabled (NewBaseCollector cl cfg) metricName = decision /\
  CollectorManager.isMetricEnabled
    {| CollectorManager.multiCollector := mc; CollectorManager.cm_client := cl;
       CollectorManager.cm_config := cfg |} metricName = decision.
Proof.
  assert (Hbody :
    (if contains (DisabledMetrics cfg) metricName then false
     else if decide (length (EnabledMetrics cfg) = 0) then true
     else if contains (EnabledMetrics cfg) metricName then true else false) =
    (if decide (metricName ∈ DisabledMetrics cfg) then false
     else if decide (EnabledMetrics cfg = []) then true
     else bool_decide (metricName ∈ EnabledMetrics cfg))).
  { rewrite !contains_decide.
    destruct (decide (metricName ∈ DisabledMetrics cfg)) as [Hd|Hd].
    - by rewrite bool_decide_eq_true_2.
    - rewrite bool_decide_eq_false_2 by done.
      destruct (EnabledMetrics cfg) as [|e es] eqn:He; simpl; [done|].
      destruct (decide (S (length es) = 0)); [lia|].
      destruct (decide (e :: es = [])); [discriminate|].
      by destruct (bool_decide (metricName ∈ e :: es)). }
  split; exact Hbody.
Qed.

(** ** Removing a collector *)

Lemma RemoveCollector_loop_absent name mc i rest :
  (forall c, c ∈ rest -> Name c <> name) ->
  MultiCollector.RemoveCollector_loop name mc i rest = ([], Ret mc).
Proof.
  revert i. induction rest as [|c rest IH]; intros i Habs; simpl; [done|].
  destruct (String.eqb_spec (Name c) name) as [Heq|_].
  - exfalso. eapply Habs; [left | exact Heq].
  - apply IH. intros c' Hc'. apply Habs. by right.
Qed.

(** C9. Removing a name that no registered collector bears leaves the
    registry as it was: [RemoveCollector] returns the same collector list
    (same length, same elements, same order), writes no log entry and does
    not panic. *)
Theorem RemoveCollector_absent (name : string) (mc : MultiCollector) :
  (forall c, c ∈ collectors mc -> Name c <> name) ->
  MultiCollector.RemoveCollector name mc = ([], Ret mc).
Proof. apply RemoveCollector_loop_absent. Qed.

Lemma RemoveCollector_absent_witness :
  let mc := {| collectors := [MockCollector.asCollector {| MockCollector.name := "test" |}] |} in
  MultiCollector.RemoveCollector "other" mc = ([], Ret mc).
Proof.
  apply (RemoveCollector_absent "other").
  intros c Hc. apply list_elem_of_singleton in Hc as ->. simpl. discriminate.
Defined.

(** ** Conversion of integers to float64 *)

Lemma digits2_pos_bounds m :
  (2 ^ (Z.pos (digits2_pos m) - 1) <= Z.pos m < 2 ^ Z.pos (digits2_pos m))%Z.
Proof.
  assert (Hstep : forall d, (2 ^ Z.pos d = 2 * 2 ^ (Z.pos d - 1))%Z).
  { intros d. rewrite <- Z.pow_succ_r by lia. f_equal. lia. }
  induction m as [m IH|m IH|]; simpl digits2_pos.
  - rewrite Pos2Z.inj_succ, Z.pow_succ_r by lia.
    replace (Z.succ (Z.pos (digits2_pos m)) - 1)%Z with (Z.pos (digits2_pos m)) by lia.
    specialize (Hstep (digits2_pos m)). lia.
  - rewrite Pos2Z.inj_succ, Z.pow_succ_r by lia.
    replace (Z.succ (Z.pos (digits2_pos m)) - 1)%Z with (Z.pos (digits2_pos m)) by lia.
    specialize (Hstep (digits2_pos m)). lia.
  - simpl. lia.
Qed.

Lemma iter_xO_mul m k : Z.pos (Pos.iter xO m k) = (Z.pos m * 2 ^ Z.pos k)%Z.
Proof.
  rewrite <- (Pos2Z.inj_pow 2), <- Pos2Z.inj_mul. f_equal.
  revert m. induction k using Pos.peano_ind; intros m.
  - simpl. lia.
  - rewrite Pos.iter_succ, IHk, Pos.pow_succ_r. lia.
Qed.

Lemma digits2_pos_iter_xO m k :
  digits2_pos (Pos.iter xO m k) = (digits2_pos m + k)%positive.
Proof.
  induction k using Pos.peano_ind.
  - simpl. lia.
  - rewrite Pos.iter_succ. simpl. rewrite IHk. lia.
Qed.

(** A mantissa of 53 bits with an exponent in range needs no rounding. *)
Lemma binary_round_aux_canonical s mz ez :
  Z.pos (digits2_pos mz) = 53%Z -> (-1074 <= ez <= 971)%Z ->
  binary_round_aux prec emax s (Z.pos mz) ez loc_Exact = S754_finite s mz ez.
Proof.
  intros Hd He.
  assert (fexp prec emax (53 + ez) = ez) as Hf.
  { unfold fexp, emin, prec, emax. lia. }
  unfold binary_round_aux, shr_fexp. simpl Zdigits2.
  rewrite Hd, Hf, Z.sub_diag. simpl.
  rewrite Hd, Hf, Z.sub_diag. simpl.
  assert ((ez <=? emax - prec)%Z = true) as ->; [|done].
  apply Z.leb_le. unfold emax, prec. lia.
Qed.

Lemma of_Z_small m :
  (Z.pos m < 2 ^ 53)%Z ->
  of_Z (Z.pos m) =
    match (53 - Z.pos (digits2_pos m))%Z with
    | Z.pos k => S754_finite false (Pos.iter xO m k) (Z.neg k)
    | _ => S754_finite false m 0
    end.
Proof.
  intros Hm.
  pose proof (digits2_pos_bounds m) as Hd.
  assert (Z.pos (digits2_pos m) <= 53)%Z as Hle.
  { destruct (Z.le_gt_cases (Z.pos (digits2_pos m)) 53) as [|Hgt]; [done|].
    assert (2 ^ 53 <= 2 ^ (Z.pos (digits2_pos m) - 1))%Z
      by (apply Z.pow_le_mono_r; lia).
    lia. }
  unfold of_Z, binary_normalize, binary_round.
  assert (fexp prec emax (Z.pos (digits2_pos m) + 0)
          = Z.pos (digits2_pos m) - 53)%Z as Hf.
  { unfold fexp, emin, prec, emax. lia. }
  rewrite Hf. unfold shl_align.
  destruct (53 - Z.pos (digits2_pos m))%Z as [|k|k] eqn:Hk; [| |lia].
  - assert (Z.pos (digits2_pos m) - 53 - 0 = 0)%Z as -> by lia.
    apply binary_round_aux_canonical; lia.
  - assert (Z.pos (digits2_pos m) - 53 - 0 = Z.neg k)%Z as -> by lia.
    assert (Z.pos (digits2_pos m) - 53 = Z.neg k)%Z as -> by lia.
    apply binary_round_aux_canonical; [rewrite digits2_pos_iter_xO|]; lia.
Qed.

(** Integers up to 2^53 convert without rounding. *)
Lemma of_Z_exact z : (0 <= z <= 2 ^ 53)%Z -> exactly (of_Z z) z.
Proof.
  intros [H0 H1].
  destruct (Z.eq_dec z (2 ^ 53)%Z) as [->|Hne]; [vm_compute; reflexivity|].
  destruct z as [|m|m]; [reflexivity| |lia].
  rewrite of_Z_small by lia.
  destruct (53 - Z.pos (digits2_pos m))%Z as [|k|k] eqn:Hk; simpl.
  - lia.
  - rewrite iter_xO_mul. reflexivity.
  - lia.
Qed.

(** ** Value coercion *)

(** C3, counterexample. The type switch knows four types only: an
    [int16] 5 and a [float32] 12.5 are non-negative numbers and come out
    absent.  And the conversion of an [int64] rounds: 2^53 + 1 comes out
    as the float 2^53. *)
Lemma safeGetNumericValue_other_widths :
  safeGetNumericValue (VInt16 5) = None /\
  safeGetNumericValue (VFloat32 (binary_normalize 24 128 25 (-1) false)) = None /\
  safeGetNumericValue (VInt64 (2 ^ 53 + 1)) = Some (S754_finite false (2 ^ 52) 1).
Proof. repeat split; vm_compute; reflexivity. Qed.

(** C3, as amended. [safeGetNumericValue] accepts [int64], [int32], [int]
    and [float64].  For these it is absent on a value below zero; a
    non-negative integer comes out as its conversion to float64, which is
    the integer itself up to 2^53 (so for every [int32]); a float64 that is
    not below zero comes out unchanged.  Every other dynamic type is
    absent.  Being a total function into an optional float, absence is its
    only failure. *)
Theorem safeGetNumericValue_coercion :
  (forall z, (z < 0)%Z ->
     safeGetNumericValue (VInt64 z) = None /\
     safeGetNumericValue (VInt32 z) = None /\
     safeGetNumericValue (VInt z) = None) /\
  (forall f, ltb f zero = true -> safeGetNumericValue (VFloat64 f) = None) /\
  (forall z, (0 <= z)%Z ->
     safeGetNumericValue (VInt64 z) = Some (of_Z z) /\
     safeGetNumericValue (VInt32 z) = Some (of_Z z) /\
     safeGetNumericValue (VInt z) = Some (of_Z z)) /\
  (forall z, (0 <= z <= 2 ^ 53)%Z -> exactly (of_Z z) z) /\
  (forall f, ltb f zero = false -> safeGetNumericValue (VFloat64 f) = Some f) /\
  (forall v,
     match v with
     | VInt64 _ | VInt32 _ | VInt _ | VFloat64 _ => False
     | _ => True
     end -> safeGetNumericValue v = None).
Proof.
  split; [|split; [|split; [|split; [|split]]]].
  - intros z Hz. simpl. by rewrite (proj2 (Z.ltb_lt z 0) Hz).
  - intros f Hf. simpl. by rewrite Hf.
  - intros z Hz. simpl. by rewrite (proj2 (Z.ltb_ge z 0) Hz).
  - apply of_Z_exact.
  - intros f Hf. simpl. by rewrite Hf.
  - intros v Hv. by destruct v.
Qed.

Lemma safeGetNumericValue_coercion_witness :
  safeGetNumericValue (VInt64 (-1)) = None /\
  safeGetNumericValue (VInt64 100) = Some (of_Z 100) /\
  safeGetNumericValue (VInt32 50) = Some (of_Z 50) /\
  exactly (of_Z 100) 100 /\
  safeGetNumericValue (VString "invalid") = None.
Proof.
  destruct safeGetNumericValue_coercion as (Hneg & _ & Hpos & Hexact & _ & Hother).
  split; [|split; [|split; [|split]]].
  - apply (Hneg (-1)%Z). lia.
  - apply (Hpos 100%Z). lia.
  - apply (Hpos 50%Z). lia.
  - apply (Hexact 100%Z). lia.
  - apply (Hother (VString "invalid")). exact I.
Defined.

(** ** Topology labels *)

Lemma foldl_insert_union (l : list (string * string)) (labels : gmap string string) :
  NoDup l.*1 ->
  foldl (fun labels kv => <[kv.1 := kv.2]> labels) labels l = list_to_map l ∪ labels.
Proof.
  revert labels. induction l as [|[k v] l IH]; intros labels Hnd; simpl.
  - by rewrite (left_id_L ∅ (∪)).
  - apply NoDup_cons in Hnd as [Hk Hnd].
    rewrite IH by done.
    apply map_eq. intros i.
    rewrite !lookup_union.
    destruct (decide (i = k)) as [->|Hne].
    + rewrite !lookup_insert_eq.
      rewrite (not_elem_of_list_to_map_1 _ _ Hk).
      by destruct (labels !! k).
    + rewrite !lookup_insert_ne by done. done.
Qed.

(** [addCustomLabels] is the union in which the static labels win,
    whatever the order of the iteration. *)
Lemma addCustomLabels_union o bc (labels : gmap string string) :
  BaseCollector.addCustomLabels o bc labels = CustomLabels (config bc) ∪ labels.
Proof.
  unfold BaseCollector.addCustomLabels, range.
  pose proof (order_perm o _ (map_to_list (CustomLabels (config bc)))) as Hp.
  rewrite foldl_insert_union.
  - f_equal. rewrite <- (list_to_map_to_list (CustomLabels (config bc))) at 2.
    apply list_to_map_proper; [|done].
    rewrite Hp. apply NoDup_fst_map_to_list.
  - rewrite Hp. apply NoDup_fst_map_to_list.
Qed.

Lemma getInstanceInfo_fields bc (result : gmap string value) :
  BaseCollector.getInstanceInfo bc result =
    {[ "instance" := default "unknown" (as_string (index result "host"));
       "replica_set" :=
         default "unknown" (as_M (index result "repl") ≫= fun repl =>
                            as_string (index repl "setName"));
       "shard" := default "unknown" (as_string (index result "shard")) ]}.
Proof.
  unfold BaseCollector.getInstanceInfo.
  destruct (as_string (index result "host")) as [host|];
    destruct (as_M (index result "repl")) as [repl|]; simpl;
    try destruct (as_string (index repl "setName")) as [setName|];
    destruct (as_string (index result "shard")) as [shard|]; simpl;
    repeat first
      [ rewrite insert_insert_eq
      | rewrite insert_singleton_eq
      | rewrite (insert_insert_ne _ "replica_set" "instance") by done
      | rewrite (insert_insert_ne _ "shard" "instance") by done
      | rewrite (insert_insert_ne _ "shard" "replica_set") by done ];
    reflexivity.
Qed.

(** C5, counterexample. Under the configuration of [TestBaseCollector],
    whose static labels are {test: "value"}, [getInstanceInfo] yields on
    the snapshot of the test the three identity labels and no label
    "test".  A static label named "instance" does not replace the host of
    the snapshot either, in the labels or on the samples of the
    server-status collector. *)
Lemma getInstanceInfo_without_static_labels :
  let bc := NewBaseCollector unreachable
              {| CustomLabels := {[ "test" := "value" ]};
                 EnabledMetrics := ["server_status"];
                 DisabledMetrics := ["profile"]; Collectors := ∅ |} in
  let colliding := {| CustomLabels := {[ "instance" := "static"; "test" := "value" ]};
                      EnabledMetrics := []; DisabledMetrics := []; Collectors := ∅ |} in
  CustomLabels (config bc) !! "test" = Some "value" /\
  BaseCollector.getInstanceInfo bc testSnapshot !! "test" = None /\
  BaseCollector.getInstanceInfo bc testSnapshot =
    {[ "instance" := "test-host"; "replica_set" := "test-replica";
       "shard" := "test-shard" ]} /\
  BaseCollector.getInstanceInfo (NewBaseCollector unreachable colliding) testSnapshot
    !! "instance" = Some "test-host" /\
  labelValues <$> head (sent (ServerStatusCollector.Collect source_order
                                (ServerStatusCollector.NewServerStatusCollector
                                   (serving liveStatus) colliding)).1)
    = Some ["test-host"; "unknown"; "unknown"].
Proof. vm_compute. repeat split. Qed.

(** C5, as amended. On a snapshot whose host is "test-host", whose
    replication document names the set "test-replica" and whose shard is
    "test-shard", [BaseCollector.getInstanceInfo] yields exactly those
    three labels; on the empty snapshot the three labels are "unknown",
    and in general each of them falls back to "unknown" on its own when
    its field is missing or not a string.  It merges no static label: its
    result has no other key and is the same under every configuration, so
    that the server-status collector, which labels its samples with it,
    does the same whatever the static labels are.  The static labels are
    merged by [addCustomLabels], which writes each of them into the label
    set it is given, a static label winning over a label of the same key;
    the [getInstanceInfo] of the lock-metrics and of the query-executor
    collector call it on the three labels, and theirs is the result with
    the static labels. *)
Theorem topology_labels (o : MapOrder) (bc : BaseCollector)
    (result repl : gmap string value) :
  result !! "host" = Some (VString "test-host") ->
  result !! "repl" = Some (VM repl) ->
  repl !! "setName" = Some (VString "test-replica") ->
  result !! "shard" = Some (VString "test-shard") ->
  let identity : gmap string string :=
    {[ "instance" := "test-host"; "replica_set" := "test-replica";
       "shard" := "test-shard" ]} in
  (BaseCollector.getInstanceInfo bc result = identity /\
   BaseCollector.getInstanceInfo bc ∅ =
     {[ "instance" := "unknown"; "replica_set" := "unknown"; "shard" := "unknown" ]} /\
   (forall snapshot : gmap string value,
      BaseCollector.getInstanceInfo bc snapshot =
        {[ "instance" := default "unknown" (as_string (index snapshot "host"));
           "replica_set" :=
             default "unknown" (as_M (index snapshot "repl") ≫= fun repl =>
                                as_string (index repl "setName"));
           "shard" := default "unknown" (as_string (index snapshot "shard")) ]})) /\
  ((forall (snapshot : gmap string value) k,
      k <> "instance" -> k <> "replica_set" -> k <> "shard" ->
      BaseCollector.getInstanceInfo bc snapshot !! k = None) /\
   (forall (other : BaseCollector) (snapshot : gmap string value),
      BaseCollector.getInstanceInfo other snapshot
        = BaseCollector.getInstanceInfo bc snapshot) /\
   (forall cl cfg static,
      ServerStatusCollector.Collect o
        (ServerStatusCollector.NewServerStatusCollector cl
           {| CustomLabels := static; EnabledMetrics := EnabledMetrics cfg;
              DisabledMetrics := DisabledMetrics cfg; Collectors := Collectors cfg |})
      = ServerStatusCollector.Collect o
          (ServerStatusCollector.NewServerStatusCollector cl cfg))) /\
  ((forall labels : gmap string string,
      BaseCollector.addCustomLabels o bc labels = CustomLabels (config bc) ∪ labels) /\
   (forall (labels : gmap string string) k v,
      CustomLabels (config bc) !! k = Some v ->
      BaseCollector.addCustomLabels o bc labels !! k = Some v) /\
   (forall (labels : gmap string string) k,
      CustomLabels (config bc) !! k = None ->
      BaseCollector.addCustomLabels o bc labels !! k = labels !! k)) /\
  (LockMetricsCollector.getInstanceInfo o bc result = CustomLabels (config bc) ∪ identity /\
   (forall c : QueryExecutorCollector.QueryExecutorCollector,
      QueryExecutorCollector.getInstanceInfo o c result
        = CustomLabels (config (QueryExecutorCollector.base c)) ∪ identity)).
Proof.
  intros Hhost Hrepl Hset Hshard identity.
  assert (Hid : forall other, BaseCollector.getInstanceInfo other result = identity).
  { intros other. rewrite getInstanceInfo_fields. unfold index.
    rewrite Hhost, Hrepl, Hshard. simpl. by rewrite Hset. }
  split; [|split; [|split]].
  - split; [apply Hid|]. split; [reflexivity|]. apply getInstanceInfo_fields.
  - split; [|split].
    + intros snapshot k Hi Hr Hs. rewrite getInstanceInfo_fields.
      rewrite !lookup_insert_ne by congruence.
      apply lookup_singleton_ne. congruence.
    + reflexivity.
    + reflexivity.
  - split; [apply addCustomLabels_union|]. split.
    + intros labels k v Hk. rewrite addCustomLabels_union.
      by apply lookup_union_Some_l.
    + intros labels k Hk. rewrite addCustomLabels_union.
      by apply lookup_union_r.
  - split.
    + change (LockMetricsCollector.getInstanceInfo o bc result)
        with (BaseCollector.addCustomLabels o bc (BaseCollector.getInstanceInfo bc result)).
      by rewrite addCustomLabels_union, Hid.
    + intros c.
      change (QueryExecutorCollector.getInstanceInfo o c result)
        with (BaseCollector.addCustomLabels o (QueryExecutorCollector.base c)
                (BaseCollector.getInstanceInfo (QueryExecutorCollector.base c) result)).
      by rewrite addCustomLabels_union, Hid.
Qed.

Lemma topology_labels_witness :
  let bc := NewBaseCollector unreachable
              {| CustomLabels := {[ "test" := "value" ]};
                 EnabledMetrics := ["server_status"];
                 DisabledMetrics := ["profile"]; Collectors := ∅ |} in
  let identity : gmap string string :=
    {[ "instance" := "test-host"; "replica_set" := "test-replica";
       "shard" := "test-shard" ]} in
  BaseCollector.getInstanceInfo bc testSnapshot = identity /\
  LockMetricsCollector.getInstanceInfo source_order bc testSnapshot
    = {[ "test" := "value" ]} ∪ identity.
Proof.
  intros bc identity.
  destruct (topology_labels source_order bc testSnapshot
              {[ "setName" := VString "test-replica" ]}
              eq_refl eq_refl eq_refl eq_refl) as ((Hid & _) & _ & _ & (Hlock & _)).
  split; [exact Hid | exact Hlock].
Defined.

(** ** Traces of computations *)

Lemma bind_Ret {A B} (m : Exec A) (f : A -> Exec B) a :
  m.2 = Ret a -> m ≫= f = (m.1 ++ (f a).1, (f a).2).
Proof.
  destruct m as [t r]; simpl; intros ->.
  unfold mbind, Exec_bind, exec_bind. by destruct (f a).
Qed.

Lemma seq_returns (m k : Exec unit) : returns m -> returns k -> returns (m ;; k).
Proof. intros Hm Hk. unfold returns. by rewrite (bind_Ret m _ tt Hm). Qed.

Lemma seq_trace (m k : Exec unit) : returns m -> (m ;; k).1 = m.1 ++ k.1.
Proof. intros Hm. by rewrite (bind_Ret m _ tt Hm). Qed.

Lemma in_seq_l {B} (m : Exec unit) (k : Exec B) e : e ∈ m.1 -> e ∈ (m ;; k).1.
Proof.
  destruct m as [t [[]|r]]; simpl; intros He.
  - unfold mbind, Exec_bind, exec_bind. destruct k. simpl.
    apply elem_of_app. by left.
  - done.
Qed.

Lemma in_seq_r {B} (m : Exec unit) (k : Exec B) e :
  returns m -> e ∈ k.1 -> e ∈ (m ;; k).1.
Proof.
  intros Hm He. rewrite (bind_Ret m _ tt Hm). simpl.
  apply elem_of_app. by right.
Qed.

Lemma mret_returns : returns (mret tt).
Proof. reflexivity. Qed.

Lemma log_returns lv msg fs : returns (log lv msg fs).
Proof. reflexivity. Qed.

Lemma emit_sends d vt v lvs :
  length lvs = length (variableLabels d) ->
  emit (Some d) vt v lvs =
    ([ESend {| desc := d; valueType := vt; metricValue := v; labelValues := lvs |}], Ret tt).
Proof.
  intros Hlen. unfold emit, MustNewConstMetric.
  destruct (decide (length lvs = length (variableLabels d))); [done|contradiction].
Qed.

Lemma emit_lookup_sends dm d vt v lvs :
  dm = Some d -> length lvs = length (variableLabels d) ->
  emit dm vt v lvs =
    ([ESend {| desc := d; valueType := vt; metricValue := v; labelValues := lvs |}], Ret tt).
Proof. intros ->. apply emit_sends. Qed.

Lemma emit_returns dm vt v lvs : wellLabelled dm lvs = true -> returns (emit dm vt v lvs).
Proof.
  destruct dm as [d|]; simpl; [|done].
  intros Hlen%bool_decide_eq_true. by rewrite emit_sends.
Qed.

Lemma forM_returns {A} (l : list A) (body : A -> Exec unit) :
  (forall x, x ∈ l -> returns (body x)) -> returns (forM_ l body).
Proof.
  induction l as [|x l IH]; intros Hb; simpl; [done|].
  apply seq_returns; [apply Hb; left | apply IH; intros y Hy; apply Hb; by right].
Qed.

Lemma forM_trace {A} (l : list A) (body : A -> Exec unit) :
  (forall x, x ∈ l -> returns (body x)) ->
  (forM_ l body).1 = flat_map (fun x => (body x).1) l.
Proof.
  induction l as [|x l IH]; intros Hb; simpl; [done|].
  rewrite seq_trace by (apply Hb; left).
  f_equal. apply IH. intros y Hy. apply Hb. by right.
Qed.

Lemma in_forM {A} (l : list A) (body : A -> Exec unit) x e :
  (forall y, y ∈ l -> returns (body y)) -> x ∈ l -> e ∈ (body x).1 ->
  e ∈ (forM_ l body).1.
Proof.
  intros Hb Hx He. rewrite forM_trace by done.
  apply list_elem_of_In, in_flat_map. exists x.
  split; by apply list_elem_of_In.
Qed.

Lemma elem_of_sent m t : m ∈ sent t <-> ESend m ∈ t.
Proof.
  unfold sent. rewrite list_elem_of_omap. split.
  - intros (e & He & Hm). destruct e; by simplify_eq.
  - intros He. by exists (ESend m).
Qed.

Lemma elem_of_range {A} o (m : gmap string A) k v :
  (k, v) ∈ range o m <-> m !! k = Some v.
Proof.
  unfold range. rewrite (order_perm o _ (map_to_list m)).
  apply elem_of_map_to_list.
Qed.

(** Goals [returns m] for the bodies of the collectors: case analysis on
    what was read, sequencing, loops, and sends on descriptors that exist
    with the right number of labels. *)
Ltac exec_returns :=
  repeat first
    [ apply mret_returns
    | apply log_returns
    | apply seq_returns
    | apply forM_returns; intros [? ?] _
    | apply forM_returns; intros ? _
    | apply emit_returns; vm_compute; reflexivity
    | match goal with
      | |- returns (match ?x with _ => _ end) => destruct x eqn:?
      | |- returns (if ?b then _ else _) => destruct b eqn:?
      end ].

(** ** The server-status collector *)

Lemma ServerStatus_collectMetrics_returns o cl cfg result :
  returns (ServerStatusCollector.collectMetrics o
             (ServerStatusCollector.NewServerStatusCollector cl cfg) result).
Proof. unfold ServerStatusCollector.collectMetrics. exec_returns. Qed.

(** A float64 uptime that is not below zero is sent as the uptime gauge. *)
Lemma ServerStatus_uptime_sent o cl cfg (result : gmap string value) uptime :
  result !! "uptime" = Some (VFloat64 uptime) ->
  leb zero uptime = true ->
  ESend {| desc := NewDesc "mongodb_instance_uptime_seconds"
                           "The uptime of the MongoDB instance in seconds"
                           ["instance"; "replica_set"; "shard"];
           valueType := GaugeValue; metricValue := uptime;
           labelValues := identityOf (NewBaseCollector cl cfg) result |}
  ∈ (ServerStatusCollector.collectMetrics o
       (ServerStatusCollector.NewServerStatusCollector cl cfg) result).1.
Proof.
  intros Hup Hge. unfold ServerStatusCollector.collectMetrics.
  apply in_seq_l. unfold index. rewrite Hup. simpl. rewrite Hge.
  erewrite emit_lookup_sends; [|reflexivity|reflexivity].
  apply list_elem_of_singleton. reflexivity.
Qed.

(** Whatever numeric value [connections.current] coerces to is sent as
    the connections gauge of state "current". *)
Lemma ServerStatus_connections_sent o cl cfg (result connections : gmap string value) v :
  result !! "connections" = Some (VM connections) ->
  safeGetNumericValue (index connections "current") = Some v ->
  ESend {| desc := NewDesc "mongodb_connections" "The current connections metrics"
                           ["instance"; "replica_set"; "shard"; "state"];
           valueType := GaugeValue; metricValue := v;
           labelValues := identityOf (NewBaseCollector cl cfg) result ++ ["current"] |}
  ∈ (ServerStatusCollector.collectMetrics o
       (ServerStatusCollector.NewServerStatusCollector cl cfg) result).1.
Proof.
  intros Hconn Hcur. unfold ServerStatusCollector.collectMetrics.
  apply in_seq_r; [exec_returns|].
  apply in_seq_l. unfold index at 1. rewrite Hconn. simpl.
  apply in_seq_l.
  eapply (in_forM _ _ ("current", "current")).
  - intros [k lbl] _. exec_returns.
  - by apply elem_of_range.
  - unfold BaseCollector.getNumericValue. rewrite Hcur.
    erewrite emit_lookup_sends; [|reflexivity|reflexivity].
    apply list_elem_of_singleton. reflexivity.
Qed.

(** Whatever numeric value [mem.resident] coerces to is sent, multiplied
    twice by 1024, as the memory gauge of type "resident". *)
Lemma ServerStatus_memory_sent o cl cfg (result mem : gmap string value) v :
  result !! "mem" = Some (VM mem) ->
  safeGetNumericValue (index mem "resident") = Some v ->
  ESend {| desc := NewDesc "mongodb_memory_bytes" "The current memory usage in bytes"
                           ["instance"; "replica_set"; "shard"; "type"];
           valueType := GaugeValue;
           metricValue := mul (mul v (of_Z 1024)) (of_Z 1024);
           labelValues := identityOf (NewBaseCollector cl cfg) result ++ ["resident"] |}
  ∈ (ServerStatusCollector.collectMetrics o
       (ServerStatusCollector.NewServerStatusCollector cl cfg) result).1.
Proof.
  intros Hmem Hres. unfold ServerStatusCollector.collectMetrics.
  apply in_seq_r; [exec_returns|].
  apply in_seq_r; [exec_returns|].
  apply in_seq_l. unfold index at 1. rewrite Hmem. simpl.
  eapply (in_forM _ _ ("resident", "resident")).
  - intros [k lbl] _. exec_returns.
  - by apply elem_of_range.
  - unfold BaseCollector.getNumericValue. rewrite Hres.
    erewrite emit_lookup_sends; [|reflexivity|reflexivity].
    apply list_elem_of_singleton. reflexivity.
Qed.

(** An enabled [Collect] whose query succeeds is the query followed by
    [collectMetrics] on the answer. *)
Lemma ServerStatus_Collect_ok o cl cfg result :
  BaseCollector.isMetricEnabled (NewBaseCollector cl cfg) "server_status" = true ->
  runCommand cl "admin" "serverStatus" (VInt 1) = Ok result ->
  ServerStatusCollector.Collect o (ServerStatusCollector.NewServerStatusCollector cl cfg) =
    (EQuery (QRunCommand "admin" "serverStatus" (VInt 1))
       :: (ServerStatusCollector.collectMetrics o
             (ServerStatusCollector.NewServerStatusCollector cl cfg) result).1,
     (ServerStatusCollector.collectMetrics o
        (ServerStatusCollector.NewServerStatusCollector cl cfg) result).2).
Proof.
  intros Hen Hok. set (c := ServerStatusCollector.NewServerStatusCollector cl cfg).
  unfold ServerStatusCollector.Collect.
  change (BaseCollector.isMetricEnabled (ServerStatusCollector.base c) "server_status")
    with (BaseCollector.isMetricEnabled (NewBaseCollector cl cfg) "server_status").
  rewrite Hen. simpl negb. cbv iota.
  change (client (ServerStatusCollector.base c)) with cl. rewrite Hok.
  unfold ask. unfold mbind, Exec_bind, exec_bind.
  by destruct (ServerStatusCollector.collectMetrics o c result).
Qed.

(** C4, counterexample. On the snapshot of the test suite, whose uptime is
    the [int64] 3600, no uptime gauge is sent, in either iteration order:
    the assertion of the uptime field to [float64] fails.  Samples of
    other descriptors are sent. *)
Lemma ServerStatus_uptime_int64_dropped :
  let c := ServerStatusCollector.NewServerStatusCollector (serving mockData) testConfig in
  let uptimeGauges o :=
    filter (fun m => fqName (desc m) = "mongodb_instance_uptime_seconds")
           (sent (ServerStatusCollector.Collect o c).1) in
  uptimeGauges source_order = [] /\ uptimeGauges reverse_order = [] /\
  length (sent (ServerStatusCollector.Collect source_order c).1) = 20.
Proof. vm_compute. repeat split. Qed.

(** C4, as amended. Let the server answer [serverStatus] with a snapshot
    whose uptime is the float64 3600, whose [connections.current] is 10 and
    whose [mem.resident] is 104857600.  Then the enabled server-status
    collector returns from [Collect] having sent the uptime gauge 3600, the
    connections gauge of state "current" with value 10, and the memory gauge
    of type "resident" with value 104857600 * 1024 * 1024, a product that
    float64 holds exactly, each labelled with the identity of the
    snapshot. *)
Theorem ServerStatus_scenario (o : MapOrder) (cl : Client) (cfg : CollectorConfig)
    (result connections mem : gmap string value) :
  BaseCollector.isMetricEnabled (NewBaseCollector cl cfg) "server_status" = true ->
  runCommand cl "admin" "serverStatus" (VInt 1) = Ok result ->
  result !! "uptime" = Some (VFloat64 (of_Z 3600)) ->
  result !! "connections" = Some (VM connections) ->
  connections !! "current" = Some (VInt32 10) ->
  result !! "mem" = Some (VM mem) ->
  mem !! "resident" = Some (VInt64 104857600) ->
  let c := ServerStatusCollector.NewServerStatusCollector cl cfg in
  let ids := identityOf (NewBaseCollector cl cfg) result in
  let out := ServerStatusCollector.Collect o c in
  out.2 = Ret tt /\
  {| desc := NewDesc "mongodb_instance_uptime_seconds"
                     "The uptime of the MongoDB instance in seconds"
                     ["instance"; "replica_set"; "shard"];
     valueType := GaugeValue; metricValue := of_Z 3600; labelValues := ids |}
    ∈ sent out.1 /\
  {| desc := NewDesc "mongodb_connections" "The current connections metrics"
                     ["instance"; "replica_set"; "shard"; "state"];
     valueType := GaugeValue; metricValue := of_Z 10;
     labelValues := ids ++ ["current"] |}
    ∈ sent out.1 /\
  {| desc := NewDesc "mongodb_memory_bytes" "The current memory usage in bytes"
                     ["instance"; "replica_set"; "shard"; "type"];
     valueType := GaugeValue; metricValue := of_Z (104857600 * 1024 * 1024);
     labelValues := ids ++ ["resident"] |}
    ∈ sent out.1 /\
  exactly (of_Z (104857600 * 1024 * 1024)) (104857600 * 1024 * 1024).
Proof.
  intros Hen Hok Hup Hconn Hcur Hmem Hres c ids out.
  subst c ids out. rewrite (ServerStatus_Collect_ok o cl cfg result Hen Hok).
  cbn [fst snd].
  split; [apply ServerStatus_collectMetrics_returns|].
  split; [|split; [|split]]; [apply elem_of_sent, elem_of_cons; right ..|].
  - by apply ServerStatus_uptime_sent.
  - apply (ServerStatus_connections_sent o cl cfg result connections); [done|].
    unfold index. by rewrite Hcur.
  - change (of_Z (104857600 * 1024 * 1024))
      with (mul (mul (of_Z 104857600) (of_Z 1024)) (of_Z 1024)).
    apply (ServerStatus_memory_sent o cl cfg result mem); [done|].
    unfold index. by rewrite Hres.
  - apply of_Z_exact. lia.
Qed.

Lemma ServerStatus_scenario_witness :
  let cl := serving liveStatus in
  let c := ServerStatusCollector.NewServerStatusCollector cl testConfig in
  let ids := identityOf (NewBaseCollector cl testConfig) liveStatus in
  let out := ServerStatusCollector.Collect source_order c in
  out.2 = Ret tt /\
  {| desc := NewDesc "mongodb_instance_uptime_seconds"
                     "The uptime of the MongoDB instance in seconds"
                     ["instance"; "replica_set"; "shard"];
     valueType := GaugeValue; metricValue := of_Z 3600; labelValues := ids |}
    ∈ sent out.1 /\
  {| desc := NewDesc "mongodb_connections" "The current connections metrics"
                     ["instance"; "replica_set"; "shard"; "state"];
     valueType := GaugeValue; metricValue := of_Z 10;
     labelValues := ids ++ ["current"] |}
    ∈ sent out.1 /\
  {| desc := NewDesc "mongodb_memory_bytes" "The current memory usage in bytes"
                     ["instance"; "replica_set"; "shard"; "type"];
     valueType := GaugeValue; metricValue := of_Z (104857600 * 1024 * 1024);
     labelValues := ids ++ ["resident"] |}
    ∈ sent out.1 /\
  exactly (of_Z (104857600 * 1024 * 1024)) (104857600 * 1024 * 1024).
Proof.
  apply (ServerStatus_scenario source_order (serving liveStatus) testConfig liveStatus
           {[ "current" := VInt32 10; "available" := VInt32 100;
              "active" := VInt32 5; "totalCreated" := VInt64 1000 ]}
           {[ "resident" := VInt64 (1024 * 1024 * 100);
              "virtual" := VInt64 (1024 * 1024 * 200) ]});
    vm_compute; reflexivity.
Defined.

(** ** Non-finite readings *)

(** C10. A float64 reading that is NaN, or +Inf, is not below zero: the
    coercion helper returns it as it is, the validation helper accepts it,
    and the server-status collector sends a sample holding it. *)
Theorem non_finite_readings_published (o : MapOrder) (cl : Client)
    (cfg : CollectorConfig) (result connections : gmap string value) :
  safeGetNumericValue (VFloat64 NaN) = Some NaN /\
  safeGetNumericValue (VFloat64 Inf) = Some Inf /\
  ltb NaN zero = false /\ ltb Inf zero = false /\
  validateMetricValue (Some NaN) = true /\
  validateMetricValue (Some Inf) = true /\
  (forall f, f = NaN \/ f = Inf ->
     result !! "connections" = Some (VM connections) ->
     connections !! "current" = Some (VFloat64 f) ->
     {| desc := NewDesc "mongodb_connections" "The current connections metrics"
                        ["instance"; "replica_set"; "shard"; "state"];
        valueType := GaugeValue; metricValue := f;
        labelValues := identityOf (NewBaseCollector cl cfg) result ++ ["current"] |}
     ∈ sent (ServerStatusCollector.collectMetrics o
               (ServerStatusCollector.NewServerStatusCollector cl cfg) result).1).
Proof.
  do 6 (split; [reflexivity|]).
  intros f Hf Hconn Hcur. apply elem_of_sent.
  apply (ServerStatus_connections_sent o cl cfg result connections); [done|].
  unfold index. rewrite Hcur. by destruct Hf as [-> | ->].
Qed.

Lemma non_finite_readings_published_witness :
  {| desc := NewDesc "mongodb_connections" "The current connections metrics"
                     ["instance"; "replica_set"; "shard"; "state"];
     valueType := GaugeValue; metricValue := NaN;
     labelValues := ["test-host"; "unknown"; "unknown"; "current"] |}
  ∈ sent (ServerStatusCollector.collectMetrics source_order
            (ServerStatusCollector.NewServerStatusCollector unreachable testConfig)
            (readingStatus NaN)).1.
Proof.
  apply (proj2 (proj2 (proj2 (proj2 (proj2 (proj2
    (non_finite_readings_published source_order unreachable testConfig
       (readingStatus NaN) {[ "current" := VFloat64 NaN ]}))))))
    NaN (or_introl eq_refl) eq_refl eq_refl).
Defined.

(** ** The watermark of the profile collector *)

Lemma ask_bind {A B} q (a : A) (f : A -> Exec B) :
  ask q a ≫= f = (EQuery q :: (f a).1, (f a).2).
Proof. unfold ask, mbind, Exec_bind, exec_bind. by destruct (f a). Qed.

Lemma in_bind_inv {A B} (m : Exec A) (f : A -> Exec B) e :
  e ∈ (m ≫= f).1 -> e ∈ m.1 \/ exists a, m.2 = Ret a /\ e ∈ (f a).1.
Proof.
  destruct m as [t [a|r]]; simpl.
  - unfold mbind, Exec_bind, exec_bind. destruct (f a) as [t' r'] eqn:Hf. simpl.
    intros [He|He]%elem_of_app; [by left|right].
    exists a. by rewrite Hf.
  - unfold mbind, Exec_bind, exec_bind. simpl. by left.
Qed.

Lemma in_forM_inv {A} (l : list A) (body : A -> Exec unit) e :
  e ∈ (forM_ l body).1 -> exists x, x ∈ l /\ e ∈ (body x).1.
Proof.
  induction l as [|x l IH]; simpl; [by intros ?%elem_of_nil|].
  intros [He|(_ & _ & He)]%in_bind_inv.
  - exists x. split; [left | done].
  - destruct (IH He) as (y & Hy & Hey). exists y. split; [by right | done].
Qed.

Lemma elem_of_queried q t : q ∈ queried t <-> EQuery q ∈ t.
Proof.
  unfold queried. rewrite list_elem_of_omap. split.
  - intros (e & He & Hq). destruct e; by simplify_eq.
  - intros He. by exists (EQuery q).
Qed.

Lemma sending_no_query r q : EQuery q ∉ (sending r).1.
Proof.
  unfold sending. simpl. intros (m & Hm & _)%list_elem_of_fmap. discriminate.
Qed.

Section Watermark.

Variable NewDateTimeFromTime : Z -> Z.
Variable aggregateProfileMetrics :
  ProfileCollector.ProfileCollector -> list (gmap string value) -> string ->
  gmap string string -> list Metric * Outcome unit.

Let collectDatabase :=
  ProfileCollector.collectDatabaseProfileMetrics NewDateTimeFromTime aggregateProfileMetrics.
Let Collect := ProfileCollector.Collect NewDateTimeFromTime aggregateProfileMetrics.

(** The queries on one database: the profiling status, then at most one
    [find] on [system.profile], for the window from [since] to [until]. *)
Lemma collectDatabase_queries c dbName instance since until q :
  EQuery q ∈ (collectDatabase c dbName instance since until).1 ->
  q = QRunCommand dbName "profile" (VInt (-1)) \/
  q = QFind dbName "system.profile" (NewDateTimeFromTime since) (NewDateTimeFromTime until).
Proof.
  unfold collectDatabase, ProfileCollector.collectDatabaseProfileMetrics.
  rewrite ask_bind. cbn [fst].
  intros [Hq|Hq]%elem_of_cons; [left; congruence|].
  destruct (runCommand _ _ _ _) as [profileStatus|err]; cbv beta iota in Hq.
  - destruct (bool_decide _); [by apply elem_of_nil in Hq|].
    rewrite ask_bind in Hq. cbn [fst] in Hq.
    apply elem_of_cons in Hq as [Hq|Hq]; [right; congruence|].
    destruct (find _ _ _ _ _) as [[es|err]|err]; cbv beta iota in Hq.
    + by apply sending_no_query in Hq.
    + apply list_elem_of_singleton in Hq. discriminate.
    + apply list_elem_of_singleton in Hq. discriminate.
  - apply list_elem_of_singleton in Hq. discriminate.
Qed.



(** What a cycle leaves of the collector: the watermark is the old one
    or the instant of the cycle; nothing else changes. *)
Lemma Collect_frame c now c' :
  (Collect c now).2 = Ret c' ->
  ProfileCollector.base c' = ProfileCollector.base c /\
  ProfileCollector.descriptors c' = ProfileCollector.descriptors c /\
  (ProfileCollector.lastCheck c' = ProfileCollector.lastCheck c \/
   ProfileCollector.lastCheck c' = now).
Proof.
  unfold Collect, ProfileCollector.Collect.
  destruct (negb _); [intros [= <-]; auto|].
  rewrite ask_bind. cbn [snd].
  destruct (listDatabaseNames _) as [databases|err].
  - destruct (forM_ databases _) as [t [[]|r]] eqn:Hloop.
    + unfold mbind, Exec_bind, exec_bind. simpl. intros [= <-]. auto.
    + unfold mbind, Exec_bind, exec_bind. simpl. discriminate.
  - simpl. intros [= <-]. auto.
Qed.


End Watermark.



(** ** Describe *)

(** Two iterations over the same map visit the same entries. *)
Lemma range_Permutation {A} (o1 o2 : MapOrder) (m : gmap string A) :
  range o1 m ≡ₚ range o2 m.
Proof. unfold range. by rewrite !order_perm. Qed.

Lemma describe_Permutation (o1 o2 : MapOrder) (ds : gmap string Desc) :
  (range o1 ds).*2 ≡ₚ (range o2 ds).*2.
Proof. by rewrite (range_Permutation o1 o2). Qed.

Lemma MultiCollector_Describe_Permutation (o1 o2 : MapOrder) (mc : MultiCollector) :
  Forall (fun c => Describe c o1 ≡ₚ Describe c o2) (collectors mc) ->
  MultiCollector.Describe o1 mc ≡ₚ MultiCollector.Describe o2 mc.
Proof.
  unfold MultiCollector.Describe.
  induction 1 as [|c cs Hc _ IH]; simpl; [done|].
  by rewrite Hc, IH.
Qed.

(** C8. Two calls of [Describe] on the same collector send the same
    descriptors (names, help texts and ordered label names), whatever order
    each call iterates the descriptor map in: for the server-status,
    replica-set, storage-stats and profile collectors, for the profile
    collector also across a [Collect] that moves its watermark, and for the
    registry as soon as it holds for its collectors, as it does for a
    registry of the three constructed collectors.  The server-status
    collector describes its nine descriptors. *)
Theorem Describe_idempotent (o1 o2 : MapOrder) :
  (forall c, ServerStatusCollector.Describe o1 c ≡ₚ ServerStatusCollector.Describe o2 c) /\
  (forall c, ReplicaSetCollector.Describe o1 c ≡ₚ ReplicaSetCollector.Describe o2 c) /\
  (forall c, StorageStatsCollector.Describe o1 c ≡ₚ StorageStatsCollector.Describe o2 c) /\
  (forall c, ProfileCollector.Describe o1 c ≡ₚ ProfileCollector.Describe o2 c) /\
  (forall dt aggregate c now c',
     (ProfileCollector.Collect dt aggregate c now).2 = Ret c' ->
     ProfileCollector.Describe o1 c ≡ₚ ProfileCollector.Describe o2 c') /\
  (forall mc,
     Forall (fun c => Describe c o1 ≡ₚ Describe c o2) (collectors mc) ->
     MultiCollector.Describe o1 mc ≡ₚ MultiCollector.Describe o2 mc) /\
  (forall cl cfg,
     let mc :=
       {| collectors :=
            [ServerStatusCollector.asCollector
               (ServerStatusCollector.NewServerStatusCollector cl cfg);
             ReplicaSetCollector.asCollector
               (ReplicaSetCollector.NewReplicaSetCollector cl cfg);
             StorageStatsCollector.asCollector
               (StorageStatsCollector.NewStorageStatsCollector cl cfg)] |} in
     MultiCollector.Describe o1 mc ≡ₚ MultiCollector.Describe o2 mc) /\
  (forall cl cfg,
     let labels := ["instance"; "replica_set"; "shard"] in
     ServerStatusCollector.Describe o1 (ServerStatusCollector.NewServerStatusCollector cl cfg)
     ≡ₚ [ NewDesc "mongodb_instance_uptime_seconds"
                  "The uptime of the MongoDB instance in seconds" labels;
          NewDesc "mongodb_connections" "The current connections metrics"
                  (labels ++ ["state"]);
          NewDesc "mongodb_memory_bytes" "The current memory usage in bytes"
                  (labels ++ ["type"]);
          NewDesc "mongodb_extra_info" "Extra information metrics" (labels ++ ["type"]);
          NewDesc "mongodb_network_bytes_total" "Network traffic metrics"
                  (labels ++ ["direction"]);
          NewDesc "mongodb_op_counters_total" "Operation counters" (labels ++ ["type"]);
          NewDesc "mongodb_metrics_document_total" "Document operation metrics"
                  (labels ++ ["type"]);
          NewDesc "mongodb_connections_metrics" "Connections metrics" (labels ++ ["type"]);
          NewDesc "mongodb_page_faults_total" "Page fault statistics" labels ]).
Proof.
  split; [intros c; apply describe_Permutation|].
  split; [intros c; apply describe_Permutation|].
  split; [intros c; apply describe_Permutation|].
  split; [intros c; apply describe_Permutation|].
  split.
  { intros dt aggregate c now c' Hret.
    apply Collect_frame in Hret as (_ & Hds & _).
    unfold ProfileCollector.Describe. rewrite Hds. apply describe_Permutation. }
  split; [apply MultiCollector_Describe_Permutation|].
  split.
  { intros cl cfg mc. apply MultiCollector_Describe_Permutation.
    repeat constructor; apply describe_Permutation. }
  intros cl cfg labels.
  unfold ServerStatusCollector.Describe, range.
  rewrite order_perm.
  set (entries :=
    [ ("uptime_seconds",
       NewDesc "mongodb_instance_uptime_seconds"
               "The uptime of the MongoDB instance in seconds" labels);
      ("connections",
       NewDesc "mongodb_connections" "The current connections metrics" (labels ++ ["state"]));
      ("memory",
       NewDesc "mongodb_memory_bytes" "The current memory usage in bytes" (labels ++ ["type"]));
      ("extra_info",
       NewDesc "mongodb_extra_info" "Extra information metrics" (labels ++ ["type"]));
      ("network_bytes_total",
       NewDesc "mongodb_network_bytes_total" "Network traffic metrics"
               (labels ++ ["direction"]));
      ("op_counters_total",
       NewDesc "mongodb_op_counters_total" "Operation counters" (labels ++ ["type"]));
      ("metrics_document_total",
       NewDesc "mongodb_metrics_document_total" "Document operation metrics"
               (labels ++ ["type"]));
      ("connections_metrics",
       NewDesc "mongodb_connections_metrics" "Connections metrics" (labels ++ ["type"]));
      ("page_faults_total",
       NewDesc "mongodb_page_faults_total" "Page fault statistics" labels) ]).
  change (ServerStatusCollector.descriptors
            (ServerStatusCollector.NewServerStatusCollector cl cfg))
    with (list_to_map entries : gmap string Desc).
  rewrite map_to_list_to_map; [reflexivity|].
  apply (bool_decide_unpack _). vm_compute. reflexivity.
Qed.

(** ** Fan-out *)

Lemma flat_map_insert {A B} (f : A -> list B) (l : list A) i x y :
  l !! i = Some x ->
  exists before after,
    flat_map f l = before ++ f x ++ after /\
    flat_map f (<[i := y]> l) = before ++ f y ++ after.
Proof.
  intros Hi.
  exists (flat_map f (take i l)), (flat_map f (drop (S i) l)). split.
  - rewrite <- (take_drop_middle l i x Hi) at 1.
    by rewrite flat_map_app.
  - rewrite insert_take_drop by (by eapply lookup_lt_Some).
    by rewrite flat_map_app.
Qed.

(** A step moves a metric from what remains to the channel, and a fault
    from what is pending to [errors]; nothing is lost or invented. *)
Lemma step_conserves st st' :
  MultiCollector.step st st' ->
  ch st' ++ flat_map remaining (goroutines st')
    ≡ₚ ch st ++ flat_map remaining (goroutines st) /\
  errors st' ++ flat_map pendingFault (goroutines st')
    ≡ₚ errors st ++ flat_map pendingFault (goroutines st).
Proof.
  destruct 1 as [st i c m rest o Hi|st i c l rest o Hi|st i c q rest o Hi
                |st i c Hi|st i c r Hi]; simpl.
  - destruct (flat_map_insert remaining _ i _ (Running c rest o) Hi) as (b & a & -> & ->).
    destruct (flat_map_insert pendingFault _ i _ (Running c rest o) Hi) as (b' & a' & -> & ->).
    simpl. split; [|done].
    rewrite <- !(assoc_L (++)). f_equiv. simpl.
    by rewrite Permutation_middle.
  - destruct (flat_map_insert remaining _ i _ (Running c rest o) Hi) as (b & a & -> & ->).
    destruct (flat_map_insert pendingFault _ i _ (Running c rest o) Hi) as (b' & a' & -> & ->).
    done.
  - destruct (flat_map_insert remaining _ i _ (Running c rest o) Hi) as (b & a & -> & ->).
    destruct (flat_map_insert pendingFault _ i _ (Running c rest o) Hi) as (b' & a' & -> & ->).
    done.
  - destruct (flat_map_insert remaining _ i _ Exited Hi) as (b & a & -> & ->).
    destruct (flat_map_insert pendingFault _ i _ Exited Hi) as (b' & a' & -> & ->).
    done.
  - destruct (flat_map_insert remaining _ i _ Exited Hi) as (b & a & -> & ->).
    destruct (flat_map_insert pendingFault _ i _ Exited Hi) as (b' & a' & -> & ->).
    simpl. split; [done|].
    rewrite <- !(assoc_L (++)). f_equiv. simpl.
    by rewrite Permutation_middle.
Qed.

Lemma spawn_remaining o mc :
  flat_map remaining (goroutines (MultiCollector.spawn o mc))
    = flat_map (fun c => sent (Collect c o).1) (collectors mc) /\
  flat_map pendingFault (goroutines (MultiCollector.spawn o mc))
    = flat_map (fun c => faultOf c (Collect c o).2) (collectors mc).
Proof.
  unfold MultiCollector.spawn. cbn [goroutines].
  induction (collectors mc) as [|c cs [IH1 IH2]]; [done|].
  rewrite fmap_cons. cbn [flat_map]. by rewrite IH1, IH2.
Qed.

Lemma fanout_conserves o mc st :
  rtc MultiCollector.step (MultiCollector.spawn o mc) st ->
  ch st ++ flat_map remaining (goroutines st)
    ≡ₚ flat_map (fun c => sent (Collect c o).1) (collectors mc) /\
  errors st ++ flat_map pendingFault (goroutines st)
    ≡ₚ flat_map (fun c => faultOf c (Collect c o).2) (collectors mc).
Proof.
  revert st. apply rtc_ind_r.
  - destruct (spawn_remaining o mc) as [-> ->]. done.
  - intros mid st _ Hstep [IH1 IH2].
    destruct (step_conserves _ _ Hstep) as [-> ->]. done.
Qed.

(** Once every goroutine has exited nothing remains and nothing is pending. *)
Lemma exited_nothing_left gs :
  Forall (fun g => g = Exited) gs ->
  flat_map remaining gs = [] /\ flat_map pendingFault gs = [].
Proof.
  induction 1 as [|g gs -> _ [IH1 IH2]]; simpl; [done|].
  by rewrite IH1, IH2.
Qed.

(** A step keeps the metrics of each goroutine in their order on the
    channel: what it has sent is a subsequence of the channel. *)
Lemma step_keeps_order st st' i p total :
  MultiCollector.step st st' ->
  p `sublist_of` ch st -> p ++ remainingAt st i = total ->
  exists p', p' `sublist_of` ch st' /\ p' ++ remainingAt st' i = total.
Proof.
  intros Hstep Hsub Htot. unfold remainingAt in *.
  destruct Hstep as [st j c m rest o Hj|st j c l rest o Hj|st j c q rest o Hj
                    |st j c Hj|st j c r Hj]; cbn [goroutines ch];
    (destruct (decide (j = i)) as [->|Hne];
     [ rewrite Hj in Htot; rewrite list_lookup_insert_eq by (by eapply lookup_lt_Some)
     | rewrite list_lookup_insert_ne by done ]); simpl in *.
  - exists (p ++ [m]). split; [by apply sublist_app|].
    by rewrite <- (assoc_L (++)).
  - exists p. split; [by apply sublist_inserts_r | done].
  - by exists p.
  - by exists p.
  - by exists p.
  - by exists p.
  - by exists p.
  - by exists p.
  - by exists p.
  - by exists p.
Qed.

Lemma fanout_keeps_order o mc st i c :
  rtc MultiCollector.step (MultiCollector.spawn o mc) st ->
  collectors mc !! i = Some c ->
  exists p, p `sublist_of` ch st /\ p ++ remainingAt st i = sent (Collect c o).1.
Proof.
  intros Hrun Hc. revert st Hrun. apply rtc_ind_r.
  - exists []. split; [apply sublist_nil_l|].
    unfold remainingAt, MultiCollector.spawn. cbn [goroutines].
    by rewrite list_lookup_fmap, Hc.
  - intros mid st _ Hstep (p & Hsub & Htot).
    by eapply step_keeps_order.
Qed.

(** Every goroutine can be run to its end: from any state some schedule
    reaches a state in which all have exited. *)
Lemma fanout_completes st :
  exists st', rtc MultiCollector.step st st' /\
              Forall (fun g => g = Exited) (goroutines st').
Proof.
  destruct st as [gs chv lg up er].
  assert (Hgen : forall todo finished chv lg up er,
    Forall (fun g => g = Exited) finished ->
    exists st', rtc MultiCollector.step
                  {| goroutines := finished ++ todo; ch := chv; logger := lg;
                     upstream := up; errors := er |} st' /\
                Forall (fun g => g = Exited) (goroutines st')).
  { clear. induction todo as [|g todo IH]; intros finished chv lg up er Hfin.
    - eexists. split; [apply rtc_refl|]. simpl. by rewrite app_nil_r.
    - assert (Hexit : forall chv lg up er,
        exists st', rtc MultiCollector.step
                      {| goroutines := finished ++ Exited :: todo; ch := chv;
                         logger := lg; upstream := up; errors := er |} st' /\
                    Forall (fun g => g = Exited) (goroutines st')).
      { intros chv' lg' up' er'.
        destruct (IH (finished ++ [Exited]) chv' lg' up' er') as (st' & Hrun & Hall).
        - apply Forall_app. split; [done|]. by constructor.
        - rewrite <- (assoc_L (++)) in Hrun. by exists st'. }
      destruct g as [c rest o|]; [|apply Hexit].
      revert chv lg up er. induction rest as [|e rest IHrest]; intros chv lg up er.
      + destruct o as [[]|r].
        * destruct (Hexit chv lg up er) as (st' & Hrun & Hall).
          exists st'. split; [|done].
          eapply rtc_l; [|exact Hrun].
          pose proof (MultiCollector.step_return
            {| goroutines := finished ++ Running c [] (Ret tt) :: todo; ch := chv;
               logger := lg; upstream := up; errors := er |} (length finished) c
            (list_lookup_middle _ _ _ _ eq_refl)) as Hstep.
          cbn [goroutines ch logger upstream errors] in Hstep.
          rewrite <- (Nat.add_0_r (length finished)), insert_app_r in Hstep.
          exact Hstep.
        * destruct (Hexit chv
            (lg ++ [{| level := ErrorLevel; message := "Collector panicked";
                       fields := [("collector", Name c); ("panic", r)] |}])
            up (er ++ [MultiCollector.panicError c r])) as (st' & Hrun & Hall).
          exists st'. split; [|done].
          eapply rtc_l; [|exact Hrun].
          pose proof (MultiCollector.step_recover
            {| goroutines := finished ++ Running c [] (Panic r) :: todo; ch := chv;
               logger := lg; upstream := up; errors := er |} (length finished) c r
            (list_lookup_middle _ _ _ _ eq_refl)) as Hstep.
          cbn [goroutines ch logger upstream errors] in Hstep.
          rewrite <- (Nat.add_0_r (length finished)), insert_app_r in Hstep.
          exact Hstep.
      + destruct e as [m|l|q].
        * destruct (IHrest (chv ++ [m]) lg up er) as (st' & Hrun & Hall).
          exists st'. split; [|done].
          eapply rtc_l; [|exact Hrun].
          pose proof (MultiCollector.step_send
            {| goroutines := finished ++ Running c (ESend m :: rest) o :: todo; ch := chv;
               logger := lg; upstream := up; errors := er |} (length finished) c m rest o
            (list_lookup_middle _ _ _ _ eq_refl)) as Hstep.
          cbn [goroutines ch logger upstream errors] in Hstep.
          rewrite <- (Nat.add_0_r (length finished)), insert_app_r in Hstep.
          exact Hstep.
        * destruct (IHrest chv (lg ++ [l]) up er) as (st' & Hrun & Hall).
          exists st'. split; [|done].
          eapply rtc_l; [|exact Hrun].
          pose proof (MultiCollector.step_log
            {| goroutines := finished ++ Running c (ELog l :: rest) o :: todo; ch := chv;
               logger := lg; upstream := up; errors := er |} (length finished) c l rest o
            (list_lookup_middle _ _ _ _ eq_refl)) as Hstep.
          cbn [goroutines ch logger upstream errors] in Hstep.
          rewrite <- (Nat.add_0_r (length finished)), insert_app_r in Hstep.
          exact Hstep.
        * destruct (IHrest chv lg (up ++ [q]) er) as (st' & Hrun & Hall).
          exists st'. split; [|done].
          eapply rtc_l; [|exact Hrun].
          pose proof (MultiCollector.step_query
            {| goroutines := finished ++ Running c (EQuery q :: rest) o :: todo; ch := chv;
               logger := lg; upstream := up; errors := er |} (length finished) c q rest o
            (list_lookup_middle _ _ _ _ eq_refl)) as Hstep.
          cbn [goroutines ch logger upstream errors] in Hstep.
          rewrite <- (Nat.add_0_r (length finished)), insert_app_r in Hstep.
          exact Hstep. }
  apply (Hgen gs [] chv lg up er). constructor.
Qed.

(** What every complete run of the registry leaves: the channel holds the
    metrics of all collectors, those of each collector in its order, and
    [errors] holds one fault per panicking collector. *)
Lemma MultiCollector_Collect_out o mc out :
  MultiCollector.Collect o mc out ->
  returned out = Ret tt /\
  channel out ≡ₚ flat_map (fun c => sent (Collect c o).1) (collectors mc) /\
  faults out ≡ₚ flat_map (fun c => faultOf c (Collect c o).2) (collectors mc) /\
  (forall i c, collectors mc !! i = Some c -> sent (Collect c o).1 `sublist_of` channel out).
Proof.
  intros [st Hrun Hall]. cbn [returned channel faults].
  destruct (fanout_conserves o mc st Hrun) as [Hch Herr].
  destruct (exited_nothing_left _ Hall) as [Hrem Hpend].
  rewrite Hrem, app_nil_r in Hch. rewrite Hpend, app_nil_r in Herr.
  split; [done|]. split; [done|]. split; [done|].
  intros i c Hc.
  destruct (fanout_keeps_order o mc st i c Hrun Hc) as (p & Hsub & Htot).
  assert (remainingAt st i = []) as Hnone.
  { unfold remainingAt. destruct (goroutines st !! i) as [g|] eqn:Hg; [|done].
    eapply Forall_lookup_1 in Hall; [|exact Hg]. by subst g. }
  rewrite Hnone, app_nil_r in Htot. by subst p.
Qed.

(** C1. A registry holds two collectors: [bad], whose [Collect] panics
    with payload [r] (after the events [pre]), and [good], whose [Collect]
    returns after the events [obs].  Then [MultiCollector.Collect] can run
    to its end, and however its goroutines interleave it returns to its
    caller without panicking, the channel holds every metric [good] sent,
    in the order [good] sent them (and besides them only what [bad] sent
    before its panic), and exactly one fault is recorded, which names
    [bad]. *)
Theorem fanout_isolation (o : MapOrder) (mc : MultiCollector) (bad good : Collector)
    (pre obs : list Event) (r : string) :
  Collect bad o = (pre, Panic r) ->
  Collect good o = (obs, Ret tt) ->
  collectors mc = [bad; good] \/ collectors mc = [good; bad] ->
  (exists out, MultiCollector.Collect o mc out) /\
  (forall out, MultiCollector.Collect o mc out ->
     returned out = Ret tt /\
     sent obs `sublist_of` channel out /\
     channel out ≡ₚ sent pre ++ sent obs /\
     faults out = [MultiCollector.panicError bad r] /\
     last (logs out) =
       Some {| level := ErrorLevel; message := "Errors occurred during collection";
               fields := [("error_count", "1");
                          ("errors", MultiCollector.panicError bad r)] |}).
Proof.
  intros Hbad Hgood Hreg. split.
  - destruct (fanout_completes (MultiCollector.spawn o mc)) as (st & Hrun & Hall).
    eexists. by econstructor.
  - intros out Hout.
    pose proof (MultiCollector_Collect_out o mc out Hout) as (Hret & Hch & Herr & Hord).
    assert (Hfaults : faults out = [MultiCollector.panicError bad r]).
    { apply Permutation_singleton_r. rewrite Herr.
      destruct Hreg as [-> | ->]; simpl; by rewrite Hbad, Hgood. }
    split; [done|]. split; [|split; [|split; [done|]]].
    + destruct Hreg as [Hreg|Hreg].
      * specialize (Hord 1 good). rewrite Hreg, Hgood in Hord. by apply Hord.
      * specialize (Hord 0 good). rewrite Hreg, Hgood in Hord. by apply Hord.
    + rewrite Hch. destruct Hreg as [-> | ->]; simpl; rewrite Hbad, Hgood; simpl.
      * by rewrite app_nil_r.
      * rewrite app_nil_r. apply Permutation_app_comm.
    + destruct Hout as [st Hrun Hall]. cbn [logs faults] in *.
      rewrite Hfaults.
      change (MultiCollector.summary [MultiCollector.panicError bad r])
        with [{| level := ErrorLevel; message := "Errors occurred during collection";
                 fields := [("error_count", "1");
                            ("errors", MultiCollector.panicError bad r)] |}].
      by rewrite last_snoc.
Qed.

Lemma fanout_isolation_witness :
  let bad := faultyCollector "faulty" [] "boom" in
  let good := MockCollector.asCollector {| MockCollector.name := "test" |} in
  let mc := {| collectors := [bad; good] |} in
  (exists out, MultiCollector.Collect source_order mc out) /\
  (forall out, MultiCollector.Collect source_order mc out ->
     returned out = Ret tt /\
     channel out = [{| desc := MockCollector.mockDesc; valueType := GaugeValue;
                       metricValue := of_Z 1; labelValues := [] |}] /\
     faults out = ["panic in collector faulty: boom"]).
Proof.
  intros bad good mc.
  destruct (fanout_isolation source_order mc bad good [] 
              [ESend {| desc := MockCollector.mockDesc; valueType := GaugeValue;
                        metricValue := of_Z 1; labelValues := [] |}] "boom"
              eq_refl eq_refl (or_introl eq_refl)) as [Hex Hall].
  split; [exact Hex|].
  intros out Hout. destruct (Hall out Hout) as (Hret & _ & Hch & Hfaults & _).
  split; [exact Hret|]. split; [|exact Hfaults].
  by apply Permutation_singleton_r in Hch.
Defined.

(** ** Errors of upstream queries *)


Lemma queried_app t1 t2 : queried (t1 ++ t2) = queried t1 ++ queried t2.
Proof. apply omap_app. Qed.

Lemma queried_cons q t : queried (EQuery q :: t) = q :: queried t.
Proof. reflexivity. Qed.

Lemma quiet_bind {A B} (m : Exec A) (f : A -> Exec B) :
  quiet m -> (forall a, quiet (f a)) -> quiet (m ≫= f).
Proof.
  unfold quiet. destruct m as [t [a|r]]; simpl; intros Hm Hf.
  - unfold mbind, Exec_bind, exec_bind. specialize (Hf a).
    destruct (f a) as [t' r']. simpl in *. by rewrite queried_app, Hm, Hf.
  - done.
Qed.

Lemma quiet_mret {A} (a : A) : quiet (mret a).
Proof. reflexivity. Qed.

Lemma quiet_log lv msg fs : quiet (log lv msg fs).
Proof. reflexivity. Qed.

Lemma quiet_emit dm vt v lvs : quiet (emit dm vt v lvs).
Proof.
  unfold emit, MustNewConstMetric. destruct dm as [d|]; [|done].
  by destruct (decide _).
Qed.

Lemma quiet_forM {A} (l : list A) (body : A -> Exec unit) :
  (forall x, quiet (body x)) -> quiet (forM_ l body).
Proof.
  intros Hb. induction l as [|x l IH]; simpl; [done|].
  apply quiet_bind; [apply Hb | by intros _].
Qed.

Ltac exec_quiet :=
  repeat first
    [ apply quiet_mret
    | apply quiet_log
    | apply quiet_emit
    | apply quiet_forM; intros [? ?]
    | apply quiet_forM; intros ?
    | apply quiet_bind; [|intros _]
    | match goal with
      | |- quiet (match ?x with _ => _ end) => destruct x
      | |- quiet (if ?b then _ else _) => destruct b
      end ].



Lemma errorsLogged_quiet cl t : queried t = [] -> errorsLogged cl t = true.
Proof.
  induction t as [|[m|l|q] t IH]; simpl; intros Hq; [done| | |discriminate]; by apply IH.
Qed.

Lemma errorsLogged_app cl t1 t2 :
  errorsLogged cl t1 = true -> errorsLogged cl t2 = true ->
  errorsLogged cl (t1 ++ t2) = true.
Proof.
  intros H1 H2. induction t1 as [|[m|l|q] t1 IH]; simpl in *; [done| | |]; try by apply IH.
  apply andb_true_iff in H1 as [Hq H1]. apply andb_true_iff. split; [|by apply IH].
  destruct (failed cl q); [|done].
  by destruct t1 as [|[m|l|q'] t1].
Qed.

Lemma errorsLogged_forM {A} cl (l : list A) (body : A -> Exec unit) :
  (forall x, returns (body x) /\ errorsLogged cl (body x).1 = true) ->
  returns (forM_ l body) /\ errorsLogged cl (forM_ l body).1 = true.
Proof.
  intros Hb. split; [apply forM_returns; intros x _; apply Hb|].
  rewrite forM_trace by (intros x _; apply Hb).
  induction l as [|x l IH]; simpl; [done|].
  apply errorsLogged_app; [apply Hb | done].
Qed.





(** One collection of the storage-stats collector: one query, logged when
    it fails. *)
Lemma StorageStats_collectCollection_policy o cl cfg a b s dbName collName :
  let out := StorageStatsCollector.collectCollection o
               (StorageStatsCollector.NewStorageStatsCollector cl cfg)
               [a; b; s] dbName collName in
  returns out /\ errorsLogged cl out.1 = true /\
  queried out.1 = [QRunCommand dbName "collStats" (VString collName)].
Proof.
  unfold StorageStatsCollector.collectCollection. cbv zeta.
  rewrite ask_bind.
  change (client (StorageStatsCollector.base
                    (StorageStatsCollector.NewStorageStatsCollector cl cfg))) with cl.
  destruct (runCommand cl dbName "collStats" (VString collName))
    as [collStats|err] eqn:Hq; cbn [fst snd].
  - match goal with
    | |- context [forM_ ?l ?body ≫= ?k] =>
        set (loop := forM_ l body); set (capped := k tt)
    end.
    assert (returns loop) as Hloop.
    { subst loop. apply forM_returns. intros [statName metricName] Hin.
      apply elem_of_range, elem_of_map_to_list in Hin.
      match type of Hin with
      | _ ∈ map_to_list ?m =>
          change m
            with (list_to_map [("size", "collection_size_bytes");
                               ("storageSize", "collection_storage_size_bytes");
                               ("avgObjSize", "collection_avg_obj_size_bytes");
                               ("count", "collection_count");
                               ("totalIndexSize", "collection_index_size_bytes")]
                  : gmap string string) in Hin
      end.
      rewrite map_to_list_to_map in Hin
        by (apply (bool_decide_unpack _); vm_compute; reflexivity).
      destruct (as_int64 (index collStats statName)); [|done].
      repeat (apply elem_of_cons in Hin as [[= -> ->]|Hin];
              [apply emit_returns; vm_compute; reflexivity|]).
      by apply elem_of_nil in Hin. }
    assert (quiet loop) as Hquiet by (subst loop; exec_quiet).
    assert (returns capped) as Hcap by (subst capped; cbv beta; exec_returns).
    assert (quiet capped) as Hqcap by (subst capped; cbv beta; exec_quiet).
    rewrite (bind_Ret loop _ tt Hloop). cbn [fst snd]. fold capped.
    split; [exact Hcap|]. split.
    + simpl. rewrite Hq. simpl. apply errorsLogged_quiet.
      by rewrite queried_app, Hquiet, Hqcap.
    + by rewrite queried_cons, queried_app, Hquiet, Hqcap.
  - split; [done|]. split; [|done]. simpl. by rewrite Hq.
Qed.

Lemma queried_flat_map {A} (body : A -> Exec unit) (qs : A -> list Query) (l : list A) :
  (forall x, queried (body x).1 = qs x) ->
  queried (flat_map (fun x => (body x).1) l) = flat_map qs l.
Proof.
  intros Hb. induction l as [|x l IH]; [done|].
  simpl. by rewrite queried_app, IH, Hb.
Qed.

Lemma storageQueries_db cl dbName q :
  q ∈ storageQueries cl dbName -> queryDb q = Some dbName.
Proof.
  unfold storageQueries. destruct (_ || _); [by intros ?%elem_of_nil|].
  intros [->|Hq]%elem_of_cons; [done|].
  destruct (runCommand _ _ _ _); [|by apply elem_of_nil in Hq].
  apply elem_of_cons in Hq as [->|Hq]; [done|].
  destruct (listCollectionNames _ _); [|by apply elem_of_nil in Hq].
  by apply list_elem_of_fmap in Hq as (collName & -> & _).
Qed.



(** One database of the storage-stats collector: the body of the loop
    returns, every failed query is logged, and the queries are those of
    [storageQueries]. *)
Lemma StorageStats_collectDatabase_policy o cl cfg a b s dbName :
  let out := StorageStatsCollector.collectDatabase o
               (StorageStatsCollector.NewStorageStatsCollector cl cfg)
               [a; b; s] dbName in
  returns out /\ errorsLogged cl out.1 = true /\
  queried out.1 = storageQueries cl dbName.
Proof.
  unfold StorageStatsCollector.collectDatabase, storageQueries. cbv zeta.
  destruct (_ || _); [done|].
  rewrite ask_bind.
  change (client (StorageStatsCollector.base
                    (StorageStatsCollector.NewStorageStatsCollector cl cfg))) with cl.
  destruct (runCommand cl dbName "dbStats" (VInt 1)) as [dbStats|err] eqn:Hq1;
    cbn [fst snd].
  - set (size := match as_int64 (index dbStats "dataSize") with
                 | Some dataSize => _ | None => _ end).
    assert (returns size) as Hsize by (subst size; exec_returns).
    assert (quiet size) as Hquiet by (subst size; exec_quiet).
    rewrite (bind_Ret size _ tt Hsize). cbn [fst snd].
    rewrite ask_bind. cbn [fst snd].
    rewrite !queried_cons, queried_app, Hquiet, queried_cons. cbn [app].
    destruct (listCollectionNames cl dbName) as [collections|err] eqn:Hq2.
    + pose proof (errorsLogged_forM cl collections
        (StorageStatsCollector.collectCollection o
           (StorageStatsCollector.NewStorageStatsCollector cl cfg) [a; b; s] dbName)) as Hloop.
      destruct Hloop as [Hret Hlog].
      { intros collName.
        destruct (StorageStats_collectCollection_policy o cl cfg a b s dbName collName)
          as (? & ? & _). done. }
      split; [exact Hret|]. split.
      * simpl. rewrite Hq1. simpl. apply errorsLogged_app.
        { by apply errorsLogged_quiet. }
        simpl. rewrite Hq2. simpl. exact Hlog.
      * do 2 f_equal.
        rewrite forM_trace.
        2:{ intros collName _.
            by destruct (StorageStats_collectCollection_policy o cl cfg a b s dbName collName)
              as (? & _). }
        rewrite (queried_flat_map _
                   (fun collName => [QRunCommand dbName "collStats" (VString collName)])).
        2:{ intros collName.
            by destruct (StorageStats_collectCollection_policy o cl cfg a b s dbName collName)
              as (_ & _ & ->). }
        clear. induction collections as [|collName collections IH]; [done|].
        simpl. by rewrite IH.
    + split; [done|]. split; [|done].
      simpl. rewrite Hq1. simpl. apply errorsLogged_app.
      { by apply errorsLogged_quiet. }
      simpl. by rewrite Hq2.
  - split; [done|]. split; [|done]. simpl. by rewrite Hq1.
Qed.


(** The inline test of the storage-stats collector is that of
    [shouldSkipDatabase]. *)
Lemma shouldSkipDatabase_inline dbName :
  (String.eqb dbName "admin" || String.eqb dbName "local" || String.eqb dbName "config")
    = shouldSkipDatabase dbName.
Proof.
  unfold shouldSkipDatabase. cbn [contains].
  rewrite !(String.eqb_sym dbName).
  destruct (String.eqb "admin" dbName), (String.eqb "config" dbName),
    (String.eqb "local" dbName); reflexivity.
Qed.








(** * Further properties of the collector package *)

(** ** The registry: adding and removing *)

Lemma RemoveCollector_loop_first name mc pre before c after :
  collectors mc = pre ++ before ++ c :: after ->
  Name c = name ->
  (forall c', c' ∈ before -> Name c' <> name) ->
  MultiCollector.RemoveCollector_loop name mc (length pre) (before ++ c :: after) =
    ([ELog {| level := InfoLevel; message := "Removed collector";
              fields := [("name", name)] |}],
     Ret {| collectors := pre ++ before ++ after |}).
Proof.
  intros Hmc Hc. revert pre Hmc.
  induction before as [|b before IH]; intros pre Hmc Hbefore; simpl.
  - rewrite (proj2 (String.eqb_eq _ _) Hc).
    rewrite Hmc. simpl.
    rewrite take_app_length.
    replace (pre ++ c :: after) with ((pre ++ [c]) ++ after) by (by rewrite <- (assoc_L (++))).
    replace (S (length pre)) with (length (pre ++ [c])) by (rewrite length_app; simpl; lia).
    by rewrite drop_app_length.
  - destruct (String.eqb_spec (Name b) name) as [Heq|_].
    + exfalso. eapply Hbefore; [left | exact Heq].
    + specialize (IH (pre ++ [b])).
      rewrite length_app in IH. simpl in IH.
      replace (length pre + 1) with (S (length pre)) in IH by lia.
      rewrite IH.
      * by rewrite <- (assoc_L (++)).
      * by rewrite <- (assoc_L (++)).
      * intros c' Hc'. apply Hbefore. by right.
Qed.

(** X1. When a collector of the given name is registered,
    [RemoveCollector] cuts out the first one of that name and nothing
    else: the collectors before it and after it (later ones of the same
    name among them) stay, in their order; one log entry is written. *)
Theorem RemoveCollector_first (name : string) (mc : MultiCollector)
    (before after : list Collector) (c : Collector) :
  collectors mc = before ++ c :: after ->
  Name c = name ->
  (forall c', c' ∈ before -> Name c' <> name) ->
  MultiCollector.RemoveCollector name mc =
    ([ELog {| level := InfoLevel; message := "Removed collector";
              fields := [("name", name)] |}],
     Ret {| collectors := before ++ after |}).
Proof.
  intros Hmc Hc Hbefore. unfold MultiCollector.RemoveCollector.
  rewrite Hmc. by apply (RemoveCollector_loop_first name mc [] before c after).
Qed.

Lemma RemoveCollector_first_witness :
  let test := MockCollector.asCollector {| MockCollector.name := "test" |} in
  let other := MockCollector.asCollector {| MockCollector.name := "other" |} in
  MultiCollector.RemoveCollector "test" {| collectors := [other; test; test] |} =
    ([ELog {| level := InfoLevel; message := "Removed collector";
              fields := [("name", "test")] |}],
     Ret {| collectors := [other; test] |}).
Proof.
  intros test other.
  apply (RemoveCollector_first "test" {| collectors := [other; test; test] |}
           [other] [test] test); [reflexivity|reflexivity|].
  intros c' Hc'. apply list_elem_of_singleton in Hc' as ->. simpl. discriminate.
Defined.

(** X2. Adding a collector whose name no registered collector bears and
    then removing that name gives the registry back as it was; the two
    calls write one log entry each. *)
Theorem AddCollector_RemoveCollector (c : Collector) (mc : MultiCollector) :
  (forall c', c' ∈ collectors mc -> Name c' <> Name c) ->
  MultiCollector.AddCollector c mc ≫= MultiCollector.RemoveCollector (Name c) =
    ([ELog {| level := InfoLevel; message := "Added collector";
              fields := [("name", Name c)] |};
      ELog {| level := InfoLevel; message := "Removed collector";
              fields := [("name", Name c)] |}],
     Ret mc).
Proof.
  intros Habs. unfold MultiCollector.AddCollector.
  pose proof (RemoveCollector_loop_first (Name c)
                {| collectors := collectors mc ++ [c] |} [] (collectors mc) c []
                eq_refl eq_refl Habs) as Hloop.
  cbn [length app] in Hloop.
  cbn [log mbind mret Exec_bind Exec_ret exec_bind exec_ret app].
  unfold MultiCollector.RemoveCollector. cbn [collectors]. rewrite Hloop.
  rewrite app_nil_r. by destruct mc.
Qed.

Lemma AddCollector_RemoveCollector_witness :
  let test := MockCollector.asCollector {| MockCollector.name := "test" |} in
  (MultiCollector.AddCollector test MultiCollector.NewMultiCollector
     ≫= MultiCollector.RemoveCollector "test").2
    = Ret MultiCollector.NewMultiCollector.
Proof.
  intros test.
  refine (f_equal snd
            (AddCollector_RemoveCollector test MultiCollector.NewMultiCollector _)).
  intros c' Hc'. by apply elem_of_nil in Hc'.
Defined.

(** ** System collections *)

(** X3. [shouldSkipCollection] holds exactly of the names that begin with
    "system." and go on after it; the name "system." itself is not
    skipped. *)
Theorem shouldSkipCollection_prefix (collName : string) :
  shouldSkipCollection collName = true <->
  exists rest, rest <> "" /\ collName = "system." +:+ rest.
Proof.
  unfold shouldSkipCollection. split.
  - intros [Hlen Hpre]%andb_true_iff.
    apply Nat.ltb_lt in Hlen. apply String.eqb_eq in Hpre.
    destruct collName as [|a1 [|a2 [|a3 [|a4 [|a5 [|a6 [|a7 rest]]]]]]];
      simpl in Hlen; try lia.
    exists rest. split.
    + intros ->. simpl in Hlen. lia.
    + simpl in Hpre. destruct rest; by injection Hpre as -> -> -> -> -> -> ->.
  - intros (rest & Hne & ->).
    destruct rest as [|a rest]; [done|]. reflexivity.
Qed.

(** ** Values that are not below zero *)

(** Rounding keeps the sign. *)
Lemma binary_round_aux_sign sx mx ex lx :
  match binary_round_aux prec emax sx mx ex lx with
  | S754_zero s | S754_infinity s | S754_finite s _ _ => s = sx
  | S754_nan => True
  end.
Proof.
  unfold binary_round_aux.
  destruct (shr_fexp prec emax mx ex lx) as [mrs' e'].
  destruct (shr_fexp prec emax _ e' loc_Exact) as [mrs'' e''].
  destruct (shr_m mrs''); [done| |done].
  destruct (_ <=? _)%Z; done.
Qed.

(** The conversion of an integer that is not negative is not below zero. *)
Lemma of_Z_not_below_zero z : (0 <= z)%Z -> ltb (of_Z z) zero = false.
Proof.
  intros Hz. destruct z as [|m|m]; [reflexivity| |lia].
  unfold of_Z, binary_normalize, binary_round.
  destruct (shl_align m 0 _) as [mz ez].
  pose proof (binary_round_aux_sign false (Z.pos mz) ez loc_Exact) as Hs.
  destruct (binary_round_aux prec emax false (Z.pos mz) ez loc_Exact) as [s|s| |s mm e];
    try subst s; reflexivity.
Qed.

Lemma safeGetNumericValue_not_below_zero v f :
  safeGetNumericValue v = Some f -> ltb f zero = false.
Proof.
  destruct v; simpl; try discriminate;
    try (destruct (Z.ltb_spec z 0); [discriminate|];
         intros [= <-]; by apply of_Z_not_below_zero).
  destruct (ltb f0 zero) eqn:Hf; [discriminate|]. by intros [= <-].
Qed.

(** X4. The two validators of common.go agree: [validateMetricValue]
    accepts whatever [safeGetNumericValue] yields, and rejects its
    absence.  So no value that [safeGetNumericValue] lets through is below
    zero, integers of any size included. *)
Theorem safeGetNumericValue_valid (v : value) :
  validateMetricValue (safeGetNumericValue v)
    = bool_decide (is_Some (safeGetNumericValue v)) /\
  forall f, safeGetNumericValue v = Some f -> ltb f zero = false.
Proof.
  split; [|apply safeGetNumericValue_not_below_zero].
  destruct (safeGetNumericValue v) as [f|] eqn:Hv; [|done].
  simpl. by rewrite (safeGetNumericValue_not_below_zero v f Hv).
Qed.

(** Multiplying by a positive finite number keeps a number from falling
    below zero. *)
Lemma mul_not_below_zero x m e :
  ltb x zero = false -> ltb (mul x (S754_finite false m e)) zero = false.
Proof.
  unfold mul, SFmul.
  destruct x as [s|s| |s mx ex]; try done.
  - destruct s; [discriminate|done].
  - destruct s; [discriminate|]. intros _. simpl xorb.
    pose proof (binary_round_aux_sign false (Z.pos (mx * m)) (ex + e) loc_Exact) as Hs.
    destruct (binary_round_aux prec emax false (Z.pos (mx * m)) (ex + e) loc_Exact)
      as [s|s| |s mm e']; try subst s; reflexivity.
Qed.

Lemma mul_1024_not_below_zero x :
  ltb x zero = false -> ltb (mul x (of_Z 1024)) zero = false.
Proof.
  assert (exists m e, of_Z 1024 = S754_finite false m e) as (m & e & ->)
    by (do 2 eexists; vm_compute; reflexivity).
  apply mul_not_below_zero.
Qed.

Lemma leb_zero_not_below x : leb zero x = true -> ltb x zero = false.
Proof. destruct x as [s|[]| |[] m e]; done. Qed.

(** ** What a computation sends *)

Lemma everySample_bind {A B} P (m : Exec A) (f : A -> Exec B) :
  everySample P m -> (forall a, everySample P (f a)) -> everySample P (m ≫= f).
Proof.
  intros Hm Hf x [Hx|(a & _ & Hx)]%in_bind_inv; [by apply Hm | by eapply Hf].
Qed.

Lemma everySample_mret {A} P (a : A) : everySample P (mret a).
Proof. by intros x ?%elem_of_nil. Qed.

Lemma everySample_log P lv msg fs : everySample P (log lv msg fs).
Proof. intros x Hx%list_elem_of_singleton. discriminate. Qed.

Lemma emit_sample dm vt v lvs x :
  ESend x ∈ (emit dm vt v lvs).1 ->
  exists d, dm = Some d /\
    x = {| desc := d; valueType := vt; metricValue := v; labelValues := lvs |}.
Proof.
  unfold emit, MustNewConstMetric.
  destruct dm as [d|]; [|by intros ?%elem_of_nil].
  destruct (decide _); [|by intros ?%elem_of_nil].
  intros Hx%list_elem_of_singleton. injection Hx as ->. eauto.
Qed.

Lemma everySample_emit P dm vt v lvs :
  (forall d, dm = Some d ->
     P {| desc := d; valueType := vt; metricValue := v; labelValues := lvs |}) ->
  everySample P (emit dm vt v lvs).
Proof. intros HP x (d & Hd & ->)%emit_sample. by apply HP. Qed.

Lemma everySample_forM {A} P (l : list A) (body : A -> Exec unit) :
  (forall x, x ∈ l -> everySample P (body x)) -> everySample P (forM_ l body).
Proof.
  intros Hb x (y & Hy & Hx)%in_forM_inv. by eapply Hb.
Qed.

(** Goals [everySample P m] for the bodies of the collectors; [tac] proves
    [P] of the metric of a send. *)
Ltac exec_samples tac :=
  repeat first
    [ apply everySample_mret
    | apply everySample_log
    | apply everySample_emit; intros ? ?; tac
    | apply everySample_forM; intros [? ?] ?
    | apply everySample_forM; intros ? ?
    | apply everySample_bind; [|intros _]
    | match goal with
      | |- everySample _ (match ?x with _ => _ end) => destruct x eqn:?
      | |- everySample _ (if ?b then _ else _) => destruct b eqn:?
      end ].

(** ** Samples of the server-status collector *)

Lemma ServerStatus_collectMetrics_samples o cl cfg result :
  everySample
    (fun m => ltb (metricValue m) zero = false /\
              take 3 (labelValues m) = identityOf (NewBaseCollector cl cfg) result)
    (ServerStatusCollector.collectMetrics o
       (ServerStatusCollector.NewServerStatusCollector cl cfg) result).
Proof.
  unfold ServerStatusCollector.collectMetrics.
  exec_samples ltac:(
    split;
    [ first [ by apply leb_zero_not_below
            | do 2 apply mul_1024_not_below_zero;
              eapply safeGetNumericValue_not_below_zero; eassumption
            | eapply safeGetNumericValue_not_below_zero; eassumption ]
    | reflexivity ]).
Qed.

(** X5. Whatever the server answers and in whatever order the maps are
    visited, every sample the server-status collector sends comes from the
    answer to [serverStatus], has a value that is not below zero, and
    bears the three identity labels of that answer first (the static
    labels of the configuration play no part). *)
Theorem ServerStatus_samples (o : MapOrder) (cl : Client) (cfg : CollectorConfig)
    (m : Metric) :
  m ∈ sent (ServerStatusCollector.Collect o
              (ServerStatusCollector.NewServerStatusCollector cl cfg)).1 ->
  exists result,
    runCommand cl "admin" "serverStatus" (VInt 1) = Ok result /\
    ltb (metricValue m) zero = false /\
    take 3 (labelValues m) = identityOf (NewBaseCollector cl cfg) result.
Proof.
  rewrite elem_of_sent. unfold ServerStatusCollector.Collect.
  destruct (negb _); [by intros ?%elem_of_nil|].
  rewrite ask_bind. cbn [fst].
  intros [?|Hm]%elem_of_cons; [discriminate|].
  change (client (ServerStatusCollector.base
                    (ServerStatusCollector.NewServerStatusCollector cl cfg))) with cl in Hm.
  destruct (runCommand cl "admin" "serverStatus" (VInt 1)) as [result|err].
  - exists result. split; [done|].
    by apply (ServerStatus_collectMetrics_samples o cl cfg result).
  - apply list_elem_of_singleton in Hm. discriminate.
Qed.

Lemma ServerStatus_samples_witness :
  exists result,
    runCommand (serving liveStatus) "admin" "serverStatus" (VInt 1) = Ok result /\
    ltb (of_Z 3600) zero = false /\
    take 3 ["test-host"; "unknown"; "unknown"]
      = identityOf (NewBaseCollector (serving liveStatus) testConfig) result.
Proof.
  apply (ServerStatus_samples source_order (serving liveStatus) testConfig
           {| desc := NewDesc "mongodb_instance_uptime_seconds"
                              "The uptime of the MongoDB instance in seconds"
                              ["instance"; "replica_set"; "shard"];
              valueType := GaugeValue; metricValue := of_Z 3600;
              labelValues := ["test-host"; "unknown"; "unknown"] |}).
  vm_compute. apply list_elem_of_here.
Defined.

(** ** The gate of a collector *)

(** X6. The server-status, replica-set, storage-stats, WiredTiger and
    query-executor collectors are each gated by their own name: when
    [isMetricEnabled] rejects [Name()], [Collect] does nothing at all (no
    query, no sample, no log entry); when it accepts it, [Collect] begins
    with a query to the server. *)
Theorem Collect_gated_by_Name (o : MapOrder) (cl : Client) (cfg : CollectorConfig) :
  Forall (fun c : Collector =>
            if BaseCollector.isMetricEnabled (NewBaseCollector cl cfg) (Name c)
            then exists q t, (Collect c o).1 = EQuery q :: t
            else Collect c o = ([], Ret tt))
    [ ServerStatusCollector.asCollector
        (ServerStatusCollector.NewServerStatusCollector cl cfg);
      ReplicaSetCollector.asCollector
        (ReplicaSetCollector.NewReplicaSetCollector cl cfg);
      StorageStatsCollector.asCollector
        (StorageStatsCollector.NewStorageStatsCollector cl cfg);
      WiredTigerCollector.asCollector
        (WiredTigerCollector.NewWiredTigerCollector cl cfg);
      QueryExecutorCollector.asCollector
        (QueryExecutorCollector.NewQueryExecutorCollector cl cfg) ].
Proof.
  repeat apply Forall_cons_2; [| | | | |apply Forall_nil_2];
    cbn [Name Collect ServerStatusCollector.asCollector ReplicaSetCollector.asCollector
         StorageStatsCollector.asCollector WiredTigerCollector.asCollector
         QueryExecutorCollector.asCollector].
  - unfold ServerStatusCollector.Collect, ServerStatusCollector.Name.
    change (ServerStatusCollector.base _) with (NewBaseCollector cl cfg).
    destruct (BaseCollector.isMetricEnabled _ _); [|done].
    cbn [negb]. rewrite ask_bind. eauto.
  - unfold ReplicaSetCollector.Collect, ReplicaSetCollector.Name.
    change (ReplicaSetCollector.base _) with (NewBaseCollector cl cfg).
    destruct (BaseCollector.isMetricEnabled _ _); [|done].
    cbn [negb]. rewrite ask_bind. eauto.
  - unfold StorageStatsCollector.Collect, StorageStatsCollector.Name.
    change (StorageStatsCollector.base _) with (NewBaseCollector cl cfg).
    destruct (BaseCollector.isMetricEnabled _ _); [|done].
    cbn [negb]. rewrite ask_bind. eauto.
  - unfold WiredTigerCollector.Collect, WiredTigerCollector.Name.
    change (WiredTigerCollector.base _) with (NewBaseCollector cl cfg).
    destruct (BaseCollector.isMetricEnabled _ _); [|done].
    cbn [negb]. rewrite ask_bind. eauto.
  - unfold QueryExecutorCollector.Collect, QueryExecutorCollector.Name.
    change (QueryExecutorCollector.base _) with (NewBaseCollector cl cfg).
    destruct (BaseCollector.isMetricEnabled _ _); [|done].
    cbn [negb]. rewrite ask_bind. eauto.
Qed.

(** ** State names *)

Lemma binary_round_aux_opp mx ex lx :
  binary_round_aux prec emax true mx ex lx
    = SFopp (binary_round_aux prec emax false mx ex lx).
Proof.
  unfold binary_round_aux.
  destruct (shr_fexp prec emax mx ex lx) as [mrs' e'].
  destruct (shr_fexp prec emax _ e' loc_Exact) as [mrs'' e''].
  destruct (shr_m mrs''); [done| |done].
  by destruct (_ <=? _)%Z.
Qed.

Lemma exactly_inj f z z' : exactly f z -> exactly f z' -> z = z'.
Proof.
  destruct f as [s|s| |s m e]; simpl; try done.
  - by intros -> ->.
  - destruct (Z.leb_spec 0 e).
    + by intros -> ->.
    + intros H1 H2. rewrite <- H2 in H1.
      apply Z.mul_cancel_r in H1; [done|].
      apply Z.pow_nonzero; lia.
Qed.

Lemma of_Z_finite m :
  (Z.pos m < 2 ^ 53)%Z -> exists mm e, of_Z (Z.pos m) = S754_finite false mm e.
Proof.
  intros Hm. rewrite of_Z_small by done.
  destruct (53 - Z.pos (digits2_pos m))%Z; eauto.
Qed.

(** Integers below 2^53 in absolute value are told apart by their
    conversions to float64. *)
Lemma of_Z_eqb z k :
  (- 2 ^ 53 < z < 2 ^ 53)%Z -> (0 < k < 2 ^ 53)%Z ->
  SFeqb (of_Z z) (of_Z k) = bool_decide (z = k).
Proof.
  intros Hz Hk.
  destruct k as [|k|k]; [lia| |lia].
  destruct (of_Z_finite k) as (mk & ek & Hfk); [lia|].
  destruct z as [|m|m].
  - rewrite Hfk. by rewrite bool_decide_eq_false_2.
  - destruct (of_Z_finite m) as (mz & ez & Hfz); [lia|].
    destruct (decide (Z.pos m = Z.pos k)) as [Heq|Hne].
    + rewrite bool_decide_eq_true_2 by done. rewrite Heq, Hfk.
      unfold SFeqb, SFcompare. rewrite Z.compare_refl.
      by rewrite Pos.compare_cont_refl.
    + rewrite bool_decide_eq_false_2 by done.
      destruct (SFeqb (of_Z (Z.pos m)) (of_Z (Z.pos k))) eqn:He; [|done].
      exfalso. apply Hne.
      pose proof (of_Z_exact (Z.pos m) ltac:(lia)) as Hxm.
      pose proof (of_Z_exact (Z.pos k) ltac:(lia)) as Hxk.
      rewrite Hfz, Hfk in He. unfold SFeqb, SFcompare in He.
      destruct (Z.compare_spec ez ek) as [->| |]; try discriminate.
      destruct (Pos.compare_cont Eq mz mk) eqn:Hc; try discriminate.
      apply Pos.compare_eq in Hc as ->.
      rewrite Hfz in Hxm. rewrite Hfk in Hxk.
      by eapply exactly_inj.
  - rewrite bool_decide_eq_false_2 by lia.
    rewrite Hfk. unfold of_Z, binary_normalize, binary_round.
    destruct (shl_align m 0 _) as [mz ez].
    rewrite binary_round_aux_opp.
    pose proof (binary_round_aux_sign false (Z.pos mz) ez loc_Exact) as Hs.
    destruct (binary_round_aux prec emax false (Z.pos mz) ez loc_Exact) as [s|s| |s ? ?];
      try subst s; reflexivity.
Qed.

(** X7. For every [int32] state, the label that [getStateString] gives
    to its conversion to float64 is the one of the integer: 1 is PRIMARY,
    2 is SECONDARY, 7 is ARBITER, and every other state, negative ones
    included, is UNKNOWN. *)
Theorem getStateString_int32 (state : Z) :
  (- 2 ^ 31 <= state < 2 ^ 31)%Z ->
  ReplicaSetCollector.getStateString (of_Z state) =
    if decide (state = 1%Z) then "PRIMARY"
    else if decide (state = 2%Z) then "SECONDARY"
    else if decide (state = 7%Z) then "ARBITER"
    else "UNKNOWN".
Proof.
  intros Hs. unfold ReplicaSetCollector.getStateString.
  rewrite !of_Z_eqb by lia.
  repeat case_bool_decide; repeat case_decide; try done; lia.
Qed.

Lemma getStateString_int32_witness :
  ReplicaSetCollector.getStateString (of_Z 2) = "SECONDARY".
Proof. apply (getStateString_int32 2). lia. Defined.

(** ** Members of a replica set *)

(** X8. On an answer to [replSetGetStatus] whose [members] field is an
    array, the replica-set collector sends the number of elements of the
    array, valid or not, as the member count; for every element that is a
    document with a string name and [int32] state and health it sends the
    state and the health, labelled with the name and the name of the
    state; and it sends state and health samples for no other element (a
    health reported as a double, say, yields none). *)
Theorem ReplicaSet_members (o : MapOrder) (cl : Client) (cfg : CollectorConfig)
    (replStatus : gmap string value) (members : list value) :
  BaseCollector.isMetricEnabled (NewBaseCollector cl cfg) "replica_set_status" = true ->
  runCommand cl "admin" "replSetGetStatus" (VInt 1) = Ok replStatus ->
  replStatus !! "members" = Some (VA members) ->
  let t := (ReplicaSetCollector.Collect o
              (ReplicaSetCollector.NewReplicaSetCollector cl cfg)).1 in
  let ids := identityOf (NewBaseCollector cl cfg) replStatus in
  let stateDesc :=
    NewDesc "mongodb_replset_member_state"
            "State of the replica set member (1=Primary, 2=Secondary, 7=Arbiter)"
            ["instance"; "replica_set"; "shard"; "name"; "state"] in
  let healthDesc :=
    NewDesc "mongodb_replset_member_health"
            "Health status of the replica set member (0=unhealthy, 1=healthy)"
            ["instance"; "replica_set"; "shard"; "name"; "state"] in
  ESend {| desc := NewDesc "mongodb_replset_number_of_members"
                           "Total number of members in the replica set"
                           ["instance"; "replica_set"; "shard"];
           valueType := GaugeValue;
           metricValue := of_Z (Z.of_nat (length members));
           labelValues := ids |} ∈ t /\
  (forall m name state health,
     m ∈ members -> validMember m name state health ->
     ESend {| desc := stateDesc; valueType := GaugeValue; metricValue := of_Z state;
              labelValues :=
                ids ++ [name; ReplicaSetCollector.getStateString (of_Z state)] |} ∈ t /\
     ESend {| desc := healthDesc; valueType := GaugeValue; metricValue := of_Z health;
              labelValues :=
                ids ++ [name; ReplicaSetCollector.getStateString (of_Z state)] |} ∈ t) /\
  (forall x,
     ESend x ∈ t -> desc x = stateDesc \/ desc x = healthDesc ->
     exists m name state health,
       m ∈ members /\ validMember m name state health /\
       labelValues x = ids ++ [name; ReplicaSetCollector.getStateString (of_Z state)] /\
       (desc x = stateDesc /\ metricValue x = of_Z state \/
        desc x = healthDesc /\ metricValue x = of_Z health)).
Proof.
  intros Hen Hok Hm t ids stateDesc healthDesc. subst t.
  set (c := ReplicaSetCollector.NewReplicaSetCollector cl cfg).
  unfold ReplicaSetCollector.Collect.
  change (ReplicaSetCollector.base c) with (NewBaseCollector cl cfg).
  rewrite Hen. cbn [negb]. cbv iota.
  rewrite ask_bind. change (client (NewBaseCollector cl cfg)) with cl.
  rewrite Hok. cbv beta iota zeta.
  replace (index replStatus "members") with (VA members)
    by (unfold index; by rewrite Hm).
  cbn [as_A fst].
  fold (identityOf (NewBaseCollector cl cfg) replStatus). fold ids.
  match goal with
  | |- context [forM_ members ?b] => set (body := b)
  end.
  set (gauge := emit (ReplicaSetCollector.descriptors c !! "number_of_members") _ _ _).
  assert (Hbody : forall m, returns (body m)).
  { intros m. subst body. cbv beta. exec_returns. }
  assert (Hgauge : gauge =
    ([ESend {| desc := NewDesc "mongodb_replset_number_of_members"
                               "Total number of members in the replica set"
                               ["instance"; "replica_set"; "shard"];
               valueType := GaugeValue;
               metricValue := of_Z (Z.of_nat (length members));
               labelValues := ids |}], Ret tt)).
  { subst gauge. erewrite emit_lookup_sends; [reflexivity|reflexivity|reflexivity]. }
  assert (Hloop : returns (forM_ members body)) by (apply forM_returns; auto).
  split; [|split].
  - apply list_elem_of_further, in_seq_l, in_seq_l. rewrite Hgauge. by left.
  - intros m name state health Hin (member & -> & Hname & Hstate & Hhealth).
    assert (Hb : (body (VM member)).1 =
      [ESend {| desc := stateDesc; valueType := GaugeValue; metricValue := of_Z state;
                labelValues :=
                  ids ++ [name; ReplicaSetCollector.getStateString (of_Z state)] |};
       ESend {| desc := healthDesc; valueType := GaugeValue; metricValue := of_Z health;
                labelValues :=
                  ids ++ [name; ReplicaSetCollector.getStateString (of_Z state)] |}]).
    { subst body. cbn [as_M]. unfold index. rewrite Hname, Hstate, Hhealth.
      cbn [default from_option id as_string as_int32].
      erewrite !emit_lookup_sends; [reflexivity|reflexivity|reflexivity|reflexivity|reflexivity]. }
    split; apply list_elem_of_further, in_seq_l, in_seq_r;
      try (by rewrite Hgauge);
      apply (in_forM _ _ (VM member)); auto; rewrite Hb.
    + by left.
    + right. by left.
  - intros x Hx Hd.
    apply elem_of_cons in Hx as [?|Hx]; [discriminate|].
    apply in_bind_inv in Hx as [Hx|(_ & _ & Hx)].
    + apply in_bind_inv in Hx as [Hx|(_ & _ & Hx)].
      * rewrite Hgauge in Hx. apply list_elem_of_singleton in Hx. injection Hx as ->.
        destruct Hd as [Hd|Hd]; discriminate Hd.
      * apply in_forM_inv in Hx as (m & Hin & Hx).
        exists m. subst body. cbv beta in Hx.
        destruct m as [| | | | | | | | | | | | | |member|]; cbn [as_M] in Hx;
          try by apply elem_of_nil in Hx.
        destruct (member !! "name") as [[]|] eqn:Hname;
          unfold index at 1 in Hx; rewrite Hname in Hx; cbn [default from_option id as_string] in Hx;
          try (destruct (as_int32 (index member "state")), (as_int32 (index member "health"));
               apply list_elem_of_singleton in Hx; discriminate Hx).
        destruct (member !! "state") as [[]|] eqn:Hstate;
          unfold index at 1 in Hx; rewrite Hstate in Hx; cbn [default from_option id as_int32] in Hx;
          try (destruct (as_int32 (index member "health"));
               apply list_elem_of_singleton in Hx; discriminate Hx).
        destruct (member !! "health") as [[]|] eqn:Hhealth;
          unfold index at 1 in Hx; rewrite Hhealth in Hx; cbn [default from_option id as_int32] in Hx;
          try (apply list_elem_of_singleton in Hx; discriminate Hx).
        exists s, z, z0. split; [done|]. split; [by exists member|].
        apply in_bind_inv in Hx as [Hx|(_ & _ & Hx)];
          apply emit_sample in Hx as (d & Hlk & ->);
          vm_compute in Hlk; injection Hlk as <-; (split; [reflexivity|]).
        -- left. done.
        -- right. done.
    + exfalso. unfold ReplicaSetCollector.collectOplogMetrics in Hx.
      rewrite ask_bind in Hx. cbn [fst] in Hx.
      apply elem_of_cons in Hx as [?|Hx]; [discriminate|].
      destruct (runCommand (client (ReplicaSetCollector.base c)) "local" "collStats"
                  (VString "oplog.rs")) as [oplogStats|err]; cbv beta iota in Hx;
        [|apply list_elem_of_singleton in Hx; discriminate Hx].
      apply in_bind_inv in Hx as [Hx|(_ & _ & Hx)].
      * destruct (as_int64 _); [|by apply elem_of_nil in Hx].
        apply emit_sample in Hx as (d & Hlk & ->).
        vm_compute in Hlk. injection Hlk as <-.
        destruct Hd as [Hd|Hd]; discriminate Hd.
      * rewrite ask_bind in Hx. cbn [fst] in Hx.
        apply elem_of_cons in Hx as [?|Hx]; [discriminate|].
        destruct (findOne _ _ _) as [latestOplog|err]; cbv beta iota in Hx;
          [|apply list_elem_of_singleton in Hx; discriminate Hx].
        destruct (as_Timestamp _); [|by apply elem_of_nil in Hx].
        apply emit_sample in Hx as (d & Hlk & ->).
        vm_compute in Hlk. injection Hlk as <-.
        destruct Hd as [Hd|Hd]; discriminate Hd.
Qed.

Lemma ReplicaSet_members_witness :
  let member := VM {[ "name" := VString "db1:27017"; "state" := VInt32 1;
                      "health" := VInt32 1 ]} in
  let stale := VM {[ "name" := VString "db2:27017"; "state" := VInt32 2;
                     "health" := VFloat64 (of_Z 1) ]} in
  ESend {| desc := NewDesc "mongodb_replset_number_of_members"
                           "Total number of members in the replica set"
                           ["instance"; "replica_set"; "shard"];
           valueType := GaugeValue; metricValue := of_Z 2;
           labelValues := ["unknown"; "unknown"; "unknown"] |}
  ∈ (ReplicaSetCollector.Collect source_order
       (ReplicaSetCollector.NewReplicaSetCollector
          (replicating [member; stale]) defaultConfig)).1.
Proof.
  intros member stale.
  apply (proj1 (ReplicaSet_members source_order (replicating [member; stale]) defaultConfig
                  {[ "set" := VString "rs0"; "members" := VA [member; stale] ]}
                  [member; stale] eq_refl eq_refl eq_refl)).
Defined.

(** ** System databases *)

(** X9. Every query of the storage-stats collector other than the
    listing of the databases is addressed to a database that the server
    listed and that [shouldSkipDatabase] of common.go does not skip: the
    collector's own test agrees with it, and admin, config and local are
    never queried. *)
Theorem StorageStats_skips_system_databases (o : MapOrder) (cl : Client)
    (cfg : CollectorConfig) (q : Query) :
  q ∈ queried (StorageStatsCollector.Collect o
                 (StorageStatsCollector.NewStorageStatsCollector cl cfg)).1 ->
  q = QListDatabaseNames \/
  exists databases dbName,
    listDatabaseNames cl = Ok databases /\ dbName ∈ databases /\
    queryDb q = Some dbName /\ shouldSkipDatabase dbName = false.
Proof.
  unfold StorageStatsCollector.Collect.
  destruct (negb _); [by intros ?%elem_of_nil|].
  rewrite ask_bind. cbn [fst]. rewrite queried_cons.
  intros [->|Hq]%elem_of_cons; [by left|right].
  change (client (StorageStatsCollector.base
                    (StorageStatsCollector.NewStorageStatsCollector cl cfg))) with cl in Hq.
  destruct (listDatabaseNames cl) as [databases|err]; cbv beta iota zeta in Hq;
    [|by apply elem_of_nil in Hq].
  apply elem_of_queried, in_forM_inv in Hq as (dbName & Hin & Hq).
  exists databases, dbName. split; [done|]. split; [done|].
  apply elem_of_queried in Hq.
  match type of Hq with
  | context [StorageStatsCollector.collectDatabase o ?c [?a; ?b; ?s] dbName] =>
      destruct (StorageStats_collectDatabase_policy o cl cfg a b s dbName) as (_ & _ & Hqs)
  end.
  cbv zeta in Hqs. rewrite Hqs in Hq.
  split; [by eapply storageQueries_db|].
  unfold storageQueries in Hq. rewrite shouldSkipDatabase_inline in Hq.
  destruct (shouldSkipDatabase dbName); [by apply elem_of_nil in Hq | done].
Qed.

Lemma StorageStats_skips_system_databases_witness :
  exists databases dbName,
    listDatabaseNames halfBroken = Ok databases /\ dbName ∈ databases /\
    queryDb (QRunCommand "db2" "dbStats" (VInt 1)) = Some dbName /\
    shouldSkipDatabase dbName = false.
Proof.
  destruct (StorageStats_skips_system_databases source_order halfBroken defaultConfig
              (QRunCommand "db2" "dbStats" (VInt 1))) as [Hq|Hq].
  - vm_compute. do 2 apply list_elem_of_further. apply list_elem_of_here.
  - discriminate Hq.
  - exact Hq.
Defined.

(** ** Queries of the profile collector *)

Section Profile.

Variable NewDateTimeFromTime : Z -> Z.
Variable aggregateProfileMetrics :
  ProfileCollector.ProfileCollector -> list (gmap string value) -> string ->
  gmap string string -> list Metric * Outcome unit.

Let Collect := ProfileCollector.Collect NewDateTimeFromTime aggregateProfileMetrics.

(** The queries of one database: the profiling level, and a [find] only
    when the level was read and is not the [int32] 0. *)
Lemma collectDatabase_find c dbName instance since until db coll gte lt :
  EQuery (QFind db coll gte lt)
    ∈ (ProfileCollector.collectDatabaseProfileMetrics NewDateTimeFromTime
         aggregateProfileMetrics c dbName instance since until).1 ->
  exists profileStatus,
    runCommand (client (ProfileCollector.base c)) dbName "profile" (VInt (-1))
      = Ok profileStatus /\
    profileStatus !! "was" <> Some (VInt32 0).
Proof.
  unfold ProfileCollector.collectDatabaseProfileMetrics.
  rewrite ask_bind. cbn [fst].
  intros [?|Hq]%elem_of_cons; [discriminate|].
  destruct (runCommand _ _ _ _) as [profileStatus|err]; cbv beta iota in Hq.
  - exists profileStatus. split; [done|].
    intros Hwas. unfold index in Hq. rewrite Hwas in Hq. simpl in Hq.
    by apply elem_of_nil in Hq.
  - apply list_elem_of_singleton in Hq. discriminate.
Qed.

Lemma Profile_queries_gen c now q :
  q ∈ queried (Collect c now).1 ->
  q = QListDatabaseNames \/
  exists databases dbName,
    listDatabaseNames (client (ProfileCollector.base c)) = Ok databases /\
    dbName ∈ databases /\ shouldSkipDatabase dbName = false /\
    (q = QRunCommand dbName "profile" (VInt (-1)) \/
     q = QFind dbName "system.profile" (NewDateTimeFromTime (ProfileCollector.lastCheck c))
               (NewDateTimeFromTime now) /\
     exists profileStatus,
       runCommand (client (ProfileCollector.base c)) dbName "profile" (VInt (-1))
         = Ok profileStatus /\
       profileStatus !! "was" <> Some (VInt32 0)).
Proof.
  rewrite elem_of_queried. unfold Collect, ProfileCollector.Collect.
  destruct (negb _); [by intros ?%elem_of_nil|].
  rewrite ask_bind. cbn [fst].
  intros [[= ->]|Hq]%elem_of_cons; [by left|right].
  destruct (listDatabaseNames _) as [databases|err].
  - apply in_bind_inv in Hq as [Hq|(_ & _ & Hq)]; [|by apply elem_of_nil in Hq].
    apply in_forM_inv in Hq as (dbName & Hin & Hq).
    exists databases, dbName. split; [done|]. split; [done|].
    change (ProfileCollector.shouldSkipDatabase c dbName)
      with (shouldSkipDatabase dbName) in Hq.
    destruct (shouldSkipDatabase dbName); [by apply elem_of_nil in Hq|].
    split; [done|].
    pose proof Hq as Hq'.
    apply collectDatabase_queries in Hq as [->| ->]; [by left|right].
    split; [done|]. by eapply collectDatabase_find.
  - apply in_bind_inv in Hq as [Hq|(_ & _ & Hq)]; [|by apply elem_of_nil in Hq].
    apply list_elem_of_singleton in Hq. discriminate.
Qed.

Lemma Profile_watermark_kept_gen c now :
  BaseCollector.isMetricEnabled (ProfileCollector.base c) "profile" = false \/
  is_err (listDatabaseNames (client (ProfileCollector.base c))) = true ->
  (Collect c now).2 = Ret c /\
  forall db coll gte lt, QFind db coll gte lt ∉ queried (Collect c now).1.
Proof.
  unfold Collect, ProfileCollector.Collect.
  intros [-> | Herr]; [split; [done|]; intros ? ? ? ? ?%elem_of_nil; done|].
  destruct (negb _); [split; [done|]; intros ? ? ? ? ?%elem_of_nil; done|].
  rewrite ask_bind.
  destruct (listDatabaseNames _) as [databases|err]; [discriminate|].
  split; [done|]. intros db coll gte lt. cbn.
  rewrite !elem_of_cons, elem_of_nil. intros [?|[]]. discriminate.
Qed.

End Profile.

(** X10. Every query of the profile collector other than the listing of
    the databases is addressed to a listed database that
    [shouldSkipDatabase] does not skip, and is either the reading of the
    profiling level or a [find] on [system.profile] from the watermark to
    the instant of the cycle; and a [find] is issued only after the level
    was read and was not the [int32] 0, so that a database whose profiler
    is off is not read. *)
Theorem Profile_queries
    (NewDateTimeFromTime : Z -> Z)
    (aggregateProfileMetrics :
       ProfileCollector.ProfileCollector -> list (gmap string value) -> string ->
       gmap string string -> list Metric * Outcome unit)
    (c : ProfileCollector.ProfileCollector) (now : Z) (q : Query) :
  q ∈ queried (ProfileCollector.Collect NewDateTimeFromTime aggregateProfileMetrics
                 c now).1 ->
  q = QListDatabaseNames \/
  exists databases dbName,
    listDatabaseNames (client (ProfileCollector.base c)) = Ok databases /\
    dbName ∈ databases /\ shouldSkipDatabase dbName = false /\
    (q = QRunCommand dbName "profile" (VInt (-1)) \/
     q = QFind dbName "system.profile" (NewDateTimeFromTime (ProfileCollector.lastCheck c))
               (NewDateTimeFromTime now) /\
     exists profileStatus,
       runCommand (client (ProfileCollector.base c)) dbName "profile" (VInt (-1))
         = Ok profileStatus /\
       profileStatus !! "was" <> Some (VInt32 0)).
Proof. apply Profile_queries_gen. Qed.

Lemma Profile_queries_witness :
  let aggregate := fun (_ : ProfileCollector.ProfileCollector) (es : list (gmap string value))
                       (_ : string) (_ : gmap string string) =>
                     (@nil Metric, @Ret unit tt) in
  let c := {| ProfileCollector.base := NewBaseCollector (profiling []) defaultConfig;
              ProfileCollector.descriptors := ∅;
              ProfileCollector.lastCheck := 1000000000 |} in
  exists databases dbName,
    listDatabaseNames (profiling []) = Ok databases /\
    dbName ∈ databases /\ shouldSkipDatabase dbName = false /\
    QFind "test" "system.profile" 1000 5000
      = QFind dbName "system.profile" 1000 5000.
Proof.
  intros aggregate c.
  destruct (Profile_queries millis aggregate c 5000000000
              (QFind "test" "system.profile" 1000 5000)) as [Hq|Hq].
  - vm_compute. do 2 apply list_elem_of_further. apply list_elem_of_here.
  - discriminate Hq.
  - destruct Hq as (databases & dbName & Hdbs & Hin & Hskip & [Hq|[Hq _]]);
      [discriminate Hq|].
    exists databases, dbName. split; [exact Hdbs|]. split; [exact Hin|].
    split; [exact Hskip|exact Hq].
Defined.

(** X11. A cycle of the profile collector that is disabled, or that
    cannot list the databases, leaves the collector as it was, the
    watermark included, and issues no [find]: the entries of the window
    that it did not read are left to the next cycle. *)
Theorem Profile_watermark_kept
    (NewDateTimeFromTime : Z -> Z)
    (aggregateProfileMetrics :
       ProfileCollector.ProfileCollector -> list (gmap string value) -> string ->
       gmap string string -> list Metric * Outcome unit)
    (c : ProfileCollector.ProfileCollector) (now : Z) :
  BaseCollector.isMetricEnabled (ProfileCollector.base c) "profile" = false \/
  is_err (listDatabaseNames (client (ProfileCollector.base c))) = true ->
  let out := ProfileCollector.Collect NewDateTimeFromTime aggregateProfileMetrics c now in
  out.2 = Ret c /\
  forall db coll gte lt, QFind db coll gte lt ∉ queried out.1.
Proof. apply Profile_watermark_kept_gen. Qed.

Lemma Profile_watermark_kept_witness :
  let aggregate := fun (_ : ProfileCollector.ProfileCollector) (es : list (gmap string value))
                       (_ : string) (_ : gmap string string) =>
                     (@nil Metric, @Ret unit tt) in
  let c := {| ProfileCollector.base := NewBaseCollector unreachable defaultConfig;
              ProfileCollector.descriptors := ∅;
              ProfileCollector.lastCheck := 1000000000 |} in
  (ProfileCollector.Collect millis aggregate c 5000000000).2 = Ret c.
Proof.
  intros aggregate c.
  apply (Profile_watermark_kept millis aggregate c 5000000000).
  right. reflexivity.
Defined.


(** ** The fan-out of any registry *)

(** X12. Whatever collectors are registered, and however many,
    [MultiCollector.Collect] can run to its end, and however its
    goroutines interleave it returns without panicking; the channel holds
    the samples of all collectors, none lost and none twice, those of each
    collector in the order it sent them; there is one fault for each
    collector that panicked, and none when none did. *)
Theorem fanout_conservation (o : MapOrder) (mc : MultiCollector) :
  (exists out, MultiCollector.Collect o mc out) /\
  (forall out, MultiCollector.Collect o mc out ->
     returned out = Ret tt /\
     channel out ≡ₚ flat_map (fun c => sent (Collect c o).1) (collectors mc) /\
     (forall i c, collectors mc !! i = Some c ->
        sent (Collect c o).1 `sublist_of` channel out) /\
     faults out ≡ₚ flat_map (fun c => faultOf c (Collect c o).2) (collectors mc) /\
     ((forall c, c ∈ collectors mc -> (Collect c o).2 = Ret tt) -> faults out = [])).
Proof.
  split.
  - destruct (fanout_completes (MultiCollector.spawn o mc)) as (st & Hrun & Hall).
    eexists. by econstructor.
  - intros out Hout.
    destruct (MultiCollector_Collect_out o mc out Hout) as (Hret & Hch & Herr & Hord).
    split; [done|]. split; [done|]. split; [done|]. split; [done|].
    intros Hok. apply Permutation_nil_r. rewrite Herr. clear -Hok.
    induction (collectors mc) as [|c cs IH]; [done|].
    simpl. rewrite (Hok c) by left. simpl. apply IH.
    intros c' Hc'. apply Hok. by right.
Qed.

(** ** Reading a profile entry: the collection *)

Lemma get_app_r p s j : String.get (String.length p + j) (p +:+ s) = String.get j s.
Proof. induction p as [|a p IH]; simpl; [done|exact IH]. Qed.

Lemma substring_app_r p s k n :
  String.substring (String.length p + k) n (p +:+ s) = String.substring k n s.
Proof. induction p as [|a p IH]; simpl; [done|exact IH]. Qed.

Lemma substring_all s : String.substring 0 (String.length s) s = s.
Proof. induction s as [|a s IH]; simpl; [done|by rewrite IH]. Qed.

Lemma string_length_app p s :
  String.length (p +:+ s) = String.length p + String.length s.
Proof. induction p as [|a p IH]; simpl; [done|by rewrite IH]. Qed.

Lemma dotFree_get s j : dotFree s = true -> String.get j s <> Some "."%char.
Proof.
  revert j. induction s as [|a s IH]; intros j; simpl; [done|].
  intros [Ha Hs]%andb_true_iff. destruct j as [|j]; [|by apply IH].
  intros [= ->]. done.
Qed.

Lemma extractCollection_loop_dotFree ns n :
  dotFree ns = true -> ProfileCollector.extractCollection_loop ns n = ns.
Proof.
  intros Hns. induction n as [|i IH]; simpl; [done|].
  rewrite bool_decide_eq_false_2 by (by apply dotFree_get). exact IH.
Qed.

Lemma extractCollection_loop_last db coll j :
  dotFree coll = true -> j <= String.length coll ->
  ProfileCollector.extractCollection_loop (db +:+ String "." coll)
    (String.length db + S j) = coll.
Proof.
  intros Hcoll. induction j as [|j IH]; intros Hj.
  - rewrite Nat.add_1_r. simpl.
    pose proof (get_app_r db (String "." coll) 0) as Hg.
    rewrite Nat.add_0_r in Hg. rewrite Hg.
    simpl.
    rewrite string_length_app. simpl String.length.
    replace (String.length db + S (String.length coll) - S (String.length db))
      with (String.length coll) by lia.
    replace (S (String.length db)) with (String.length db + 1) by lia.
    rewrite substring_app_r. simpl. apply substring_all.
  - replace (String.length db + S (S j)) with (S (String.length db + S j)) by lia.
    simpl. rewrite get_app_r. simpl.
    rewrite bool_decide_eq_false_2 by (by apply dotFree_get).
    apply IH. lia.
Qed.

(** X13. [extractCollection] yields what follows the last dot of the
    namespace: of "db.coll" the collection when its name has no dot, but
    of "db.system.profile" only "profile"; a namespace without a dot
    comes out whole; and an entry without a string namespace gives
    "unknown". *)
Theorem extractCollection_last_dot (c : ProfileCollector.ProfileCollector)
    (entry : gmap string value) :
  (forall db coll,
     entry !! "ns" = Some (VString (db +:+ "." +:+ coll)) -> dotFree coll = true ->
     ProfileCollector.extractCollection c entry = coll) /\
  (forall ns,
     entry !! "ns" = Some (VString ns) -> dotFree ns = true ->
     ProfileCollector.extractCollection c entry = ns) /\
  (as_string (index entry "ns") = None ->
   ProfileCollector.extractCollection c entry = "unknown").
Proof.
  unfold ProfileCollector.extractCollection, index. split; [|split].
  - intros db coll -> Hcoll. simpl.
    rewrite string_length_app. simpl String.length.
    by apply (extractCollection_loop_last db coll (String.length coll)).
  - intros ns -> Hns. simpl. by apply extractCollection_loop_dotFree.
  - by intros ->.
Qed.

(** ** Reading a profile entry: the operation type *)

Lemma clause_iff k : clause k <-> k = "filter" \/ k = "sort" \/ k = "projection".
Proof. unfold clause. rewrite !elem_of_cons, elem_of_nil. tauto. Qed.

Lemma extractOperationType_loop_spec keys :
  (ProfileCollector.extractOperationType_loop keys = "unknown" /\ Forall clause keys) \/
  (ProfileCollector.extractOperationType_loop keys ∈ keys /\
   ~ clause (ProfileCollector.extractOperationType_loop keys)).
Proof.
  induction keys as [|k keys IH]; simpl; [left; by split|].
  assert (Hskip : clause k ->
    (ProfileCollector.extractOperationType_loop keys = "unknown" /\
     Forall clause (k :: keys)) \/
    (ProfileCollector.extractOperationType_loop keys ∈ k :: keys /\
     ~ clause (ProfileCollector.extractOperationType_loop keys))).
  { intros Hk. destruct IH as [[Hr Hall]|[Hr Hne]].
    - left. split; [exact Hr|by constructor].
    - right. split; [by right|exact Hne]. }
  destruct (String.eqb_spec k "filter") as [->|H1]; simpl;
    [apply Hskip, clause_iff; auto|].
  destruct (String.eqb_spec k "sort") as [->|H2]; simpl;
    [apply Hskip, clause_iff; auto|].
  destruct (String.eqb_spec k "projection") as [->|H3]; simpl;
    [apply Hskip, clause_iff; auto|].
  right. split; [by left|]. rewrite clause_iff. tauto.
Qed.

(** X14. For a profile entry without a string [op], the operation type
    is a key of its [command] document that is none of filter, sort and
    projection, and "unknown" only when there is no such key; which key
    it is depends on the order in which the map is visited: any of them is
    the answer under the order that visits it first. *)
Theorem extractOperationType_depends_on_order (c : ProfileCollector.ProfileCollector)
    (entry command : gmap string value) :
  as_string (index entry "op") = None ->
  entry !! "command" = Some (VM command) ->
  (forall o,
     let r := ProfileCollector.extractOperationType o c entry in
     (r = "unknown" /\ forall k, is_Some (command !! k) -> clause k) \/
     (is_Some (command !! r) /\ ~ clause r)) /\
  (forall k,
     is_Some (command !! k) -> ~ clause k ->
     ProfileCollector.extractOperationType (preferring k) c entry = k).
Proof.
  intros Hop Hcmd. unfold ProfileCollector.extractOperationType.
  rewrite Hop.
  replace (index entry "command") with (VM command) by (unfold index; by rewrite Hcmd).
  cbn [as_M].
  split.
  - intros o. cbv zeta.
    destruct (extractOperationType_loop_spec (range o command).*1) as [[Hr Hall]|[Hr Hne]].
    + left. split; [exact Hr|]. intros k [v Hk].
      rewrite Forall_forall in Hall. apply Hall.
      apply list_elem_of_fmap. exists (k, v). split; [done|]. by apply elem_of_range.
    + right. split; [|exact Hne].
      apply list_elem_of_fmap in Hr as ([k v] & Hk & Hin). simpl in Hk.
      rewrite Hk. apply elem_of_range in Hin. by exists v.
  - intros k [v Hk] Hne. unfold range. cbn [order preferring].
    assert ((k, v) ∈ filter (fun kv : string * value => kv.1 = k) (map_to_list command))
      as Hin by (apply list_elem_of_filter; split; [done|by apply elem_of_map_to_list]).
    destruct (filter (fun kv : string * value => kv.1 = k) (map_to_list command))
      as [|[k' v'] rest] eqn:Hf; [by apply elem_of_nil in Hin|].
    assert ((k', v') ∈ filter (fun kv : string * value => kv.1 = k) (map_to_list command))
      as Hhead by (rewrite Hf; left).
    apply list_elem_of_filter in Hhead as [Hk' _]. simpl in Hk'. subst k'.
    simpl.
    destruct (String.eqb_spec k "filter") as [->|H1]; [exfalso; apply Hne, clause_iff; auto|].
    destruct (String.eqb_spec k "sort") as [->|H2]; [exfalso; apply Hne, clause_iff; auto|].
    destruct (String.eqb_spec k "projection") as [->|H3]; [exfalso; apply Hne, clause_iff; auto|].
    reflexivity.
Qed.

Lemma extractOperationType_depends_on_order_witness :
  let c := {| ProfileCollector.base := NewBaseCollector unreachable defaultConfig;
              ProfileCollector.descriptors := ∅;
              ProfileCollector.lastCheck := 0 |} in
  let command : gmap string value :=
    {[ "find" := VString "users"; "limit" := VInt32 1 ]} in
  let entry : gmap string value := {[ "command" := VM command ]} in
  ProfileCollector.extractOperationType (preferring "find") c entry = "find" /\
  ProfileCollector.extractOperationType (preferring "limit") c entry = "limit".
Proof.
  intros c command entry.
  pose proof (extractOperationType_depends_on_order c entry command eq_refl eq_refl)
    as [_ Hany].
  split; apply Hany; try (by eexists); rewrite clause_iff;
    intros [?|[?|?]]; discriminate.
Defined.

(** ** Reading a profile entry: the locks *)

Lemma wrap64_int64 z : int64 (ProfileCollector.wrap64 z).
Proof.
  unfold int64, ProfileCollector.wrap64.
  pose proof (Z.mod_pos_bound (z + 2 ^ 63) (2 ^ 64) ltac:(lia)). lia.
Qed.

Lemma wrap64_id z : int64 z -> ProfileCollector.wrap64 z = z.
Proof.
  unfold int64, ProfileCollector.wrap64. intros Hz.
  rewrite Z.mod_small by lia. lia.
Qed.

Lemma wrap64_add_l a b :
  ProfileCollector.wrap64 (ProfileCollector.wrap64 a + b) = ProfileCollector.wrap64 (a + b).
Proof.
  unfold ProfileCollector.wrap64. f_equal.
  replace ((a + 2 ^ 63) mod 2 ^ 64 - 2 ^ 63 + b + 2 ^ 63)%Z
    with ((a + 2 ^ 63) mod 2 ^ 64 + b)%Z by lia.
  rewrite Zplus_mod_idemp_l. f_equal. lia.
Qed.

Lemma addModes_step total mode count :
  int64 total ->
  (if bool_decide (is_Some (as_int64 count)) && String.eqb mode "r" || String.eqb mode "w"
   then ProfileCollector.wrap64 (total + default 0%Z (as_int64 count)) else total)
  = ProfileCollector.wrap64 (total + addend (mode, count)).
Proof.
  intros Ht. unfold addend. cbn [fst snd].
  destruct (String.eqb_spec mode "w") as [->|Hw].
  - rewrite orb_true_r. rewrite bool_decide_eq_true_2 by (by right). reflexivity.
  - rewrite orb_false_r.
    destruct (String.eqb_spec mode "r") as [->|Hr].
    + rewrite andb_true_r.
      rewrite (bool_decide_eq_true_2 ("r" = "r" \/ "r" = "w")) by (by left).
      destruct (as_int64 count) as [z|]; simpl; [done|].
      by rewrite Z.add_0_r, wrap64_id.
    + rewrite andb_false_r.
      rewrite (bool_decide_eq_false_2 (mode = "r" \/ mode = "w")) by tauto.
      by rewrite Z.add_0_r, wrap64_id.
Qed.

Lemma sumZ_Permutation l1 l2 : l1 ≡ₚ l2 -> sumZ l1 = sumZ l2.
Proof. induction 1; simpl; lia. Qed.

Lemma addModes_sum o counts total :
  int64 total ->
  ProfileCollector.addModes o counts total
    = ProfileCollector.wrap64 (total + sumZ (addend <$> map_to_list counts)).
Proof.
  intros Ht. unfold ProfileCollector.addModes, range.
  rewrite <- (sumZ_Permutation _ _ (fmap_Permutation addend _ _ (order_perm o _ (map_to_list counts)))).
  revert total Ht.
  induction (order o (map_to_list counts)) as [|[mode count] l IH]; intros total Ht.
  - simpl. by rewrite Z.add_0_r, wrap64_id.
  - cbn [foldl]. cbv beta iota zeta. rewrite (addModes_step total mode count Ht).
    rewrite IH by apply wrap64_int64.
    rewrite wrap64_add_l. f_equal. rewrite fmap_cons. unfold sumZ. cbn [foldr]. lia.
Qed.

Lemma sum_addend (counts : gmap string value) :
  sumZ (addend <$> map_to_list counts) = (modeCount counts "r" + modeCount counts "w")%Z.
Proof.
  induction counts as [|k v m Hk IH] using map_ind.
  - by rewrite map_to_list_empty.
  - rewrite (sumZ_Permutation _ _ (fmap_Permutation addend _ _ (map_to_list_insert m k v Hk))).
    rewrite fmap_cons. cbn [sumZ foldr]. fold (sumZ (addend <$> map_to_list m)).
    rewrite IH. unfold modeCount, index, addend. cbn [fst snd].
    destruct (decide (k = "r")) as [->|Hr].
    + rewrite lookup_insert_eq, Hk, lookup_insert_ne by done.
      rewrite bool_decide_eq_true_2 by (by left). simpl. lia.
    + destruct (decide (k = "w")) as [->|Hw].
      * rewrite lookup_insert_eq, Hk, lookup_insert_ne by done.
        rewrite bool_decide_eq_true_2 by (by right). simpl. lia.
      * rewrite !lookup_insert_ne by done.
        rewrite bool_decide_eq_false_2 by tauto. lia.
Qed.

Lemma addModes_closed o counts total :
  int64 total ->
  ProfileCollector.addModes o counts total
    = ProfileCollector.wrap64 (total + (modeCount counts "r" + modeCount counts "w")).
Proof. intros Ht. by rewrite addModes_sum, sum_addend. Qed.

(** A loop that writes each key of its list once writes, under a key of
    the list, what its body makes of the entry found there before. *)
Lemma foldl_keyed {V A} (F : gmap string A -> string * V -> gmap string A)
    (upd : option A -> V -> option A) (l : list (string * V)) (acc : gmap string A) k v :
  (forall acc k' v' i, i <> k' -> F acc (k', v') !! i = acc !! i) ->
  (forall acc k' v', F acc (k', v') !! k' = upd (acc !! k') v') ->
  NoDup l.*1 -> (k, v) ∈ l ->
  foldl F acc l !! k = upd (acc !! k) v.
Proof.
  intros Hother Hself. revert acc.
  induction l as [|[k' v'] l IH]; intros acc Hnd Hin; [by apply elem_of_nil in Hin|].
  apply NoDup_cons in Hnd as [Hk' Hnd]. cbn [foldl].
  apply elem_of_cons in Hin as [[= <- <-]|Hin].
  - assert (Hrest : forall acc', foldl F acc' l !! k = acc' !! k).
    { clear -Hother Hk'. induction l as [|[k2 v2] l IH]; intros acc'; [done|].
      cbn [foldl]. rewrite IH.
      + apply Hother. intros ->. apply Hk'. simpl. left.
      + intros Hin. apply Hk'. simpl. by right. }
    rewrite Hrest. apply Hself.
  - rewrite IH by done. f_equal. apply Hother.
    intros ->. apply Hk'. apply list_elem_of_fmap. by exists (k', v).
Qed.

(** X15. For a lock of an entry whose data is a document,
    [collectLockStats] adds to each of the three counters of the lock the
    [int64] counts recorded under the modes "r" and "w", and nothing else,
    with the wrap-around of [int64]: the order in which the modes are
    visited plays no part, the modes "R" and "W" are not counted, and a
    count under "w" that is no [int64] adds 0, so that the missing
    parentheses of the condition do no harm. *)
Theorem collectLockStats_modes (o : MapOrder) (c : ProfileCollector.ProfileCollector)
    (entry locks lockInfo : gmap string value) (stats : ProfileCollector.OperationStats)
    (lockType : string) :
  entry !! "locks" = Some (VM locks) ->
  locks !! lockType = Some (VM lockInfo) ->
  let old :=
    default {| ProfileCollector.AcquireCount := 0; ProfileCollector.AcquireWaitCount := 0;
               ProfileCollector.TimeAcquiringMicros := 0 |}
            (ProfileCollector.LockStats stats !! lockType) in
  int64 (ProfileCollector.AcquireCount old) ->
  int64 (ProfileCollector.AcquireWaitCount old) ->
  int64 (ProfileCollector.TimeAcquiringMicros old) ->
  ProfileCollector.LockStats (ProfileCollector.collectLockStats o c entry stats) !! lockType =
    Some {| ProfileCollector.AcquireCount :=
              ProfileCollector.wrap64
                (ProfileCollector.AcquireCount old + modeTotal lockInfo "acquireCount");
            ProfileCollector.AcquireWaitCount :=
              ProfileCollector.wrap64
                (ProfileCollector.AcquireWaitCount old
                 + modeTotal lockInfo "acquireWaitCount");
            ProfileCollector.TimeAcquiringMicros :=
              ProfileCollector.wrap64
                (ProfileCollector.TimeAcquiringMicros old
                 + modeTotal lockInfo "timeAcquiringMicros") |}.
Proof.
  intros Hlocks Hlock old Ha Hw Ht.
  unfold ProfileCollector.collectLockStats.
  replace (index entry "locks") with (VM locks) by (unfold index; by rewrite Hlocks).
  cbn [as_M ProfileCollector.LockStats].
  match goal with
  | |- foldl ?F _ _ !! _ = _ =>
      rewrite (foldl_keyed F
        (fun prev lockData =>
           match as_M lockData with
           | Some lockInfo =>
               let lockStat :=
                 default {| ProfileCollector.AcquireCount := 0;
                            ProfileCollector.AcquireWaitCount := 0;
                            ProfileCollector.TimeAcquiringMicros := 0 |} prev in
               Some {| ProfileCollector.AcquireCount :=
                         match as_M (index lockInfo "acquireCount") with
                         | Some acquireCount =>
                             ProfileCollector.addModes o acquireCount
                               (ProfileCollector.AcquireCount lockStat)
                         | None => ProfileCollector.AcquireCount lockStat
                         end;
                       ProfileCollector.AcquireWaitCount :=
                         match as_M (index lockInfo "acquireWaitCount") with
                         | Some acquireWaitCount =>
                             ProfileCollector.addModes o acquireWaitCount
                               (ProfileCollector.AcquireWaitCount lockStat)
                         | None => ProfileCollector.AcquireWaitCount lockStat
                         end;
                       ProfileCollector.TimeAcquiringMicros :=
                         match as_M (index lockInfo "timeAcquiringMicros") with
                         | Some timeAcquiring =>
                             ProfileCollector.addModes o timeAcquiring
                               (ProfileCollector.TimeAcquiringMicros lockStat)
                         | None => ProfileCollector.TimeAcquiringMicros lockStat
                         end |}
           | None => prev
           end) _ _ lockType (VM lockInfo))
  end.
  - cbn [as_M]. cbv zeta. fold old. unfold modeTotal.
    f_equal. f_equal.
    + destruct (as_M (index lockInfo "acquireCount")) as [counts|].
      * by apply addModes_closed.
      * by rewrite Z.add_0_r, wrap64_id.
    + destruct (as_M (index lockInfo "acquireWaitCount")) as [counts|].
      * by apply addModes_closed.
      * by rewrite Z.add_0_r, wrap64_id.
    + destruct (as_M (index lockInfo "timeAcquiringMicros")) as [counts|].
      * by apply addModes_closed.
      * by rewrite Z.add_0_r, wrap64_id.
  - intros acc k' v' i Hne. destruct (as_M v'); [|done].
    by rewrite lookup_insert_ne.
  - intros acc k' v'. destruct (as_M v'); [|done].
    by rewrite lookup_insert_eq.
  - unfold range. rewrite (order_perm o _ (map_to_list locks)).
    apply NoDup_fst_map_to_list.
  - by apply elem_of_range.
Qed.

Lemma collectLockStats_modes_witness :
  let c := {| ProfileCollector.base := NewBaseCollector unreachable defaultConfig;
              ProfileCollector.descriptors := ∅;
              ProfileCollector.lastCheck := 0 |} in
  let lockInfo : gmap string value :=
    {[ "acquireCount" :=
         VM {[ "r" := VInt64 2; "w" := VInt64 3; "W" := VInt64 10;
               "R" := VInt32 7 ]} ]} in
  let entry : gmap string value :=
    {[ "locks" := VM {[ "Global" := VM lockInfo ]} ]} in
  let stats :=
    {| ProfileCollector.Operation := "query"; ProfileCollector.Collection := "users";
       ProfileCollector.Count := 1; ProfileCollector.TotalDurationMs := 0;
       ProfileCollector.MaxDurationMs := 0; ProfileCollector.TotalDocsExamined := 0;
       ProfileCollector.TotalDocsReturned := 0; ProfileCollector.TotalKeysExamined := 0;
       ProfileCollector.TotalResponseLength := 0; ProfileCollector.WriteConflicts := 0;
       ProfileCollector.CpuTimeMicros := 0; ProfileCollector.LockStats := ∅;
       ProfileCollector.StorageStats := ∅ |} in
  ProfileCollector.LockStats
    (ProfileCollector.collectLockStats reverse_order c entry stats) !! "Global" =
    Some {| ProfileCollector.AcquireCount := 5; ProfileCollector.AcquireWaitCount := 0;
            ProfileCollector.TimeAcquiringMicros := 0 |}.
Proof.
  intros c lockInfo entry stats.
  apply (collectLockStats_modes reverse_order c entry {[ "Global" := VM lockInfo ]}
           lockInfo stats "Global" eq_refl eq_refl);
    vm_compute; (split; [discriminate | reflexivity]).
Defined.

(** ** Reading a profile entry: the storage counters *)

Lemma foldl_unkeyed {V A} (F : gmap string A -> string * V -> gmap string A)
    (l : list (string * V)) (acc : gmap string A) k :
  (forall acc k' v' i, i <> k' -> F acc (k', v') !! i = acc !! i) ->
  k ∉ l.*1 -> foldl F acc l !! k = acc !! k.
Proof.
  intros Hother. revert acc. induction l as [|[k' v'] l IH]; intros acc Hk; [done|].
  cbn [foldl]. rewrite IH.
  - apply Hother. intros ->. apply Hk. simpl. left.
  - intros Hin. apply Hk. simpl. by right.
Qed.

(** X16. [collectStorageStats] reads eight counters of the [storage]
    document of an entry and no other: each of the eight that is an
    [int64] is added to the counter of that name, with the wrap-around of
    [int64], starting from 0 when there is none; every other counter of
    the statistics, and every other key of the document, is left alone. *)
Theorem collectStorageStats_counters (c : ProfileCollector.ProfileCollector)
    (entry storage : gmap string value) (stats : ProfileCollector.OperationStats)
    (metric : string) :
  entry !! "storage" = Some (VM storage) ->
  ProfileCollector.StorageStats (ProfileCollector.collectStorageStats c entry stats)
    !! metric =
    if bool_decide (metric ∈ ["data_read"; "data_written"; "index_read"; "index_written";
                              "cache_hits"; "cache_misses"; "pages_read"; "pages_written"])
    then
      match as_int64 (index storage metric) with
      | Some value =>
          Some (ProfileCollector.wrap64
                  (default 0%Z (ProfileCollector.StorageStats stats !! metric) + value))
      | None => ProfileCollector.StorageStats stats !! metric
      end
    else ProfileCollector.StorageStats stats !! metric.
Proof.
  intros Hstorage. unfold ProfileCollector.collectStorageStats.
  replace (index entry "storage") with (VM storage) by (unfold index; by rewrite Hstorage).
  cbn [as_M ProfileCollector.StorageStats]. cbv zeta.
  set (names := ["data_read"; "data_written"; "index_read"; "index_written";
                 "cache_hits"; "cache_misses"; "pages_read"; "pages_written"]).
  set (F := fun (storageStats : gmap string Z) (kv : string * value) =>
              match as_int64 kv.2 with
              | Some value =>
                  <[kv.1 := ProfileCollector.wrap64
                              (default 0%Z (storageStats !! kv.1) + value)]> storageStats
              | None => storageStats
              end).
  match goal with
  | |- foldl ?G ?init names !! _ = _ =>
      change (foldl G init names)
        with (foldl (fun acc m => F acc (m, index storage m)) init names)
  end.
  rewrite <- (foldl_fmap F _ names (fun m => (m, index storage m))).
  assert (Hother : forall acc k' v' i, i <> k' -> F acc (k', v') !! i = acc !! i).
  { intros acc k' v' i Hne. unfold F. cbn [fst snd].
    destruct (as_int64 v'); [|done]. by rewrite lookup_insert_ne. }
  assert (Hkeys : ((fun m => (m, index storage m)) <$> names).*1 = names) by reflexivity.
  case_bool_decide as Hin.
  - rewrite (foldl_keyed F
               (fun prev v =>
                  match as_int64 v with
                  | Some value => Some (ProfileCollector.wrap64 (default 0%Z prev + value))
                  | None => prev
                  end) _ _ metric (index storage metric)).
    + by destruct (as_int64 (index storage metric)).
    + exact Hother.
    + intros acc k' v'. unfold F. cbn [fst snd].
      destruct (as_int64 v'); [|done]. by rewrite lookup_insert_eq.
    + rewrite Hkeys. apply (bool_decide_unpack _). vm_compute. reflexivity.
    + apply list_elem_of_fmap. by exists metric.
  - apply foldl_unkeyed; [exact Hother|]. by rewrite Hkeys.
Qed.

Lemma collectStorageStats_counters_witness :
  let c := {| ProfileCollector.base := NewBaseCollector unreachable defaultConfig;
              ProfileCollector.descriptors := ∅;
              ProfileCollector.lastCheck := 0 |} in
  let entry : gmap string value :=
    {[ "storage" := VM {[ "data_read" := VInt64 4096; "bytes_read" := VInt64 7 ]} ]} in
  let stats :=
    {| ProfileCollector.Operation := "query"; ProfileCollector.Collection := "users";
       ProfileCollector.Count := 1; ProfileCollector.TotalDurationMs := 0;
       ProfileCollector.MaxDurationMs := 0; ProfileCollector.TotalDocsExamined := 0;
       ProfileCollector.TotalDocsReturned := 0; ProfileCollector.TotalKeysExamined := 0;
       ProfileCollector.TotalResponseLength := 0; ProfileCollector.WriteConflicts := 0;
       ProfileCollector.CpuTimeMicros := 0; ProfileCollector.LockStats := ∅;
       ProfileCollector.StorageStats := {[ "data_read" := 4%Z ]} |} in
  ProfileCollector.StorageStats (ProfileCollector.collectStorageStats c entry stats)
    !! "data_read" = Some 4100%Z /\
  ProfileCollector.StorageStats (ProfileCollector.collectStorageStats c entry stats)
    !! "bytes_read" = None.
Proof.
  intros c entry stats. split.
  - apply (collectStorageStats_counters c entry
             {[ "data_read" := VInt64 4096; "bytes_read" := VInt64 7 ]} stats
             "data_read" eq_refl).
  - apply (collectStorageStats_counters c entry
             {[ "data_read" := VInt64 4096; "bytes_read" := VInt64 7 ]} stats
             "bytes_read" eq_refl).
Defined.

(** ** The WiredTiger collector *)

Lemma as_int64_index (m : gmap string value) k z :
  as_int64 (index m k) = Some z -> m !! k = Some (VInt64 z).
Proof.
  unfold index. destruct (m !! k) as [[]|]; simpl; try discriminate.
  by intros [= ->].
Qed.

Lemma index_lookup (m : gmap string value) k v : m !! k = Some v -> index m k = v.
Proof. unfold index. by intros ->. Qed.

(** The descriptors of the WiredTiger collector, looked up by their
    literal keys. *)
Ltac wiredtiger_descriptors :=
  repeat match goal with
  | |- context [WiredTigerCollector.descriptors ?c !! ?k] =>
      let v := eval vm_compute in (WiredTigerCollector.descriptors c !! k) in
      change (WiredTigerCollector.descriptors c !! k) with v
  end.

Lemma WiredTiger_Collect_returns o cl cfg :
  returns (WiredTigerCollector.Collect o (WiredTigerCollector.NewWiredTigerCollector cl cfg)).
Proof.
  unfold WiredTigerCollector.Collect.
  destruct (negb _); [done|].
  unfold returns. rewrite ask_bind. cbn [snd].
  destruct (runCommand _ _ _ _) as [result|err]; [|done].
  cbv zeta. destruct (as_M (index result "wiredTiger")) as [wt|]; [|done].
  unfold WiredTigerCollector.collectCacheMetrics,
    WiredTigerCollector.collectBlockManagerMetrics,
    WiredTigerCollector.collectConcurrentTransactionsMetrics.
  wiredtiger_descriptors. cbv iota.
  exec_returns.
Qed.

(** X17. The WiredTiger collector never panics, whatever the server
    answers.  And its readings are not validated: when the snapshot has a
    cache section, the used-bytes gauge is sent exactly when the reading
    is an [int64], with the conversion of that integer as its value, be it
    negative; a reading of any other type, [int32] included, yields no
    sample. *)
Theorem WiredTiger_readings_unvalidated (o : MapOrder) (cl : Client) (cfg : CollectorConfig) :
  let out := WiredTigerCollector.Collect o
               (WiredTigerCollector.NewWiredTigerCollector cl cfg) in
  let usedDesc :=
    NewDesc "mongodb_wiredtiger_cache_used_bytes" "Bytes currently in cache"
            ["instance"; "replica_set"; "shard"] in
  out.2 = Ret tt /\
  (forall result wt cache : gmap string value,
     BaseCollector.isMetricEnabled (NewBaseCollector cl cfg) "wiredtiger" = true ->
     runCommand cl "admin" "serverStatus" (VInt 1) = Ok result ->
     result !! "wiredTiger" = Some (VM wt) ->
     wt !! "cache" = Some (VM cache) ->
     forall x,
       ESend x ∈ out.1 /\ desc x = usedDesc <->
       exists z,
         cache !! "bytes currently in the cache" = Some (VInt64 z) /\
         x = {| desc := usedDesc; valueType := GaugeValue; metricValue := of_Z z;
                labelValues := identityOf (NewBaseCollector cl cfg) result |}).
Proof.
  intros out usedDesc. split; [apply WiredTiger_Collect_returns|].
  intros result wt cache Hen Hok Hwt Hcache x. subst out.
  set (c := WiredTigerCollector.NewWiredTigerCollector cl cfg).
  unfold WiredTigerCollector.Collect.
  change (WiredTigerCollector.base c) with (NewBaseCollector cl cfg).
  rewrite Hen. cbn [negb]. cbv iota.
  rewrite ask_bind. change (client (NewBaseCollector cl cfg)) with cl.
  rewrite Hok. cbv beta iota zeta.
  rewrite (index_lookup _ _ _ Hwt). cbn [as_M fst].
  set (instance := BaseCollector.getInstanceInfo (NewBaseCollector cl cfg) result).
  split.
  - intros [Hx Hdesc].
    apply elem_of_cons in Hx as [?|Hx]; [discriminate|].
    revert x Hx Hdesc.
    change (everySample
      (fun x => desc x = usedDesc ->
         exists z,
           cache !! "bytes currently in the cache" = Some (VInt64 z) /\
           x = {| desc := usedDesc; valueType := GaugeValue; metricValue := of_Z z;
                  labelValues := identityOf (NewBaseCollector cl cfg) result |})
      (WiredTigerCollector.collectCacheMetrics o c wt instance;;
       WiredTigerCollector.collectBlockManagerMetrics o c wt instance;;
       WiredTigerCollector.collectConcurrentTransactionsMetrics o c wt instance)).
    unfold WiredTigerCollector.collectCacheMetrics,
      WiredTigerCollector.collectBlockManagerMetrics,
      WiredTigerCollector.collectConcurrentTransactionsMetrics.
    rewrite (index_lookup _ _ _ Hcache). cbn [as_M].
    subst c. wiredtiger_descriptors. cbv iota.
    exec_samples ltac:(
      match goal with H : Some _ = Some _ |- _ => injection H as <- end;
      intros Hdesc;
      first [ discriminate Hdesc
            | eexists; split; [apply as_int64_index; eassumption | reflexivity] ]).
  - intros (z & Hz & ->). split; [|reflexivity].
    apply list_elem_of_further, in_seq_l.
    unfold WiredTigerCollector.collectCacheMetrics.
    rewrite (index_lookup _ _ _ Hcache). cbn [as_M].
    subst c. wiredtiger_descriptors. cbv iota.
    apply in_seq_r; [exec_returns|]. apply in_seq_l.
    rewrite (index_lookup _ _ _ Hz). cbn [as_int64].
    rewrite emit_sends by reflexivity. by left.
Qed.

(** ** The query-executor collector *)

(** X18. What an enabled query-executor collector sends on a snapshot
    with a [metrics.queryExecutor] document: when [scanned] is an [int64],
    the total counter and the scanned counter, both with that value (the
    total is read from [scanned] too); when [scannedObjects] is an
    [int64], the scanned-objects counter.  The identity labels are those of
    the snapshot overridden by the static labels of the configuration, and
    the call returns. *)
Theorem QueryExecutor_samples (o : MapOrder) (cl : Client) (cfg : CollectorConfig)
    (result metrics queryExecutor : gmap string value) :
  BaseCollector.isMetricEnabled (NewBaseCollector cl cfg) "query_executor" = true ->
  runCommand cl "admin" "serverStatus" (VInt 1) = Ok result ->
  result !! "metrics" = Some (VM metrics) ->
  metrics !! "queryExecutor" = Some (VM queryExecutor) ->
  let labels :=
    CustomLabels cfg ∪ BaseCollector.getInstanceInfo (NewBaseCollector cl cfg) result in
  let counter name help z :=
    ESend {| desc := NewDesc name help ["instance"; "replica_set"; "shard"];
             valueType := CounterValue; metricValue := of_Z z;
             labelValues := [label labels "instance"; label labels "replica_set";
                             label labels "shard"] |} in
  QueryExecutorCollector.Collect o
    (QueryExecutorCollector.NewQueryExecutorCollector cl cfg) =
    (EQuery (QRunCommand "admin" "serverStatus" (VInt 1)) ::
     match as_int64 (index queryExecutor "scanned") with
     | Some scanned =>
         [counter "mongodb_metrics_query_executor_total"
                  "Total number of query executor operations" scanned;
          counter "mongodb_metrics_query_executor_scanned_total"
                  "Total number of documents scanned by query executor" scanned]
     | None => []
     end ++
     match as_int64 (index queryExecutor "scannedObjects") with
     | Some scannedObjects =>
         [counter "mongodb_metrics_query_executor_scanned_objects_total"
                  "Total number of objects scanned by query executor" scannedObjects]
     | None => []
     end,
     Ret tt).
Proof.
  intros Hen Hok Hmetrics Hqe labels counter.
  set (c := QueryExecutorCollector.NewQueryExecutorCollector cl cfg).
  unfold QueryExecutorCollector.Collect.
  change (QueryExecutorCollector.base c) with (NewBaseCollector cl cfg).
  rewrite Hen. cbn [negb]. cbv iota.
  rewrite ask_bind. change (client (NewBaseCollector cl cfg)) with cl.
  rewrite Hok. cbv beta iota zeta.
  rewrite (index_lookup _ _ _ Hmetrics). cbn [as_M].
  rewrite (index_lookup _ _ _ Hqe). cbn [as_M].
  change (QueryExecutorCollector.getInstanceInfo o c result)
    with (BaseCollector.addCustomLabels o (NewBaseCollector cl cfg)
            (BaseCollector.getInstanceInfo (NewBaseCollector cl cfg) result)).
  rewrite addCustomLabels_union. change (config (NewBaseCollector cl cfg)) with cfg.
  fold labels.
  destruct (as_int64 (index queryExecutor "scanned")) as [scanned|];
    destruct (as_int64 (index queryExecutor "scannedObjects")) as [scannedObjects|];
    repeat (erewrite emit_lookup_sends; [|reflexivity|reflexivity]);
    reflexivity.
Qed.

Lemma QueryExecutor_samples_witness :
  sent (QueryExecutorCollector.Collect source_order
          (QueryExecutorCollector.NewQueryExecutorCollector
             (serving queryExecutorStatus)
             {| CustomLabels := {[ "instance" := "prod" ]}; EnabledMetrics := [];
                DisabledMetrics := []; Collectors := ∅ |})).1
    = (fun '(name, help, z) =>
         {| desc := NewDesc name help ["instance"; "replica_set"; "shard"];
            valueType := CounterValue; metricValue := of_Z z;
            labelValues := ["prod"; "unknown"; "unknown"] |})
      <$> [("mongodb_metrics_query_executor_total",
            "Total number of query executor operations", 7%Z);
           ("mongodb_metrics_query_executor_scanned_total",
            "Total number of documents scanned by query executor", 7%Z);
           ("mongodb_metrics_query_executor_scanned_objects_total",
            "Total number of objects scanned by query executor", 9%Z)].
Proof.
  rewrite (QueryExecutor_samples source_order (serving queryExecutorStatus)
             {| CustomLabels := {[ "instance" := "prod" ]}; EnabledMetrics := [];
                DisabledMetrics := []; Collectors := ∅ |}
             queryExecutorStatus
             {[ "queryExecutor" :=
                  VM {[ "scanned" := VInt64 7; "scannedObjects" := VInt64 9 ]} ]}
             {[ "scanned" := VInt64 7; "scannedObjects" := VInt64 9 ]}
             eq_refl eq_refl eq_refl eq_refl).
  reflexivity.
Defined.

(** ** The collection-stats collector *)

Lemma shouldMonitorCollection_loop_spec fullName monitored :
  CollStatsCollector.shouldMonitorCollection_loop fullName monitored = true <->
  "*" ∈ monitored \/ fullName ∈ monitored.
Proof.
  induction monitored as [|m monitored IH]; simpl.
  - rewrite !elem_of_nil. split; [discriminate|tauto].
  - rewrite !elem_of_cons.
    destruct (String.eqb_spec m fullName) as [->|Hf]; simpl; [tauto|].
    destruct (String.eqb_spec m "*") as [->|Hs]; simpl; [tauto|].
    rewrite IH. split; [tauto|]. intros [[?|?]|[?|?]]; try tauto; congruence.
Qed.

(** X19. [shouldMonitorCollection] accepts every collection when no
    collection is configured, and otherwise exactly those whose full name
    "db.collection" is on the list, or all of them when the list holds
    "*". *)
Theorem shouldMonitorCollection_spec (c : CollStatsCollector.CollStatsCollector)
    (dbName collName : string) :
  CollStatsCollector.shouldMonitorCollection c dbName collName = true <->
  CollStatsCollector.monitoredCollections c = [] \/
  "*" ∈ CollStatsCollector.monitoredCollections c \/
  (dbName +:+ "." +:+ collName) ∈ CollStatsCollector.monitoredCollections c.
Proof.
  unfold CollStatsCollector.shouldMonitorCollection.
  destruct (CollStatsCollector.monitoredCollections c) as [|m ms] eqn:Hm.
  - simpl. split; [by left | done].
  - destruct (decide (length (m :: ms) = 0)) as [Hlen|_]; [simpl in Hlen; lia|].
    cbv zeta. rewrite shouldMonitorCollection_loop_spec.
    split; [by right|]. by intros [?|?].
Qed.

Section CollStats.

Variable collectCollectionMetrics :
  CollStatsCollector.CollStatsCollector -> gmap string value -> string -> string ->
  gmap string string -> list Metric * Outcome unit.

Let Collect := CollStatsCollector.Collect collectCollectionMetrics.

Lemma log_bind {B} lv msg fs (k : Exec B) :
  (log lv msg fs;; k) =
    (ELog {| level := lv; message := msg; fields := fs |} :: k.1, k.2).
Proof. unfold log, mbind, Exec_bind, exec_bind. by destruct k. Qed.

Lemma CollStats_gate_gen c :
  (quiet (Collect c) <->
   BaseCollector.isMetricEnabled (CollStatsCollector.base c) "collstats" = false /\
   BaseCollector.isMetricEnabled (CollStatsCollector.base c) "collection_stats" = false) /\
  (EnabledMetrics (config (CollStatsCollector.base c)) = [] ->
   "collection_stats" ∉ DisabledMetrics (config (CollStatsCollector.base c)) ->
   QListDatabaseNames ∈ queried (Collect c).1).
Proof.
  unfold Collect, CollStatsCollector.Collect, quiet. rewrite log_bind. cbn [fst].
  assert (Hrun : forall k : result (list string) -> Exec unit,
            queried (ELog {| level := DebugLevel;
                             message := "Collection stats collector starting";
                             fields := [] |}
                     :: (ask QListDatabaseNames
                           (listDatabaseNames (client (CollStatsCollector.base c))) ≫= k).1)
            = QListDatabaseNames :: queried (k (listDatabaseNames
                                                 (client (CollStatsCollector.base c)))).1).
  { intros k. by rewrite ask_bind. }
  split.
  - destruct (BaseCollector.isMetricEnabled _ "collstats");
      destruct (BaseCollector.isMetricEnabled _ "collection_stats"); cbn [negb andb];
      try (rewrite Hrun; split; [discriminate | intros [? ?]; discriminate]).
    done.
  - intros Hallow Hdeny.
    assert (BaseCollector.isMetricEnabled (CollStatsCollector.base c) "collection_stats"
            = true) as ->.
    { unfold BaseCollector.isMetricEnabled. rewrite Hallow.
      destruct (contains _ _) eqn:Hc; [|done].
      apply contains_true in Hc. contradiction. }
    rewrite andb_false_r, Hrun. by left.
Qed.

Lemma collectCollectionStats_queries c dbName collName instance q :
  EQuery q ∈ (CollStatsCollector.collectCollectionStats collectCollectionMetrics
                c dbName collName instance).1 ->
  q = QRunCommand dbName "collStats" (VString collName).
Proof.
  unfold CollStatsCollector.collectCollectionStats. rewrite ask_bind. cbn [fst].
  intros [[= ->]|Hq]%elem_of_cons; [done|].
  destruct (runCommand _ _ _ _) as [stats|err].
  - by apply sending_no_query in Hq.
  - apply list_elem_of_singleton in Hq. discriminate.
Qed.

Lemma collectDatabaseCollectionStats_queries c dbName instance q :
  EQuery q ∈ (CollStatsCollector.collectDatabaseCollectionStats collectCollectionMetrics
                c dbName instance).1 ->
  q = QListCollectionNames dbName \/
  exists collections collName,
    listCollectionNames (client (CollStatsCollector.base c)) dbName = Ok collections /\
    collName ∈ collections /\
    shouldSkipCollection collName = false /\
    CollStatsCollector.shouldMonitorCollection c dbName collName = true /\
    q = QRunCommand dbName "collStats" (VString collName).
Proof.
  unfold CollStatsCollector.collectDatabaseCollectionStats. rewrite ask_bind. cbn [fst].
  intros [[= ->]|Hq]%elem_of_cons; [by left|right].
  destruct (listCollectionNames _ _) as [collections|err];
    [|apply list_elem_of_singleton in Hq; discriminate].
  rewrite log_bind in Hq. cbn [fst] in Hq.
  apply elem_of_cons in Hq as [?|Hq]; [discriminate|].
  apply in_forM_inv in Hq as (collName & Hin & Hq).
  exists collections, collName. split; [done|]. split; [done|].
  change (CollStatsCollector.shouldSkipCollection c collName)
    with (shouldSkipCollection collName) in Hq.
  destruct (shouldSkipCollection collName);
    [apply list_elem_of_singleton in Hq; discriminate|].
  destruct (CollStatsCollector.shouldMonitorCollection c dbName collName);
    [|apply list_elem_of_singleton in Hq; discriminate].
  cbn [negb] in Hq. cbv iota in Hq. rewrite log_bind in Hq. cbn [fst] in Hq.
  apply elem_of_cons in Hq as [?|Hq]; [discriminate|].
  split; [done|]. split; [done|]. by eapply collectCollectionStats_queries.
Qed.

Lemma CollStats_selection_gen c q :
  q ∈ queried (Collect c).1 ->
  q = QListDatabaseNames \/
  exists databases dbName,
    listDatabaseNames (client (CollStatsCollector.base c)) = Ok databases /\
    dbName ∈ databases /\ shouldSkipDatabase dbName = false /\
    (q = QListCollectionNames dbName \/
     exists collections collName,
       listCollectionNames (client (CollStatsCollector.base c)) dbName = Ok collections /\
       collName ∈ collections /\
       shouldSkipCollection collName = false /\
       CollStatsCollector.shouldMonitorCollection c dbName collName = true /\
       q = QRunCommand dbName "collStats" (VString collName)).
Proof.
  rewrite elem_of_queried. unfold Collect, CollStatsCollector.Collect.
  rewrite log_bind. cbn [fst].
  intros [?|Hq]%elem_of_cons; [discriminate|].
  destruct (_ && _); [apply list_elem_of_singleton in Hq; discriminate|].
  rewrite ask_bind in Hq. cbn [fst] in Hq.
  apply elem_of_cons in Hq as [[= ->]|Hq]; [by left|right].
  destruct (listDatabaseNames _) as [databases|err];
    [|apply list_elem_of_singleton in Hq; discriminate].
  rewrite log_bind in Hq. cbn [fst] in Hq.
  apply elem_of_cons in Hq as [?|Hq]; [discriminate|].
  cbv zeta in Hq.
  apply in_bind_inv in Hq as [Hq|(_ & _ & Hq)];
    [|apply list_elem_of_singleton in Hq; discriminate].
  apply in_forM_inv in Hq as (dbName & Hin & Hq).
  exists databases, dbName. split; [done|]. split; [done|].
  change (CollStatsCollector.shouldSkipDatabase c dbName)
    with (shouldSkipDatabase dbName) in Hq.
  destruct (shouldSkipDatabase dbName);
    [apply list_elem_of_singleton in Hq; discriminate|].
  rewrite log_bind in Hq. cbn [fst] in Hq.
  apply elem_of_cons in Hq as [?|Hq]; [discriminate|].
  split; [done|]. by eapply collectDatabaseCollectionStats_queries.
Qed.

Hypothesis metrics_return :
  forall c stats dbName collName instance,
    (collectCollectionMetrics c stats dbName collName instance).2 = Ret tt.

Lemma collectCollectionStats_returns c dbName collName instance :
  returns (CollStatsCollector.collectCollectionStats collectCollectionMetrics
             c dbName collName instance).
Proof.
  unfold CollStatsCollector.collectCollectionStats, returns.
  rewrite ask_bind. cbn [snd].
  destruct (runCommand _ _ _ _); [apply metrics_return | done].
Qed.

Lemma collectDatabaseCollectionStats_returns c dbName instance :
  returns (CollStatsCollector.collectDatabaseCollectionStats collectCollectionMetrics
             c dbName instance).
Proof.
  unfold CollStatsCollector.collectDatabaseCollectionStats, returns.
  rewrite ask_bind. cbn [snd].
  destruct (listCollectionNames _ _) as [collections|err]; [|done].
  rewrite log_bind. cbn [snd].
  apply forM_returns. intros collName _.
  destruct (CollStatsCollector.shouldSkipCollection c collName); [done|].
  destruct (negb _); [done|].
  unfold returns. rewrite log_bind. apply collectCollectionStats_returns.
Qed.

Lemma CollStats_selection_complete c databases dbName collections collName :
  BaseCollector.isMetricEnabled (CollStatsCollector.base c) "collstats" = true \/
  BaseCollector.isMetricEnabled (CollStatsCollector.base c) "collection_stats" = true ->
  listDatabaseNames (client (CollStatsCollector.base c)) = Ok databases ->
  dbName ∈ databases -> shouldSkipDatabase dbName = false ->
  listCollectionNames (client (CollStatsCollector.base c)) dbName = Ok collections ->
  collName ∈ collections -> shouldSkipCollection collName = false ->
  CollStatsCollector.shouldMonitorCollection c dbName collName = true ->
  QRunCommand dbName "collStats" (VString collName) ∈ queried (Collect c).1.
Proof.
  intros Hen Hdbs Hdb Hskipdb Hcolls Hcoll Hskip Hmon.
  rewrite elem_of_queried. unfold Collect, CollStatsCollector.Collect.
  rewrite log_bind. cbn [fst]. apply list_elem_of_further.
  assert (negb (BaseCollector.isMetricEnabled (CollStatsCollector.base c) "collstats")
          && negb (BaseCollector.isMetricEnabled (CollStatsCollector.base c)
                     "collection_stats") = false) as ->.
  { destruct Hen as [-> | ->]; [done|apply andb_false_r]. }
  rewrite ask_bind. cbn [fst]. apply list_elem_of_further.
  rewrite Hdbs. rewrite log_bind. cbn [fst]. apply list_elem_of_further.
  cbv zeta. apply in_seq_l.
  apply (in_forM _ _ dbName); [|done|].
  - intros db _. destruct (CollStatsCollector.shouldSkipDatabase c db); [done|].
    unfold returns. rewrite log_bind. apply collectDatabaseCollectionStats_returns.
  - change (CollStatsCollector.shouldSkipDatabase c dbName)
      with (shouldSkipDatabase dbName). rewrite Hskipdb.
    rewrite log_bind. cbn [fst]. apply list_elem_of_further.
    unfold CollStatsCollector.collectDatabaseCollectionStats.
    rewrite ask_bind. cbn [fst]. apply list_elem_of_further.
    rewrite Hcolls. rewrite log_bind. cbn [fst]. apply list_elem_of_further.
    apply (in_forM _ _ collName); [|done|].
    + intros coll _. destruct (CollStatsCollector.shouldSkipCollection c coll); [done|].
      destruct (negb _); [done|].
      unfold returns. rewrite log_bind. apply collectCollectionStats_returns.
    + change (CollStatsCollector.shouldSkipCollection c collName)
        with (shouldSkipCollection collName). rewrite Hskip, Hmon.
      cbn [negb]. cbv iota. rewrite log_bind. cbn [fst]. apply list_elem_of_further.
      unfold CollStatsCollector.collectCollectionStats. rewrite ask_bind. by left.
Qed.

End CollStats.

(** X20. The collection-stats collector runs unless both "collstats" and
    "collection_stats" are disabled: it issues no query exactly then.  So
    with an empty allow-list, putting its own name "collstats" on the
    deny-list does not disable it; it still lists the databases, as long
    as "collection_stats" is not denied as well. *)
Theorem CollStats_gate
    (collectCollectionMetrics :
       CollStatsCollector.CollStatsCollector -> gmap string value -> string -> string ->
       gmap string string -> list Metric * Outcome unit)
    (c : CollStatsCollector.CollStatsCollector) :
  let out := CollStatsCollector.Collect collectCollectionMetrics c in
  (quiet out <->
   BaseCollector.isMetricEnabled (CollStatsCollector.base c) "collstats" = false /\
   BaseCollector.isMetricEnabled (CollStatsCollector.base c) "collection_stats" = false) /\
  (EnabledMetrics (config (CollStatsCollector.base c)) = [] ->
   "collection_stats" ∉ DisabledMetrics (config (CollStatsCollector.base c)) ->
   QListDatabaseNames ∈ queried out.1).
Proof. apply CollStats_gate_gen. Qed.

(** X21. The collections the collection-stats collector asks about: every
    [collStats] it issues is for a listed database that is no system
    database and a listed collection of it that is no system collection
    and that [shouldMonitorCollection] accepts; so a system collection is
    never asked about, not even when the monitored list names it or holds
    "*".  Conversely, when the functions that send the metrics return,
    every such collection is asked about. *)
Theorem CollStats_selection
    (collectCollectionMetrics :
       CollStatsCollector.CollStatsCollector -> gmap string value -> string -> string ->
       gmap string string -> list Metric * Outcome unit)
    (c : CollStatsCollector.CollStatsCollector) :
  let out := CollStatsCollector.Collect collectCollectionMetrics c in
  let cl := client (CollStatsCollector.base c) in
  (forall q,
     q ∈ queried out.1 ->
     q = QListDatabaseNames \/
     exists databases dbName,
       listDatabaseNames cl = Ok databases /\
       dbName ∈ databases /\ shouldSkipDatabase dbName = false /\
       (q = QListCollectionNames dbName \/
        exists collections collName,
          listCollectionNames cl dbName = Ok collections /\
          collName ∈ collections /\
          shouldSkipCollection collName = false /\
          CollStatsCollector.shouldMonitorCollection c dbName collName = true /\
          q = QRunCommand dbName "collStats" (VString collName))) /\
  ((forall c stats dbName collName instance,
      (collectCollectionMetrics c stats dbName collName instance).2 = Ret tt) ->
   forall databases dbName collections collName,
     BaseCollector.isMetricEnabled (CollStatsCollector.base c) "collstats" = true \/
     BaseCollector.isMetricEnabled (CollStatsCollector.base c) "collection_stats" = true ->
     listDatabaseNames cl = Ok databases ->
     dbName ∈ databases -> shouldSkipDatabase dbName = false ->
     listCollectionNames cl dbName = Ok collections ->
     collName ∈ collections -> shouldSkipCollection collName = false ->
     CollStatsCollector.shouldMonitorCollection c dbName collName = true ->
     QRunCommand dbName "collStats" (VString collName) ∈ queried out.1).
Proof.
  split.
  - apply CollStats_selection_gen.
  - intros Hret databases dbName collections collName.
    by apply CollStats_selection_complete.
Qed.


(** ** The lock-metrics collector *)

Lemma LockMetrics_global_returns cl cfg locks labels :
  returns (LockMetricsCollector.collectGlobalLockMetrics
             (LockMetricsCollector.NewLockMetricsCollector cl cfg) locks labels).
Proof. unfold LockMetricsCollector.collectGlobalLockMetrics. exec_returns. Qed.

Lemma LockMetrics_collection_returns cl cfg locks labels :
  returns (LockMetricsCollector.collectCollectionLockMetrics
             (LockMetricsCollector.NewLockMetricsCollector cl cfg) locks labels).
Proof. unfold LockMetricsCollector.collectCollectionLockMetrics. exec_returns. Qed.

(** X22. When the [locks.Database.timeAcquiringMicros] document of a
    snapshot holds [int64] counts for both "r" and "w", the lock-metrics
    collector sends them one after the other as two samples of the same
    descriptor with the same label values: one series, two values.  The
    call returns. *)
Theorem LockMetrics_duplicate_series (o : MapOrder) (cl : Client) (cfg : CollectorConfig)
    (result locks database times : gmap string value) (r w : Z) :
  BaseCollector.isMetricEnabled (NewBaseCollector cl cfg) "lock_metrics" = true ->
  runCommand cl "admin" "serverStatus" (VInt 1) = Ok result ->
  result !! "locks" = Some (VM locks) ->
  locks !! "Database" = Some (VM database) ->
  database !! "timeAcquiringMicros" = Some (VM times) ->
  times !! "r" = Some (VInt64 r) ->
  times !! "w" = Some (VInt64 w) ->
  let out := LockMetricsCollector.Collect o
               (LockMetricsCollector.NewLockMetricsCollector cl cfg) in
  out.2 = Ret tt /\
  exists before after d lvs,
    out.1 = before ++
            [ESend {| desc := d; valueType := CounterValue; metricValue := of_Z r;
                      labelValues := lvs |};
             ESend {| desc := d; valueType := CounterValue; metricValue := of_Z w;
                      labelValues := lvs |}] ++ after.
Proof.
  intros Hen Hok Hlocks Hdb Htimes Hr Hw out. subst out.
  set (c := LockMetricsCollector.NewLockMetricsCollector cl cfg).
  unfold LockMetricsCollector.Collect.
  change (LockMetricsCollector.base c) with (NewBaseCollector cl cfg).
  rewrite Hen. cbn [negb]. cbv iota.
  rewrite ask_bind. change (client (NewBaseCollector cl cfg)) with cl.
  rewrite Hok. cbv beta iota zeta. cbn [fst snd].
  set (labels := LockMetricsCollector.getInstanceInfo o (NewBaseCollector cl cfg) result).
  unfold LockMetricsCollector.collectLockMetrics.
  rewrite (index_lookup _ _ _ Hlocks). cbn [as_M].
  pose proof (LockMetrics_global_returns cl cfg locks labels) as Hglobal.
  pose proof (LockMetrics_collection_returns cl cfg locks labels) as Hcoll.
  fold c in Hglobal, Hcoll.
  assert (Hdatabase :
    LockMetricsCollector.collectDatabaseLockMetrics c locks labels =
      ([ESend {| desc := NewDesc "mongodb_locks_time_acquiring_database_microseconds_total"
                                 "Total time spent acquiring database locks in microseconds"
                                 ["instance"; "replica_set"; "shard"];
                 valueType := CounterValue; metricValue := of_Z r;
                 labelValues := [label labels "instance"; label labels "replica_set";
                                 label labels "shard"] |};
        ESend {| desc := NewDesc "mongodb_locks_time_acquiring_database_microseconds_total"
                                 "Total time spent acquiring database locks in microseconds"
                                 ["instance"; "replica_set"; "shard"];
                 valueType := CounterValue; metricValue := of_Z w;
                 labelValues := [label labels "instance"; label labels "replica_set";
                                 label labels "shard"] |}], Ret tt)).
  { unfold LockMetricsCollector.collectDatabaseLockMetrics.
    rewrite (index_lookup _ _ _ Hdb). cbn [as_M].
    rewrite (index_lookup _ _ _ Htimes). cbn [as_M].
    rewrite (index_lookup _ _ _ Hr), (index_lookup _ _ _ Hw). cbn [as_int64].
    erewrite !emit_lookup_sends; [reflexivity|reflexivity|reflexivity|reflexivity|reflexivity]. }
  rewrite (bind_Ret _ _ tt Hglobal). cbn [fst snd].
  rewrite Hdatabase.
  cbn [mbind Exec_bind exec_bind].
  destruct (LockMetricsCollector.collectCollectionLockMetrics c locks labels)
    as [t outcome] eqn:Hc.
  unfold returns in Hcoll. cbn [snd] in Hcoll. subst outcome.
  split; [reflexivity|].
  eexists (EQuery _ :: _), t, _, _. cbn [fst]. rewrite <- app_comm_cons.
  reflexivity.
Qed.

Lemma LockMetrics_duplicate_series_witness :
  let out := LockMetricsCollector.Collect source_order
               (LockMetricsCollector.NewLockMetricsCollector (serving lockStatus)
                  defaultConfig) in
  out.2 = Ret tt /\
  exists before after d lvs,
    out.1 = before ++
            [ESend {| desc := d; valueType := CounterValue; metricValue := of_Z 120;
                      labelValues := lvs |};
             ESend {| desc := d; valueType := CounterValue; metricValue := of_Z 45;
                      labelValues := lvs |}] ++ after.
Proof.
  apply (LockMetrics_duplicate_series source_order (serving lockStatus) defaultConfig
           lockStatus
           {[ "Database" :=
                VM {[ "timeAcquiringMicros" :=
                        VM {[ "r" := VInt64 120; "w" := VInt64 45 ]} ]} ]}
           {[ "timeAcquiringMicros" := VM {[ "r" := VInt64 120; "w" := VInt64 45 ]} ]}
           {[ "r" := VInt64 120; "w" := VInt64 45 ]} 120 45
           eq_refl eq_refl eq_refl eq_refl eq_refl eq_refl eq_refl).
Defined.

(** ** Aggregating profile entries *)












Lemma onlySends_bind {A B} (m : Exec A) (f : A -> Exec B) :
  onlySends m -> (forall a, onlySends (f a)) -> onlySends (m ≫= f).
Proof.
  intros Hm Hf e [He|(a & _ & He)]%in_bind_inv; [by apply Hm | by eapply Hf].
Qed.

Lemma onlySends_mret {A} (a : A) : onlySends (mret a).
Proof. by intros e ?%elem_of_nil. Qed.

Lemma onlySends_emit dm vt v lvs : onlySends (emit dm vt v lvs).
Proof.
  intros e. unfold emit, MustNewConstMetric.
  destruct dm as [d|]; [|by intros ?%elem_of_nil].
  destruct (decide _); [|by intros ?%elem_of_nil].
  intros ->%list_elem_of_singleton. eauto.
Qed.

Lemma onlySends_forM {A} (l : list A) (body : A -> Exec unit) :
  (forall x, onlySends (body x)) -> onlySends (forM_ l body).
Proof. intros Hb e (y & _ & He)%in_forM_inv. by eapply Hb. Qed.

Lemma onlySends_trace (t : list Event) :
  (forall e, e ∈ t -> exists x, e = ESend x) -> t = ESend <$> sent t.
Proof.
  induction t as [|e t IH]; intros Ht; [done|].
  destruct (Ht e) as [x ->]; [left|].
  cbn. f_equal. apply IH. intros e' He'. apply Ht. by right.
Qed.

Ltac exec_only_sends :=
  repeat first
    [ apply onlySends_mret
    | apply onlySends_emit
    | apply onlySends_forM; intros [? ?]
    | apply onlySends_bind; [|intros _]
    | match goal with
      | |- onlySends (if ?b then _ else _) => destruct b
      end ].

(** X24. [aggregateProfileMetrics] does nothing but send: it issues no
    query and writes no log entry, whatever the entries; it is one of the
    functions that [Collect] of the profile collector may be run with. *)
Theorem aggregateProfileMetrics_only_sends (o : MapOrder)
    (c : ProfileCollector.ProfileCollector) (entries : list (gmap string value))
    (dbName : string) (instance : gmap string string) :
  let out := ProfileCollector.aggregateProfileMetrics o c entries dbName instance in
  sending (sent out.1, out.2) = out.
Proof.
  cbv zeta.
  assert (onlySends (ProfileCollector.aggregateProfileMetrics o c entries dbName instance))
    as Honly.
  { unfold ProfileCollector.aggregateProfileMetrics.
    destruct (ProfileCollector.aggregateProfileMetrics_loop o c entries)
      as [operationStats planSummaryStats].
    unfold ProfileCollector.emitOperationMetrics, ProfileCollector.emitPlanSummaryMetrics.
    exec_only_sends. }
  destruct (ProfileCollector.aggregateProfileMetrics o c entries dbName instance)
    as [t outcome].
  unfold sending. cbn [fst snd]. f_equal. symmetry. by apply onlySends_trace.
Qed.

Lemma emit_arity c key n vt v lvs :
  arity c key n -> length lvs = n ->
  returns (emit (ProfileCollector.descriptors c !! key) vt v lvs).
Proof.
  intros (d & -> & Hn) Hlen. rewrite emit_sends by congruence. reflexivity.
Qed.

(** X25. When the descriptors of the profile collector exist and have
    the numbers of label names that its constructor gives them (six for
    the metrics of an operation, seven for those of a lock or a storage
    counter, five for the plan summaries), [aggregateProfileMetrics]
    returns: no send of it panics, whatever the entries. *)
Theorem aggregateProfileMetrics_returns (o : MapOrder)
    (c : ProfileCollector.ProfileCollector) (entries : list (gmap string value))
    (dbName : string) (instance : gmap string string) :
  Forall (fun key => arity c key 6)
    ["profile_slow_operations_total"; "profile_operations_duration_seconds";
     "profile_operations_examined_docs"; "profile_operations_docs_returned";
     "profile_operations_keys_examined"; "profile_operations_response_length_bytes";
     "profile_write_conflicts_total"; "profile_cpu_time_microseconds"] ->
  Forall (fun key => arity c key 7)
    ["profile_operations_locks_acquired";
     "profile_operations_lock_wait_time_microseconds"; "profile_storage_stats_total"] ->
  arity c "profile_plan_summary_total" 5 ->
  returns (ProfileCollector.aggregateProfileMetrics o c entries dbName instance).
Proof.
  intros H6 H7 H5.
  repeat (apply Forall_cons in H6 as [? H6]).
  repeat (apply Forall_cons in H7 as [? H7]).
  unfold ProfileCollector.aggregateProfileMetrics.
  destruct (ProfileCollector.aggregateProfileMetrics_loop o c entries)
    as [operationStats planSummaryStats].
  unfold ProfileCollector.emitOperationMetrics, ProfileCollector.emitPlanSummaryMetrics.
  repeat first
    [ apply mret_returns
    | apply seq_returns
    | apply forM_returns; intros [? ?] _
    | eapply emit_arity; [eassumption|reflexivity]
    | match goal with
      | |- returns (if ?b then _ else _) => destruct b
      end ].
Qed.

Lemma aggregateProfileMetrics_returns_witness :
  returns (ProfileCollector.aggregateProfileMetrics source_order profiler
             [slowQuery; slowInsert] "shop" ∅).
Proof.
  apply aggregateProfileMetrics_returns;
    repeat first [ apply Forall_nil_2 | apply Forall_cons_2
                 | (eexists; split; reflexivity) ].
Defined.


